(** * Property search, facility distances and the radius query

    A shallow embedding of the request handlers of [server/routes.ts]
    that carry the listing's filter/pagination logic and the
    nearby-facility distance logic, with the page-count consumer of
    [client/src/pages/properties-page.tsx]:

    - [GET /api/properties]                          (routes.ts 210-274)
    - [GET /api/properties/:id/nearby-facilities]    (routes.ts 307-347)
    - [POST /api/admin/properties/:propertyId/facilities] (routes.ts 790-869)

    The module [Admin] holds the other routes of [server/routes.ts],
    for users, inquiries, properties and media, with their access
    middleware and the inquiry notification of [server/email.ts]; the
    module [Pager] holds the pager of the listing page.

    JavaScript numbers are IEEE-754 doubles.  They are modelled by their
    exact rational value, with the rounding to the nearest double written
    out; strings are sequences of code units below 256; [req.query] is a
    finite map from parameter names to strings. *)

From stdpp Require Import gmap strings list.
From Stdlib Require Import Ascii ZArith QArith Qabs Qround DecimalString SpecFloat.
From Stdlib Require Import Lia Lqa.

Local Open Scope Z_scope.

(* ================================================================== *)
(** ** JavaScript numbers *)
(* ================================================================== *)

Module JsNumber.

(** A double is [NaN], an infinity, or a finite value given by the
    rational it denotes.  The sign of zero is not tracked: the handlers
    below only compare numbers, test their truthiness, print them and
    divide by non-zero divisors, and none of these tells [-0] from [0]. *)
Inductive number : Type :=
  | NaN
  | Infinity (negative : bool)
  | Fin (q : Q).

(** [n / d] rounded to the nearest integer, ties to the even one
    ([0 <= n], [0 < d]). *)
Definition div_half_even (n d : Z) : Z :=
  let k := n / d in
  match 2 * (n mod d) ?= d with
  | Lt => k
  | Gt => k + 1
  | Eq => if Z.even k then k else k + 1
  end.

(** [floor (log2 (n / d))] for [0 < n], [0 < d]. *)
Definition ilog2 (n d : Z) : Z :=
  let e0 := Z.log2 n - Z.log2 d in
  let above := if 0 <=? e0 then d * 2 ^ e0 <=? n else d <=? n * 2 ^ (- e0) in
  if above then e0 else e0 - 1.

(** Round-to-nearest-even of the positive rational [n / d] to binary64:
    53 bits of precision, least exponent of the last place [-1074];
    [None] when the rounded value reaches [2^1024] (overflow). *)
Definition round_pos (n d : Z) : option Q :=
  let ex := Z.max (ilog2 n d - 52) (-1074) in
  if 0 <=? ex then
    let v := div_half_even n (d * 2 ^ ex) * 2 ^ ex in
    if 2 ^ 1024 <=? v then None else Some (inject_Z v)
  else
    Some (Qred (Qmake (div_half_even (n * 2 ^ (- ex)) d) (Z.to_pos (2 ^ (- ex))))).

(** The double nearest to a rational. *)
Definition round64 (q : Q) : number :=
  match Qnum q with
  | Z0 => Fin 0
  | Zpos n =>
      match round_pos (Zpos n) (Zpos (Qden q)) with
      | Some v => Fin v
      | None => Infinity false
      end
  | Zneg n =>
      match round_pos (Zpos n) (Zpos (Qden q)) with
      | Some v => Fin (Qred (- v))
      | None => Infinity true
      end
  end.

(** Integers of the data layer (row counts, INT columns) are far below
    [2^53], where every integer is a double. *)
Definition of_Z (z : Z) : number := Fin (inject_Z z).

Definition isNaN (x : number) : bool :=
  match x with NaN => true | _ => false end.

(** [ToBoolean] on numbers: [0] and [NaN] are falsy. *)
Definition truthy (x : number) : bool :=
  match x with
  | NaN => false
  | Infinity _ => true
  | Fin q => negb (Qeq_bool q 0)
  end.

(** [x || d] on numbers. *)
Definition or_else (x d : number) : number := if truthy x then x else d.

Definition is_neg (q : Q) : bool := Qnum q <? 0.

Definition mul (x y : number) : number :=
  match x, y with
  | NaN, _ | _, NaN => NaN
  | Infinity s, Infinity t => Infinity (xorb s t)
  | Infinity s, Fin q | Fin q, Infinity s =>
      if Qeq_bool q 0 then NaN else Infinity (xorb s (is_neg q))
  | Fin a, Fin b => round64 (a * b)
  end.

(** Division; a zero divisor is read as [+0]. *)
Definition div (x y : number) : number :=
  match x, y with
  | NaN, _ | _, NaN => NaN
  | Infinity _, Infinity _ => NaN
  | Infinity s, Fin q => Infinity (xorb s (is_neg q))
  | Fin _, Infinity _ => Fin 0
  | Fin a, Fin b =>
      if Qeq_bool b 0
      then (if Qeq_bool a 0 then NaN else Infinity (is_neg a))
      else round64 (a / b)
  end.

Definition add (x y : number) : number :=
  match x, y with
  | NaN, _ | _, NaN => NaN
  | Infinity s, Infinity t => if Bool.eqb s t then Infinity s else NaN
  | Infinity s, Fin _ | Fin _, Infinity s => Infinity s
  | Fin a, Fin b => round64 (a + b)
  end.

Definition opp (x : number) : number :=
  match x with
  | NaN => NaN
  | Infinity s => Infinity (negb s)
  | Fin q => Fin (Qred (- q))
  end.

Definition sub (x y : number) : number := add x (opp y).

(** [x <= y] and [x < y]; any comparison with [NaN] is false. *)
Definition leb (x y : number) : bool :=
  match x, y with
  | NaN, _ | _, NaN => false
  | Infinity true, _ => true
  | _, Infinity false => true
  | Infinity false, _ => false
  | _, Infinity true => false
  | Fin a, Fin b => Qle_bool a b
  end.

Definition ltb (x y : number) : bool :=
  match x, y with
  | NaN, _ | _, NaN => false
  | Infinity true, Infinity true => false
  | Infinity false, Infinity false => false
  | Infinity true, _ => true
  | _, Infinity false => true
  | Infinity false, _ => false
  | _, Infinity true => false
  | Fin a, Fin b => negb (Qle_bool b a)
  end.

(** [Math.round]: the nearest integer, halves towards [+Infinity]. *)
Definition Math_round (x : number) : number :=
  match x with
  | Fin q => of_Z (Qfloor (q + (1 # 2)))
  | _ => x
  end.

(** [Math.ceil]. *)
Definition Math_ceil (x : number) : number :=
  match x with
  | Fin q => of_Z (Qceiling q)
  | _ => x
  end.

(** [Math.PI], the double [3.141592653589793]. *)
Definition Math_PI : number := Fin (884279719003555 # 281474976710656).

End JsNumber.

Import JsNumber.

(* ================================================================== *)
(** ** JavaScript strings and the number/string conversions *)
(* ================================================================== *)

Module JsString.

Local Open Scope string_scope.

Definition code (c : ascii) : N := N_of_ascii c.

(** [\d]: the ASCII digits. *)
Definition is_digit (c : ascii) : bool :=
  ((48 <=? code c) && (code c <=? 57))%N.

Definition digit_val (c : ascii) : Z := Z.of_N (code c) - 48.

(** Hexadecimal digits and their values (for [parseInt]'s [0x] prefix). *)
Definition hex_val (c : ascii) : option Z :=
  let n := code c in
  if ((48 <=? n) && (n <=? 57))%N then Some (Z.of_N n - 48)
  else if ((97 <=? n) && (n <=? 102))%N then Some (Z.of_N n - 87)
  else if ((65 <=? n) && (n <=? 70))%N then Some (Z.of_N n - 55)
  else None.

(** White space skipped by [parseInt] and [parseFloat]: TAB, LF, VT,
    FF, CR, SP and NBSP among the code units below 256. *)
Definition is_space (c : ascii) : bool :=
  let n := code c in
  ((9 <=? n) && (n <=? 13) || (n =? 32) || (n =? 160))%N.

Fixpoint trim_start (s : string) : string :=
  match s with
  | String c r => if is_space c then trim_start r else s
  | EmptyString => EmptyString
  end.

(** The longest prefix of digits, and what follows it. *)
Fixpoint span_digits (s : string) : string * string :=
  match s with
  | String c r =>
      if is_digit c
      then let '(d, t) := span_digits r in (String c d, t)
      else (EmptyString, s)
  | EmptyString => (EmptyString, EmptyString)
  end.

(** The value of a string of decimal digits, most significant first. *)
Fixpoint decimal_value (acc : Z) (s : string) : Z :=
  match s with
  | String c r => decimal_value (10 * acc + digit_val c) r
  | EmptyString => acc
  end.

(** The longest prefix of hexadecimal digits: its value, and whether it
    is non-empty. *)
Fixpoint hex_prefix (acc : Z) (seen : bool) (s : string) : Z * bool :=
  match s with
  | String c r =>
      match hex_val c with
      | Some v => hex_prefix (16 * acc + v) true r
      | None => (acc, seen)
      end
  | EmptyString => (acc, seen)
  end.

(** A leading sign: whether it is [-], and the rest. *)
Definition strip_sign (s : string) : bool * string :=
  match s with
  | String "-" r => (true, r)
  | String "+" r => (false, r)
  | _ => (false, s)
  end.

Definition signed (neg : bool) (x : number) : number :=
  if neg then opp x else x.

(** [parseInt(s)] with no radix: leading white space and sign, a [0x]
    prefix selects base 16, then the longest prefix of digits; [NaN]
    when there is none. *)
Definition parseInt (s : string) : number :=
  let '(neg, s1) := strip_sign (trim_start s) in
  match s1 with
  | String "0" (String "x" r) | String "0" (String "X" r) =>
      let '(v, seen) := hex_prefix 0 false r in
      if seen then signed neg (round64 (inject_Z v)) else NaN
  | _ =>
      let '(d, _) := span_digits s1 in
      match d with
      | EmptyString => NaN
      | _ => signed neg (round64 (inject_Z (decimal_value 0 d)))
      end
  end.

(** A query parameter or field that may be [undefined]:
    [ToString(undefined)] is ["undefined"]. *)
Definition to_string_arg (o : option string) : string :=
  match o with Some s => s | None => "undefined" end.

(** [m * 10^k] as a double. *)
Definition scale10 (m k : Z) : number :=
  if (0 <=? k)%Z then round64 (inject_Z (m * 10 ^ k))
  else round64 (Qmake m (Z.to_pos (10 ^ (- k)))).

(** The exponent part [e[+-]digits] at the head of [s], if any. *)
Definition exponent_part (s : string) : Z :=
  match s with
  | String "e" r | String "E" r =>
      let '(neg, r1) := strip_sign r in
      let '(d, _) := span_digits r1 in
      match d with
      | EmptyString => 0
      | _ => if neg then - decimal_value 0 d else decimal_value 0 d
      end
  | _ => 0
  end.

(** [parseFloat(s)]: leading white space, then the longest prefix that
    is a decimal literal ([Infinity], digits with an optional fraction
    and exponent, or a fraction alone); [NaN] when there is none. *)
Definition parseFloat (s : string) : number :=
  let '(neg, s1) := strip_sign (trim_start s) in
  if String.prefix "Infinity" s1 then Infinity neg
  else
    let '(ip, r1) := span_digits s1 in
    let '(fp, r2) :=
      match r1 with
      | String "." r => span_digits r
      | _ => (EmptyString, r1)
      end in
    match ip, fp with
    | EmptyString, EmptyString => NaN
    | _, _ =>
        signed neg
          (scale10 (decimal_value 0 (ip +:+ fp))
                   (exponent_part r2 - Z.of_nat (String.length fp)))
    end.

(** [s.match(/^(\d+(\.\d+)?)/)]: the first capture group, or [None]
    when the string does not start with a digit. *)
Definition match_leading_number (s : string) : option string :=
  let '(ip, r1) := span_digits s in
  match ip with
  | EmptyString => None
  | _ =>
      match r1 with
      | String "." r =>
          let '(fp, _) := span_digits r in
          match fp with
          | EmptyString => Some ip
          | _ => Some (ip +:+ "." +:+ fp)
          end
      | _ => Some ip
      end
  end.

(** [toLowerCase] on one code unit: [A]-[Z], and the capital letters
    of Latin-1 (U+00C0 to U+00DE but the multiplication sign). *)
Definition lower (c : ascii) : ascii :=
  let n := code c in
  if ((65 <=? n) && (n <=? 90)
      || (192 <=? n) && (n <=? 222) && negb (n =? 215))%N
  then ascii_of_N (n + 32) else c.

Fixpoint toLowerCase (s : string) : string :=
  match s with
  | String c r => String (lower c) (toLowerCase r)
  | EmptyString => EmptyString
  end.

(** [s.includes(sub)]. *)
Fixpoint includes (s sub : string) : bool :=
  String.prefix sub s ||
  match s with
  | String _ r => includes r sub
  | EmptyString => false
  end.

End JsString.

Import JsString.

(* ================================================================== *)
(** ** Printing numbers: [Number::toString] and [toFixed] *)
(* ================================================================== *)

Module JsFormat.

Local Open Scope string_scope.

(** The decimal digits of a natural number (["0"] for zero). *)
Definition digits_of (z : Z) : string :=
  NilZero.string_of_uint (N.to_uint (Z.to_N z)).

Fixpoint zeros_nat (n : nat) : string :=
  match n with
  | O => EmptyString
  | S k => String "0" (zeros_nat k)
  end.

Definition zeros (n : Z) : string := zeros_nat (Z.to_nat n).

Definition number_eqb (x y : number) : bool :=
  match x, y with
  | Fin a, Fin b => Qeq_bool a b
  | Infinity s, Infinity t => Bool.eqb s t
  | _, _ => false
  end.

(** The [n0] with [10^(n0-1) <= n/d < 10^n0], for [0 < n], [0 < d]. *)
Definition mag10 (n d : Z) : Z :=
  let e := Z.of_nat (String.length (digits_of n))
           - Z.of_nat (String.length (digits_of d)) in
  let above :=
    if (0 <=? e)%Z then (d * 10 ^ e <=? n)%Z else (d <=? n * 10 ^ (- e))%Z in
  if above then e + 1 else e.

(** The positive rational [q] divided by [10^j]. *)
Definition shift10 (q : Q) (j : Z) : Q :=
  if (0 <=? j)%Z then q / inject_Z (10 ^ j) else q * inject_Z (10 ^ (- j)).

(** For a given number [k] of digits: the [(n, s)] with
    [10^(k-1) <= s < 10^k] nearest to [q] such that [s * 10^(n-k)]
    rounds to the double [q], if there is one. *)
Definition digits_at (q : Q) (n0 k : Z) : option (Z * Z) :=
  let t := shift10 q (n0 - k) in
  let lo := (n0, Qfloor t) in
  let hi := if (Qceiling t =? 10 ^ k)%Z then (n0 + 1, 10 ^ (k - 1))
            else (n0, Qceiling t) in
  let ok '(n, s) := number_eqb (scale10 s (n - k)) (Fin q) in
  let err '(n, s) := Qabs (shift10 (inject_Z s) (k - n) - q) in
  match ok lo, ok hi with
  | true, true =>
      match (err lo ?= err hi)%Q with
      | Lt => Some lo
      | Gt => Some hi
      | Eq => if Z.even (snd lo) then Some lo else Some hi
      end
  | true, false => Some lo
  | false, true => Some hi
  | false, false => None
  end.

(** The least [k] (at most 17, which always suffices for a double)
    with its [(n, s)]. *)
Fixpoint shortest (fuel : nat) (q : Q) (n0 k : Z) : Z * Z * Z :=
  match fuel with
  | O => (n0, k, Qfloor (shift10 q (n0 - k)))
  | S fuel' =>
      match digits_at q n0 k with
      | Some (n, s) => (n, k, s)
      | None => shortest fuel' q n0 (k + 1)
      end
  end.

(** [Number::toString] of a positive finite number. *)
Definition toString_pos (q : Q) : string :=
  let '(n, k, s) := shortest 17 q (mag10 (Qnum q) (Zpos (Qden q))) 1 in
  let d := digits_of s in
  if ((k <=? n) && (n <=? 21))%Z then d +:+ zeros (n - k)
  else if ((0 <? n) && (n <=? 21))%Z then
    String.substring 0 (Z.to_nat n) d +:+ "." +:+
    String.substring (Z.to_nat n) (Z.to_nat (k - n)) d
  else if ((-6 <? n) && (n <=? 0))%Z then "0." +:+ zeros (- n) +:+ d
  else
    let e := (n - 1)%Z in
    let es := (if (e <? 0)%Z then "-" else "+") +:+ digits_of (Z.abs e) in
    if (k =? 1)%Z then d +:+ "e" +:+ es
    else String.substring 0 1 d +:+ "." +:+
         String.substring 1 (Z.to_nat (k - 1)) d +:+ "e" +:+ es.

(** [Number::toString], as used by template literals. *)
Definition Number_toString (x : number) : string :=
  match x with
  | NaN => "NaN"
  | Infinity s => if s then "-Infinity" else "Infinity"
  | Fin q =>
      if Qeq_bool q 0 then "0"
      else if is_neg q then "-" +:+ toString_pos (Qred (- q))
      else toString_pos (Qred q)
  end.

(** [x.toFixed(f)]: the nearest multiple of [10^-f], the larger one on
    a tie, printed with exactly [f] fraction digits. *)
Definition toFixed (x : number) (f : Z) : string :=
  match x with
  | Fin q =>
      let sgn := if is_neg q then "-" else "" in
      let a := Qabs q in
      if Qle_bool (inject_Z (10 ^ 21)) a then sgn +:+ Number_toString (Fin a)
      else
        let n := Qfloor (a * inject_Z (10 ^ f) + (1 # 2)) in
        let m := digits_of n in
        if (f =? 0)%Z then sgn +:+ m
        else
          let m := zeros (f + 1 - Z.of_nat (String.length m)) +:+ m in
          let k := String.length m in
          sgn +:+ String.substring 0 (k - Z.to_nat f) m +:+ "." +:+
          String.substring (k - Z.to_nat f) (Z.to_nat f) m
  | _ => Number_toString x
  end.

End JsFormat.

Import JsFormat.

(* ================================================================== *)
(** ** JavaScript values of request bodies and JSON *)
(* ================================================================== *)

Module JsValue.

Local Open Scope string_scope.

(** The scalar values a JSON body field can hold, and [undefined] for
    an absent field. *)
Inductive value : Type :=
  | VUndefined
  | VNull
  | VBool (b : bool)
  | VNumber (n : number)
  | VString (s : string).

(** [ToBoolean]: [undefined], [null], [false], [0], [NaN] and [""]
    are falsy. *)
Definition ToBoolean (v : value) : bool :=
  match v with
  | VUndefined | VNull => false
  | VBool b => b
  | VNumber n => truthy n
  | VString EmptyString => false
  | VString _ => true
  end.

Definition ToString (v : value) : string :=
  match v with
  | VUndefined => "undefined"
  | VNull => "null"
  | VBool b => if b then "true" else "false"
  | VNumber n => Number_toString n
  | VString s => s
  end.

(** A string that may be [null]/[undefined], as a condition. *)
Definition nonempty (o : option string) : bool :=
  match o with
  | Some (String _ _) => true
  | _ => false
  end.

(** What [JSON.stringify] followed by [JSON.parse] leaves of a number:
    [NaN] and the infinities become [null]. *)
Definition JSON_number (x : number) : value :=
  match x with
  | Fin _ => VNumber x
  | _ => VNull
  end.

End JsValue.

Import JsValue.

(* ================================================================== *)
(** ** Storage calls, exceptions and the handler monad *)
(* ================================================================== *)

Module Effects.

(** What a handler can throw into its [catch]. *)
Inductive exn : Type :=
  | StorageError      (* a rejected storage promise *)
  | TypeError         (* calling a method a value does not have *)
  | ValidationError.  (* the insert schema rejects the data *)

Inductive outcome (A : Type) : Type :=
  | Returned (a : A)
  | Thrown (e : exn).
Arguments Returned {A} a.
Arguments Thrown {A} e.

Section Monad.
(** [C] is the type of log entries: one per call to the storage. *)
Context {C : Type}.

Definition M (A : Type) : Type := list C -> outcome A * list C.

Definition ret {A} (a : A) : M A := fun log => (Returned a, log).

Definition bind {A B} (m : M A) (k : A -> M B) : M B :=
  fun log =>
    match m log with
    | (Returned a, log') => k a log'
    | (Thrown e, log') => (Thrown e, log')
    end.

Definition throw {A} (e : exn) : M A := fun log => (Thrown e, log).

(** [await storage.f(args)]: the call is logged; [None] is a rejected
    promise. *)
Definition await {A} (c : C) (r : option A) : M A :=
  fun log =>
    match r with
    | Some a => (Returned a, log ++ [c])
    | None => (Thrown StorageError, log ++ [c])
    end.

(** [try { m } catch (error) { h error }]. *)
Definition try_catch {A} (m : M A) (h : exn -> M A) : M A :=
  fun log =>
    match m log with
    | (Returned a, log') => (Returned a, log')
    | (Thrown e, log') => h e log'
    end.

(** Run a handler from an empty log. *)
Definition run {A} (m : M A) : outcome A * list C := m [].
End Monad.

Arguments M : clear implicits.

(** stdpp's monad notations ([x ← m; k], [mret]) for handlers. *)
#[export] Instance M_ret {C} : MRet (M C) := @ret C.
#[export] Instance M_bind {C} : MBind (M C) := fun A B k m => bind m k.

End Effects.

Import Effects.

(* ================================================================== *)
(** ** The routes *)
(* ================================================================== *)

Module Routes.

Local Open Scope string_scope.

(** *** Rows, requests and responses *)

(** A property row, with the columns the handlers read. *)
Record Property : Type := {
  property_id : Z;
  property_latitude : option string;
  property_longitude : option string
}.

(** A nearby-facility row. [distance] is the display text,
    [distanceValue] the canonical distance in meters ([None] is SQL
    [NULL]). *)
Record NearbyFacility : Type := {
  facility_id : Z;
  facility_propertyId : Z;
  facilityName : string;
  facilityType : string;
  distance : option string;
  distanceValue : option number
}.

(** The filter object handed to [storage.getPropertiesWithPagination]. *)
Record Filters : Type := {
  page : number;
  limit : number;
  status : option string;
  category : option string;
  propertyType : option string;
  subType : option string;
  minPrice : option number;
  maxPrice : option number;
  minArea : option number;
  maxArea : option number;
  bedrooms : option number;
  bathrooms : option number;
  furnishedStatus : option string;
  parking : option string;
  facing : option string;
  search : option string
}.

(** [facilityData]: the request body with [propertyId] added. *)
Record FacilityData : Type := {
  fd_propertyId : number;
  fd_facilityName : value;
  fd_facilityType : value;
  fd_distance : value;
  fd_distanceValue : value;
  fd_latitude : value;
  fd_longitude : value
}.

Definition set_distanceValue (fd : FacilityData) (v : value) : FacilityData :=
  {| fd_propertyId := fd_propertyId fd;
     fd_facilityName := fd_facilityName fd;
     fd_facilityType := fd_facilityType fd;
     fd_distance := fd_distance fd;
     fd_distanceValue := v;
     fd_latitude := fd_latitude fd;
     fd_longitude := fd_longitude fd |}.

Definition set_distance (fd : FacilityData) (v : value) : FacilityData :=
  {| fd_propertyId := fd_propertyId fd;
     fd_facilityName := fd_facilityName fd;
     fd_facilityType := fd_facilityType fd;
     fd_distance := v;
     fd_distanceValue := fd_distanceValue fd;
     fd_latitude := fd_latitude fd;
     fd_longitude := fd_longitude fd |}.

(** The body of [POST .../facilities]. *)
Record FacilityBody : Type := {
  body_facilityName : value;
  body_facilityType : value;
  body_distance : value;
  body_distanceValue : value;
  body_latitude : value;
  body_longitude : value
}.

Record FacilityRequest : Type := {
  fr_authenticated : bool;
  fr_propertyId : string;         (* req.params.propertyId *)
  fr_body : FacilityBody
}.

Record NearbyRequest : Type := {
  nr_id : string;                 (* req.params.id *)
  nr_query : gmap string string   (* req.query *)
}.

Record Pagination : Type := {
  pagination_page : number;
  pagination_limit : number;
  pagination_total : number;
  pagination_totalPages : number
}.

Record Listing : Type := {
  listing_properties : list Property;
  listing_pagination : Pagination
}.

Inductive response (A : Type) : Type :=
  | Respond (status : Z) (body : A)        (* res.status(n).json(body) *)
  | Fail (status : Z) (message : string)   (* res.status(n).json({ message }),
                                              or { error } for the listing *)
  | Next (e : exn).                        (* next(error) *)
Arguments Respond {A} status body.
Arguments Fail {A} status message.
Arguments Next {A} e.

(** *** The storage *)

Inductive StorageCall : Type :=
  | GetPropertiesWithPagination (filters : Filters)
  | GetNearbyFacilities (id : number)
  | GetPropertyById (id : number)
  | CreateNearbyFacility (data : FacilityData).

(** [storage], the data-access object imported from server/storage:
    each method returns its result, or [None] when its promise rejects.
    [insertNearbyFacilitySchema.parse], imported from shared/schema,
    returns the validated data or throws.  The handlers are parametric
    in both. *)
Record Storage : Type := {
  getPropertiesWithPagination : Filters -> option (list Property * N);
  getNearbyFacilities : number -> option (list NearbyFacility);
  getPropertyById : number -> option (option Property);
  createNearbyFacility : FacilityData -> option NearbyFacility;
  insertNearbyFacilitySchema_parse : FacilityData -> option FacilityData
}.

(** [Math.sin], [Math.cos], [Math.sqrt] and [Math.atan2] are platform
    functions on doubles; the handlers are parametric in them. *)
Class MathLib : Type := {
  Math_sin : number -> number;
  Math_cos : number -> number;
  Math_sqrt : number -> number;
  Math_atan2 : number -> number -> number
}.

Section Handlers.
Context (storage : Storage) `{MathLib}.

Abbreviation Handler := (M StorageCall).

(** *** GET /api/properties (routes.ts 210-274) *)

(** [parseInt(req.query.p as string)]. *)
Definition parseInt_query (query : gmap string string) (p : string) : number :=
  parseInt (to_string_arg (query !! p)).

(** [req.query.p ? parseInt(req.query.p as string) : undefined]. *)
Definition numeric_query (query : gmap string string) (p : string)
  : option number :=
  if nonempty (query !! p) then Some (parseInt_query query p) else None.

(** Lines 215-250: the filter object built from the query string. *)
Definition filters (query : gmap string string) : Filters :=
  {| page := or_else (parseInt_query query "page") (of_Z 1);
     limit := or_else (parseInt_query query "limit") (of_Z 9);
     status := query !! "status";
     category := query !! "category";
     propertyType := query !! "propertyType";
     subType := query !! "subType";
     minPrice := numeric_query query "minPrice";
     maxPrice := numeric_query query "maxPrice";
     minArea := numeric_query query "minArea";
     maxArea := numeric_query query "maxArea";
     bedrooms := numeric_query query "bedrooms";
     bathrooms := numeric_query query "bathrooms";
     furnishedStatus := query !! "furnishedStatus";
     parking := query !! "parking";
     facing := query !! "facing";
     search := query !! "search" |}.

(** Line 259: [Math.ceil(total / limit)]. *)
Definition totalPages (total : N) (limit : number) : number :=
  Math_ceil (div (of_Z (Z.of_N total)) limit).

Definition getProperties (query : gmap string string)
  : Handler (response Listing) :=
  try_catch
    (let f := filters query in
     r ← await (GetPropertiesWithPagination f)
               (getPropertiesWithPagination storage f);
     let '(properties, total) := r in
     mret (Respond 200
             {| listing_properties := properties;
                listing_pagination :=
                  {| pagination_page := page f;
                     pagination_limit := limit f;
                     pagination_total := of_Z (Z.of_N total);
                     pagination_totalPages := totalPages total (limit f) |} |}))
    (fun _ => mret (Fail 500 "Failed to fetch properties")).

(** *** GET /api/properties/:id/nearby-facilities (routes.ts 307-347) *)

(** Lines 314-315: [parseFloat(radius) || 1], with [radius = '1'] when
    the parameter is absent. *)
Definition searchRadius (query : gmap string string) : number :=
  or_else (parseFloat (default "1" (query !! "radius"))) (of_Z 1).

(** Line 316. *)
Definition searchRadiusMeters (query : gmap string string) : number :=
  mul (searchRadius query) (of_Z 1000).

(** Lines 321-336: the predicate of [filteredByRadius]. *)
Definition withinRadius (query : gmap string string) (facility : NearbyFacility)
  : bool :=
  match distanceValue facility with
  | Some dv => leb dv (searchRadiusMeters query)
  | None =>
      match distance facility with
      | Some text =>
          match match_leading_number text with
          | Some distanceMatch => leb (parseFloat distanceMatch) (searchRadius query)
          | None => false
          end
      | None => false
      end
  end.

Definition filteredByRadius (query : gmap string string)
    (facilities : list NearbyFacility) : list NearbyFacility :=
  List.filter (withinRadius query) facilities.

(** Lines 339-341: the optional facility-type filter. *)
Definition result (query : gmap string string)
    (facilities : list NearbyFacility) : list NearbyFacility :=
  match query !! "facilityType" with
  | Some (String c t) =>
      List.filter (fun f => String.eqb (facilityType f) (String c t))
                  (filteredByRadius query facilities)
  | _ => filteredByRadius query facilities
  end.

Definition nearbyFacilities (req : NearbyRequest)
  : Handler (response (list NearbyFacility)) :=
  try_catch
    (let id := parseInt (nr_id req) in
     if isNaN id then mret (Fail 400 "Invalid property ID")
     else
       facilities ← await (GetNearbyFacilities id)
                          (getNearbyFacilities storage id);
       mret (Respond 200 (result (nr_query req) facilities)))
    (fun e => mret (Next e)).

(** *** POST /api/admin/properties/:propertyId/facilities
        (routes.ts 790-869) *)

(** Lines 803-806: [{ ...req.body, propertyId }]. *)
Definition facilityData (body : FacilityBody) (propertyId : number)
  : FacilityData :=
  {| fd_propertyId := propertyId;
     fd_facilityName := body_facilityName body;
     fd_facilityType := body_facilityType body;
     fd_distance := body_distance body;
     fd_distanceValue := body_distanceValue body;
     fd_latitude := body_latitude body;
     fd_longitude := body_longitude body |}.

(** Lines 813-823: the meters for a matched number and the whole
    distance text. *)
Definition metersOfText (distanceMatch text : string) : number :=
  let distanceNumeric := parseFloat distanceMatch in
  if includes (toLowerCase text) "km"
  then Math_round (mul distanceNumeric (of_Z 1000))
  else if includes (toLowerCase text) "m"
  then Math_round distanceNumeric
  else Math_round (mul distanceNumeric (of_Z 1000)).

(** Lines 808-825.  [facilityData.distance.match] is only a function
    when [distance] is a string; on another truthy value the call
    throws. *)
Definition distanceValueFromText (fd : FacilityData) : Handler FacilityData :=
  if negb (ToBoolean (fd_distanceValue fd)) && ToBoolean (fd_distance fd) then
    match fd_distance fd with
    | VString text =>
        match match_leading_number text with
        | Some distanceMatch =>
            mret (set_distanceValue fd (VNumber (metersOfText distanceMatch text)))
        | None => mret fd
        end
    | _ => throw TypeError
    end
  else mret fd.

(** Lines 835-846: the haversine computation, [R = 6371e3]. *)
Definition radians (deg : number) : number :=
  div (mul deg Math_PI) (of_Z 180).

Definition haversine_a (lat1 lon1 lat2 lon2 : number) : number :=
  let phi1 := radians lat1 in
  let phi2 := radians lat2 in
  let dphi := radians (sub lat2 lat1) in
  let dlambda := radians (sub lon2 lon1) in
  add (mul (Math_sin (div dphi (of_Z 2))) (Math_sin (div dphi (of_Z 2))))
      (mul (mul (mul (Math_cos phi1) (Math_cos phi2))
                (Math_sin (div dlambda (of_Z 2))))
           (Math_sin (div dlambda (of_Z 2)))).

Definition haversine_c (a : number) : number :=
  mul (of_Z 2) (Math_atan2 (Math_sqrt a) (Math_sqrt (sub (of_Z 1) a))).

Definition distanceInMeters (lat1 lon1 lat2 lon2 : number) : number :=
  Math_round (mul (of_Z 6371000) (haversine_c (haversine_a lat1 lon1 lat2 lon2))).

(** Lines 851-855: the display text for a distance in meters. *)
Definition distanceText (meters : number) : string :=
  if ltb meters (of_Z 1000)
  then Number_toString meters +:+ " m"
  else toFixed (div meters (of_Z 1000)) 1 +:+ " km".

(** Lines 827-861.  Nothing in the inner [try] throws, so its
    [catch] is not modelled. *)
Definition distanceFromCoordinates (property : Property) (fd : FacilityData)
  : FacilityData :=
  match property_latitude property, property_longitude property with
  | Some plat, Some plon =>
      if nonempty (Some plat) && nonempty (Some plon)
         && ToBoolean (fd_latitude fd) && ToBoolean (fd_longitude fd)
         && negb (ToBoolean (fd_distanceValue fd))
      then
        let meters :=
          distanceInMeters (parseFloat plat) (parseFloat plon)
                           (parseFloat (ToString (fd_latitude fd)))
                           (parseFloat (ToString (fd_longitude fd))) in
        let fd1 := set_distanceValue fd (VNumber meters) in
        if negb (ToBoolean (fd_distance fd1))
        then set_distance fd1 (VString (distanceText meters))
        else fd1
      else fd
  | _, _ => fd
  end.

(** Lines 803-861: the data handed to validation and persistence. *)
Definition normalizeFacility (property : Property) (body : FacilityBody)
    (propertyId : number) : Handler FacilityData :=
  fd ← distanceValueFromText (facilityData body propertyId);
  mret (distanceFromCoordinates property fd).

(** [ensureAuthenticated], then the handler. *)
Definition createFacility (req : FacilityRequest)
  : Handler (response NearbyFacility) :=
  if negb (fr_authenticated req) then mret (Fail 401 "Not authenticated")
  else
    try_catch
      (let propertyId := parseInt (fr_propertyId req) in
       if isNaN propertyId then mret (Fail 400 "Invalid property ID")
       else
         found ← await (GetPropertyById propertyId)
                       (getPropertyById storage propertyId);
         match found with
         | None => mret (Fail 404 "Property not found")
         | Some property =>
             fd ← normalizeFacility property (fr_body req) propertyId;
             match insertNearbyFacilitySchema_parse storage fd with
             | None => throw ValidationError
             | Some validatedData =>
                 facility ← await (CreateNearbyFacility validatedData)
                                  (createNearbyFacility storage validatedData);
                 mret (Respond 201 facility)
             end
         end)
      (fun e => mret (Next e)).

End Handlers.

(** *** The page-count consumer
        (client/src/pages/properties-page.tsx 166-174) *)

(** The [pagination] object as the client receives it, through JSON. *)
Record ClientPagination : Type := {
  client_total : value;
  client_page : value;
  client_limit : value;
  client_totalPages : value
}.

Definition to_client (p : Pagination) : ClientPagination :=
  {| client_total := JSON_number (pagination_total p);
     client_page := JSON_number (pagination_page p);
     client_limit := JSON_number (pagination_limit p);
     client_totalPages := JSON_number (pagination_totalPages p) |}.

(** [data?.pagination || { total: 0, page: 1, limit: 10, totalPages: 1 }]. *)
Definition pagination (data : option ClientPagination) : ClientPagination :=
  match data with
  | Some p => p
  | None =>
      {| client_total := VNumber (of_Z 0);
         client_page := VNumber (of_Z 1);
         client_limit := VNumber (of_Z 10);
         client_totalPages := VNumber (of_Z 1) |}
  end.

(** [normalizedPagination.pages]: [pagination.totalPages || 1]. *)
Definition pages (data : option ClientPagination) : value :=
  let p := pagination data in
  if ToBoolean (client_totalPages p) then client_totalPages p
  else VNumber (of_Z 1).

End Routes.

Import Routes.

Local Open Scope string_scope.
Local Open Scope Z_scope.

(* ================================================================== *)
(** ** Predicates and projections used in the statements *)
(* ================================================================== *)

(** Whether a string starts with a digit, that is, with a numeric
    token of [/^(\d+(\.\d+)?)/]. *)
Definition starts_with_digit (s : string) : bool :=
  match s with
  | String c _ => is_digit c
  | EmptyString => false
  end.


(** Whether a facility passes the optional facility-type filter. *)
Definition passesTypeFilter (query : gmap string string)
    (f : NearbyFacility) : bool :=
  match query !! "facilityType" with
  | Some (String c t) => String.eqb (facilityType f) (String c t)
  | _ => true
  end.

(** A row with no canonical distance and no leading number in its
    text. *)
Definition unknownDistance (f : NearbyFacility) : bool :=
  match distanceValue f, distance f with
  | None, Some text => negb (starts_with_digit text)
  | None, None => true
  | Some _, _ => false
  end.


(** The enum-typed fields of the filter. *)
Inductive EnumField : Type :=
  | Status | Category | PropertyType | SubType
  | FurnishedStatus | Parking | Facing.

(** The query parameter of a field. *)
Definition field_name (e : EnumField) : string :=
  match e with
  | Status => "status"
  | Category => "category"
  | PropertyType => "propertyType"
  | SubType => "subType"
  | FurnishedStatus => "furnishedStatus"
  | Parking => "parking"
  | Facing => "facing"
  end.

(** The values named by the type assertions of lines 236-248. *)
Definition known_values (e : EnumField) : list string :=
  match e with
  | Status => ["sale"; "rent"]
  | Category => ["residential"; "commercial"]
  | PropertyType =>
      ["apartment"; "independent-house"; "villa"; "farm-house"; "shop"; "basement"]
  | SubType => ["1rk"; "1bhk"; "2bhk"; "3bhk"; "4bhk"; "plot"; "other"]
  | FurnishedStatus => ["furnished"; "semi-furnished"; "unfurnished"]
  | Parking => ["car"; "two-wheeler"; "both"; "none"]
  | Facing => ["east"; "west"; "north"; "south"; "road"; "park"; "greenery"]
  end.

Definition get_field (e : EnumField) (f : Filters) : option string :=
  match e with
  | Status => status f
  | Category => category f
  | PropertyType => propertyType f
  | SubType => subType f
  | FurnishedStatus => furnishedStatus f
  | Parking => parking f
  | Facing => facing f
  end.

(** The filter [f] with the field [e] replaced. *)
Definition with_field (e : EnumField) (o : option string) (f : Filters)
  : Filters :=
  {| page := page f;
     limit := limit f;
     status := match e with Status => o | _ => status f end;
     category := match e with Category => o | _ => category f end;
     propertyType := match e with PropertyType => o | _ => propertyType f end;
     subType := match e with SubType => o | _ => subType f end;
     minPrice := minPrice f;
     maxPrice := maxPrice f;
     minArea := minArea f;
     maxArea := maxArea f;
     bedrooms := bedrooms f;
     bathrooms := bathrooms f;
     furnishedStatus := match e with FurnishedStatus => o | _ => furnishedStatus f end;
     parking := match e with Parking => o | _ => parking f end;
     facing := match e with Facing => o | _ => facing f end;
     search := search f |}.

(* ================================================================== *)
(** ** A storage, platform functions and rows for running examples *)
(* ================================================================== *)

Section MemoryStorage.

Definition id_is (id : number) (z : Z) : bool :=
  number_eqb id (of_Z z).

Definition text_of (v : value) : option string :=
  match v with VString s => Some s | _ => None end.

Definition number_of (v : value) : option number :=
  match v with VNumber n => Some n | _ => None end.

(** Rows held in memory: lookups by id, every property on one page,
    and an insert schema that accepts everything. *)
Definition memoryStorage (properties : list Property)
    (facilities : list NearbyFacility) : Storage :=
  {| getPropertiesWithPagination := fun _ =>
       Some (properties, N.of_nat (length properties));
     getNearbyFacilities := fun id =>
       Some (List.filter (fun f => id_is id (facility_propertyId f)) facilities);
     getPropertyById := fun id =>
       Some (List.find (fun p => id_is id (property_id p)) properties);
     createNearbyFacility := fun fd =>
       Some {| facility_id := Z.of_nat (length facilities) + 1;
               facility_propertyId :=
                 match fd_propertyId fd with Fin q => Qfloor q | _ => 0 end;
               facilityName := ToString (fd_facilityName fd);
               facilityType := ToString (fd_facilityType fd);
               distance := text_of (fd_distance fd);
               distanceValue := number_of (fd_distanceValue fd) |};
     insertNearbyFacilitySchema_parse := Some |}.

End MemoryStorage.

(** An instance of the platform functions for running the handler on
    examples: truncated series evaluated exactly and rounded once,
    accurate for the small angles of neighbourhood distances. *)
Section SeriesMath.

Local Open Scope Q_scope.

Definition series_sin (x : Q) : Q :=
  x - x^3 / 6 + x^5 / 120 - x^7 / 5040 + x^9 / 362880.

Definition series_cos (x : Q) : Q :=
  1 - x^2 / 2 + x^4 / 24 - x^6 / 720 + x^8 / 40320 - x^10 / 3628800.

Definition series_atan (t : Q) : Q :=
  t - t^3 / 3 + t^5 / 5 - t^7 / 7 + t^9 / 9.

(** The square root of [n / d] to 64 fractional bits. *)
Definition approx_sqrt (q : Q) : Q :=
  Z.sqrt (Qnum q * Zpos (Qden q) * 2 ^ 128) # (Qden q * 2 ^ 64).

Definition on_finite (f : Q -> Q) (x : number) : number :=
  match x with
  | Fin q => round64 (Qred (f q))
  | _ => NaN
  end.

Definition series_sqrt (x : number) : number :=
  match x with
  | Fin q => if is_neg q then NaN else round64 (Qred (approx_sqrt q))
  | Infinity false => x
  | _ => NaN
  end.

(** [atan2(y, x)] in the right half-plane. *)
Definition series_atan2 (y x : number) : number :=
  match y, x with
  | Fin a, Fin b =>
      if Qle_bool b 0 then NaN else round64 (Qred (series_atan (a / b)))
  | _, _ => NaN
  end.

#[export] Instance seriesMath : MathLib :=
  {| Math_sin := on_finite series_sin;
     Math_cos := on_finite series_cos;
     Math_sqrt := series_sqrt;
     Math_atan2 := series_atan2 |}.

End SeriesMath.

Section ExampleData.

Definition school : NearbyFacility :=
  {| facility_id := 1; facility_propertyId := 7;
     facilityName := "Hill School"; facilityType := "school";
     distance := Some "0.5 km"; distanceValue := Some (of_Z 500) |}.

Definition kiosk : NearbyFacility :=
  {| facility_id := 2; facility_propertyId := 7;
     facilityName := "Corner kiosk"; facilityType := "market";
     distance := Some "near the gate"; distanceValue := None |}.

(** No canonical value, and a distance text in meters. *)
Definition pharmacy : NearbyFacility :=
  {| facility_id := 3; facility_propertyId := 7;
     facilityName := "Pharmacy"; facilityType := "hospital";
     distance := Some "800 m"; distanceValue := None |}.

(** One meter from the property. *)
Definition lobby_atm : NearbyFacility :=
  {| facility_id := 4; facility_propertyId := 7;
     facilityName := "Lobby ATM"; facilityType := "atm";
     distance := Some "1 m"; distanceValue := Some (of_Z 1) |}.

(** A kilometer and a half away. *)
Definition stadium : NearbyFacility :=
  {| facility_id := 5; facility_propertyId := 7;
     facilityName := "Stadium"; facilityType := "park";
     distance := Some "1.5 km"; distanceValue := Some (of_Z 1500) |}.

Definition nearby (radius : string) : NearbyRequest :=
  {| nr_id := "7"; nr_query := {["radius" := radius]} |}.



(** Connaught Place, New Delhi. *)
Definition office : Property :=
  {| property_id := 7;
     property_latitude := Some "28.6315";
     property_longitude := Some "77.2167" |}.

(** A property without coordinates. *)
Definition plot : Property :=
  {| property_id := 8; property_latitude := None; property_longitude := None |}.

Definition body (distance distanceValue latitude longitude : value)
  : FacilityBody :=
  {| body_facilityName := VString "Metro station";
     body_facilityType := VString "metro";
     body_distance := distance;
     body_distanceValue := distanceValue;
     body_latitude := latitude;
     body_longitude := longitude |}.

(** The [distance] and [distanceValue] the normalizer hands on. *)
Definition normalized (math : MathLib) (p : Property) (b : FacilityBody)
  : outcome (value * value) :=
  match fst (run (@normalizeFacility math p b (of_Z (property_id p)))) with
  | Returned fd => Returned (fd_distance fd, fd_distanceValue fd)
  | Thrown e => Thrown e
  end.

End ExampleData.

(** Samples for comparing the arithmetic with the Standard Library's
    specification of binary64 ([SpecFloat]): quotients of integers that
    exercise ties, subnormal numbers, underflow and overflow. *)
Section SpecFloatSamples.

Definition of_spec (f : spec_float) : number :=
  match f with
  | S754_zero _ => Fin 0
  | S754_infinity s => Infinity s
  | S754_nan => NaN
  | S754_finite s m e =>
      Fin (Qred ((if s then -1 else 1) * inject_Z (Zpos m) * Qpower 2 e))
  end.

Definition spec_quotient (a b : Z) : spec_float :=
  SFdiv 53 1024 (binary_normalize 53 1024 a 0 false)
                (binary_normalize 53 1024 b 0 false).

Definition quotient (a b : Z) : number :=
  div (round64 (inject_Z a)) (round64 (inject_Z b)).

Definition agree (f : spec_float) (x : number) : bool :=
  number_eqb (of_spec f) x || isNaN (of_spec f) && isNaN x.

Definition agree_on '(a, b, c, d) : bool :=
  let '(f, g) := (spec_quotient a b, spec_quotient c d) in
  let '(x, y) := (quotient a b, quotient c d) in
  agree f x
  && agree (SFmul 53 1024 f g) (mul x y)
  && agree (SFdiv 53 1024 f g) (div x y)
  && agree (SFadd 53 1024 f g) (add x y)
  && agree (SFsub 53 1024 f g) (sub x y).

Definition samples : list (Z * Z * Z * Z) :=
  [(1001, 1000, 1000, 1); (1, 10, 2, 10); (1, 3, 3, 1); (2, 3, 7, 9);
   (-5, 7, 3, 11); (1, 2 ^ 1074, 1, 2); (1, 2 ^ 1074, 3, 2);
   (3, 2 ^ 1075, 1, 1); (2 ^ 1023, 1, 2, 1); (2 ^ 1024 - 2 ^ 970, 1, 1, 1);
   (2 ^ 1024 - 2 ^ 971, 1, 2 ^ 1024 - 2 ^ 971, 1); (2 ^ 53 + 1, 1, 1, 1);
   (2 ^ 53 + 3, 1, 1, 3); (9007199254740993, 1, 10 ^ 22, 1);
   (10 ^ 23, 1, 10 ^ 300, 1); (1, 10 ^ 300, 1, 10 ^ 30);
   (123456789, 1000, 6371000, 1); (884279719003555, 281474976710656, 180, 1);
   (1, 1, 1, 1); (0, 1, 5, 1); (5, 1, 0, 1); (0, 1, 0, 1); (1450, 1000, 10, 1);
   (2 ^ 52 + 1, 2, 1, 2); (2 ^ 54 - 1, 4, 1, 4); (-1, 3, -1, 3); (4, 3, -4, 3)].

End SpecFloatSamples.

(* ================================================================== *)
(** ** Administration, inquiry and media routes *)
(* ================================================================== *)

(** The handlers of [server/routes.ts] for users, inquiries, properties
    and media, with the inquiry notification of [server/email.ts]. *)
Module Admin.

Local Open Scope string_scope.

(** [parseInt(s, 10)]: as [parseInt], but a [0x] prefix is not a
    hexadecimal marker. *)
Definition parseInt10 (s : string) : number :=
  let '(neg, s1) := strip_sign (trim_start s) in
  let '(d, _) := span_digits s1 in
  match d with
  | EmptyString => NaN
  | _ => signed neg (round64 (inject_Z (decimal_value 0 d)))
  end.

(** *** Sessions and the access middleware (routes.ts 40-47, 63-94) *)

Record User : Type := {
  user_id : number;
  user_username : string;
  user_email : string;
  user_password : string;
  user_role : string
}.

(** [req.isAuthenticated()] and [req.user]. *)
Record Session : Type := {
  isAuthenticated : bool;
  session_user : option User
}.

(** What a middleware does with a request: call [next()], answer, or
    throw. *)
Inductive gate : Type :=
  | Pass
  | Deny (status : Z) (message : string)
  | Raise (e : exn).

(** [req.user.role === r1 || ...]; reading [role] of an absent user
    throws. *)
Definition has_role (s : Session) (roles : list string) : option bool :=
  match session_user s with
  | Some u => Some (bool_decide (user_role u ∈ roles))
  | None => None
  end.

(** [req.isAuthenticated() && req.user]. *)
Definition ensureAuthenticated (s : Session) : gate :=
  if isAuthenticated s && bool_decide (is_Some (session_user s))
  then Pass else Deny 401 "Not authenticated".

(** [req.isAuthenticated() && req.user && req.user.role === 'admin']. *)
Definition ensureAdmin (s : Session) : gate :=
  if isAuthenticated s
     && match has_role s ["admin"] with Some b => b | None => false end
  then Pass else Deny 403 "Admin access required".

(** [req.isAuthenticated() && req.user.role === 'superadmin']. *)
Definition ensureSuperAdmin (s : Session) : gate :=
  if isAuthenticated s then
    match has_role s ["superadmin"] with
    | Some true => Pass
    | Some false => Deny 403 "Access denied - requires superadmin role"
    | None => Raise TypeError
    end
  else Deny 403 "Access denied - requires superadmin role".

Definition ensureStaff (s : Session) : gate :=
  if isAuthenticated s then
    match has_role s ["staff"; "admin"; "superadmin"] with
    | Some true => Pass
    | Some false => Deny 403 "Access denied - requires staff role or higher"
    | None => Raise TypeError
    end
  else Deny 403 "Access denied - requires staff role or higher".

(** [checkCloudinaryConfig] on [process.env]. *)
Definition checkCloudinaryConfig (env : gmap string string) : gate :=
  if nonempty (env !! "CLOUDINARY_CLOUD_NAME")
     && nonempty (env !! "CLOUDINARY_API_KEY")
     && nonempty (env !! "CLOUDINARY_API_SECRET")
  then Pass
  else Deny 500 "Cloudinary configuration missing. Please check environment variables.".

(** *** Rows, bodies and answers *)

(** A user row without its [password]. *)
Record PublicUser : Type := {
  account_id : number;
  account_username : string;
  account_email : string;
  account_role : string
}.

(** [const { password: _, ...userWithoutPassword } = user]. *)
Definition userWithoutPassword (u : User) : PublicUser :=
  {| account_id := user_id u;
     account_username := user_username u;
     account_email := user_email u;
     account_role := user_role u |}.

(** The fields the user routes read from [req.body]. *)
Record UserBody : Type := {
  body_username : value;
  body_email : value;
  body_password : value;
  body_role : value
}.

(** The object given to [storage.createUser]. *)
Record NewUser : Type := {
  new_username : value;
  new_email : value;
  new_password : string;
  new_role : value
}.

(** [updateData]: a field is [None] when it was not set. *)
Record UserUpdate : Type := {
  update_username : option value;
  update_email : option value;
  update_role : option value
}.

Record PropertyRow : Type := {
  row_id : number;
  row_title : string
}.

(** A validated inquiry, and the stored row. *)
Record InquiryData : Type := {
  data_propertyId : option number;
  data_name : string;
  data_email : string;
  data_phone : string;
  data_message : string
}.

Record Inquiry : Type := {
  inquiry_id : number;
  inquiry_propertyId : option number;
  inquiry_name : string;
  inquiry_email : string;
  inquiry_phone : string;
  inquiry_message : string;
  inquiry_status : string
}.

Record EmailConfig : Type := {
  config_host : string;
  config_port : number;
  config_secure : bool;
  config_user : string;
  config_pass : string;
  config_from : string
}.

(** [mailOptions].  The [text] and [html] bodies are generated from the
    inquiry and the property, of which they read columns that every
    row has; they are kept as these two arguments. *)
Record MailOptions : Type := {
  mail_from : string;
  mail_to : string;
  mail_subject : string;
  mail_body : Inquiry * option PropertyRow;
  mail_replyTo : string
}.

Record Media : Type := {
  media_id : number;
  media_propertyId : number;
  mediaType : string;
  cloudinaryId : string;
  cloudinaryUrl : string
}.

(** The result of [cloudinary.uploader.upload]. *)
Record UploadResponse : Type := {
  public_id : string;
  secure_url : string;
  resource_type : string
}.

(** The fields the upload route reads from [req.body]. *)
Record UploadBody : Type := {
  fileData : value;
  fileName : value;
  upload_propertyId : value
}.

Record UploadResult : Type := {
  result_media : option Media;
  result_cloudinaryId : string;
  result_cloudinaryUrl : string;
  result_mediaType : string
}.

(** What [areaUnitMap[x] || x] evaluates to: a value, or a member that
    the object literal inherits from [Object.prototype]. *)
Inductive AreaUnit : Type :=
  | Unit (v : value)
  | Inherited (name : string).

(** A property body after the conversion: [areaUnit] and the other
    fields. *)
Record PropertyBody : Type := {
  areaUnit : AreaUnit;
  otherFields : gmap string value
}.

(** An element of the array sent to the batch route: an object with
    scalar fields, or a scalar. *)
Inductive MediaItem : Type :=
  | ItemObject (fields : gmap string value)
  | ItemScalar (v : value).

(** The body of the batch route, as [express.json] parses it. *)
Inductive BatchBody : Type :=
  | BodyArray (items : list MediaItem)
  | BodyObject (fields : gmap string value).

(** An entry of [errors] in the batch answer. *)
Record BatchError : Type := {
  error_index : nat;
  error_item : MediaItem
}.

Record BatchResponse : Type := {
  batch_total : nat;
  batch_created : nat;
  batch_failed : nat;
  batch_media : list Media;
  batch_errors : option (list BatchError)
}.

(** [filters] of the inquiry list: a field is [None] when it was not
    set. *)
Record InquiryFilters : Type := {
  filter_propertyId : option number;
  filter_status : option string
}.

(** A file of [req.files], and an entry of [files] in the answer of the
    multiple upload ([originalname] there is [originalName]). *)
Record CloudinaryFile : Type := {
  file_cloudinaryId : option string;
  file_cloudinaryUrl : option string;
  originalname : string
}.

Record MultipleUpload : Type := {
  upload_success : bool;
  upload_message : string;
  upload_files : list CloudinaryFile
}.

Inductive reply (A : Type) : Type :=
  | Json (status : Z) (body : A)          (* res.status(n).json(body) *)
  | Message (status : Z) (text : string)  (* res.status(n).json({ message }),
                                             or { error } *)
  | Forward (e : exn).                    (* next(error) *)
Arguments Json {A} status body.
Arguments Message {A} status text.
Arguments Forward {A} e.

(** *** The collaborators *)

Inductive Event : Type :=
  | GetUserByUsername (username : value)
  | GetUserByEmail (email : value)
  | HashPassword (password : value)
  | CreateUser (data : NewUser)
  | DeleteUser (id : number)
  | UpdateUser (id : number) (data : UserUpdate)
  | CreateInquiry (data : InquiryData)
  | GetPropertyById (id : number)
  | Verify
  | SendMail (mailOptions : MailOptions)
  | CreateProperty (data : gmap string value)
  | UpdateProperty (id : number) (data : gmap string value)
  | DeleteProperty (id : number)
  | GetPropertyMedia (id : number)
  | CreatePropertyMedia (data : gmap string value)
  | DeletePropertyMedia (id : number)
  | SetFeaturedMedia (id propertyId : number)
  | Upload (file : value) (publicId : string)
  | Destroy (publicId resourceType : string)
  | DeleteNearbyFacility (id : number)
  | UpdateInquiryStatus (id : number) (status : string)
  | DeleteInquiry (id : number)
  | GetUsers
  | GetDashboardStats
  | GetProperties
  | GetInquiries (filters : InquiryFilters).

(** The storage of server/storage, the schemas of shared/schema,
    [hashPassword] of server/auth, the mail transporter and the media
    host.  Each method returns its result, or [None] when it throws or
    its promise rejects; a rejection is the exception [StorageError],
    whichever collaborator it comes from.  The handlers are parametric
    in all of them. *)
Record Backend : Type := {
  getUserByUsername : value -> option (option User);
  getUserByEmail : value -> option (option User);
  hashPassword : value -> option string;
  createUser : NewUser -> option User;
  deleteUser : number -> option bool;
  updateUser : number -> UserUpdate -> option (option User);
  insertInquirySchema_parse : gmap string value -> option InquiryData;
  createInquiry : InquiryData -> option Inquiry;
  getPropertyById : number -> option (option PropertyRow);
  verify : option unit;
  sendMail : MailOptions -> option unit;
  insertPropertySchema_parse : PropertyBody -> option (gmap string value);
  insertPropertySchema_partial_parse : PropertyBody -> option (gmap string value);
  createProperty : gmap string value -> option PropertyRow;
  updateProperty : number -> gmap string value -> option (option PropertyRow);
  deleteProperty : number -> option bool;
  getPropertyMedia : number -> option (list Media);
  createPropertyMedia : gmap string value -> option Media;
  deletePropertyMedia : number -> option bool;
  setFeaturedMedia : number -> number -> option bool;
  upload : value -> string -> option UploadResponse;
  destroy : string -> string -> option unit;
  deleteNearbyFacility : number -> option bool;
  updateInquiryStatus : number -> string -> option (option Inquiry);
  deleteInquiry : number -> option bool;
  getUsers : option (list User);
  getDashboardStats : option (gmap string value);
  getProperties : option (list PropertyRow);
  getInquiries : InquiryFilters -> option (list Inquiry)
}.

Section Handlers.
(** [now] is the value of [Date.now()], [env] is [process.env]. *)
Context (backend : Backend) (env : gmap string string) (now : number).

Abbreviation Handler := (M Event).

(** A route behind a middleware.  Express hands what a middleware
    throws to the error handler, as [next(error)] does. *)
Definition guarded {A} (g : gate) (handler : Handler (reply A))
  : Handler (reply A) :=
  match g with
  | Pass => handler
  | Deny status message => mret (Message status message)
  | Raise e => mret (Forward e)
  end.

(** *** User management (routes.ts 97-207) *)

(** GET /api/admin/users: the rows go out as the storage returns
    them. *)
Definition getUsersRoute (s : Session) : Handler (reply (list User)) :=
  guarded (ensureSuperAdmin s)
    (try_catch
       (users ← await GetUsers (getUsers backend);
        mret (Json 200 users))
       (fun _ => mret (Message 500 "Failed to fetch users"))).

(** [['staff', 'admin', 'superadmin'].includes(role)]. *)
Definition validRole (role : value) : bool :=
  match role with
  | VString r => bool_decide (r ∈ ["staff"; "admin"; "superadmin"])
  | _ => false
  end.

(** POST /api/admin/users. *)
Definition postUser (s : Session) (body : UserBody)
  : Handler (reply PublicUser) :=
  guarded (ensureSuperAdmin s)
    (try_catch
       (if negb (validRole (body_role body))
        then mret (Message 400 "Invalid role. Must be staff, admin, or superadmin")
        else
          existingUsername ← await (GetUserByUsername (body_username body))
                                   (getUserByUsername backend (body_username body));
          match existingUsername with
          | Some _ => mret (Message 400 "Username already exists")
          | None =>
              existingEmail ← await (GetUserByEmail (body_email body))
                                    (getUserByEmail backend (body_email body));
              match existingEmail with
              | Some _ => mret (Message 400 "Email already exists")
              | None =>
                  hashedPassword ← await (HashPassword (body_password body))
                                         (hashPassword backend (body_password body));
                  let data := {| new_username := body_username body;
                                 new_email := body_email body;
                                 new_password := hashedPassword;
                                 new_role := body_role body |} in
                  newUser ← await (CreateUser data) (createUser backend data);
                  mret (Json 201 (userWithoutPassword newUser))
              end
          end)
       (fun _ => mret (Message 500 "Failed to create user"))).

(** DELETE /api/admin/users/:userId. *)
Definition deleteUserRoute (s : Session) (userId : string)
  : Handler (reply PublicUser) :=
  guarded (ensureSuperAdmin s)
    (let id := parseInt10 userId in
     match session_user s with
     | None => mret (Message 401 "Not authenticated")
     | Some user =>
         if number_eqb (user_id user) id
         then mret (Message 400 "Cannot delete your own account")
         else
           try_catch
             (deleted ← await (DeleteUser id) (deleteUser backend id);
              if deleted : bool
              then mret (Message 200 "User deleted successfully")
              else mret (Message 404 "User not found"))
             (fun _ => mret (Message 500 "Internal server error"))
     end).

(** Lines 189-192: the fields of the body that are truthy. *)
Definition provided (v : value) : option value :=
  if ToBoolean v then Some v else None.

Definition updateData (body : UserBody) : UserUpdate :=
  {| update_username := provided (body_username body);
     update_email := provided (body_email body);
     update_role := provided (body_role body) |}.

(** PUT /api/admin/users/:userId. *)
Definition putUser (s : Session) (userId : string) (body : UserBody)
  : Handler (reply PublicUser) :=
  guarded (ensureSuperAdmin s)
    (let id := parseInt10 userId in
     match session_user s with
     | None => mret (Message 401 "Not authenticated")
     | Some _ =>
         try_catch
           (if negb (ToBoolean (body_username body))
               && negb (ToBoolean (body_email body))
               && negb (ToBoolean (body_role body))
            then mret (Message 400 "At least one field must be provided for update")
            else
              updatedUser ← await (UpdateUser id (updateData body))
                                  (updateUser backend id (updateData body));
              match updatedUser with
              | Some u => mret (Json 200 (userWithoutPassword u))
              | None => mret (Message 404 "User not found")
              end)
           (fun _ => mret (Message 500 "Internal server error"))
     end).

(** *** The inquiry notification (email.ts 15-35, 141-189) *)

(** [process.env.K || d]. *)
Definition env_or (k d : string) : string :=
  match env !! k with
  | Some (String c r) => String c r
  | _ => d
  end.

Definition getEmailConfig : EmailConfig :=
  {| config_host := env_or "EMAIL_HOST" "mail.southdelhirealty.com";
     config_port := parseInt (env_or "EMAIL_PORT" "587");
     config_secure := bool_decide (env !! "EMAIL_SECURE" = Some "true");
     config_user := env_or "EMAIL_USER" "admin@southdelhirealty.com";
     config_pass := env_or "EMAIL_PASS" "Biju@123";
     config_from := env_or "EMAIL_FROM" "admin@southdelhirealty.com" |}.

(** Line 153: the subject of the notification. *)
Definition subject (inquiry : Inquiry) (property : option PropertyRow) : string :=
  "New Inquiry from " +:+ inquiry_name inquiry +:+
  match property with
  | Some p => " - " +:+ row_title p
  | None => ""
  end.

Definition mailOptions (inquiry : Inquiry) (property : option PropertyRow)
  : MailOptions :=
  let config := getEmailConfig in
  {| mail_from := config_from config;
     mail_to := config_user config;
     mail_subject := subject inquiry property;
     mail_body := (inquiry, property);
     mail_replyTo := inquiry_email inquiry |}.

Definition sendInquiryNotification (inquiry : Inquiry)
    (property : option PropertyRow) : Handler unit :=
  try_catch
    (_ ← await Verify (verify backend);
     _ ← await (SendMail (mailOptions inquiry property))
               (sendMail backend (mailOptions inquiry property));
     mret tt)
    (fun _ => mret tt).

(** *** POST /api/inquiries (routes.ts 350-407) *)

(** Lines 375-384: [property] stays [null] when the inquiry names no
    property, or when the lookup fails. *)
Definition propertyOf (inquiry : Inquiry) : Handler (option PropertyRow) :=
  match inquiry_propertyId inquiry with
  | Some id =>
      if truthy id
      then try_catch (await (GetPropertyById id) (getPropertyById backend id))
                     (fun _ => mret None)
      else mret None
  | None => mret None
  end.

Definition postInquiry (body : gmap string value) : Handler (reply Inquiry) :=
  try_catch
    (match insertInquirySchema_parse backend body with
     | None => throw ValidationError
     | Some validatedData =>
         inquiry ← await (CreateInquiry validatedData)
                         (createInquiry backend validatedData);
         property ← propertyOf inquiry;
         _ ← sendInquiryNotification inquiry property;
         mret (Json 201 inquiry)
     end)
    (fun error =>
       match error with
       | ValidationError => mret (Message 400 "Validation failed")
       | _ => mret (Forward error)
       end).

(** *** The dashboard and the property list (routes.ts 426-443) *)

(** GET /api/admin/dashboard. *)
Definition getDashboard (s : Session) : Handler (reply (gmap string value)) :=
  guarded (ensureAuthenticated s)
    (try_catch
       (stats ← await GetDashboardStats (getDashboardStats backend);
        mret (Json 200 stats))
       (fun e => mret (Forward e))).

(** GET /api/admin/properties. *)
Definition getPropertiesRoute (s : Session)
  : Handler (reply (list PropertyRow)) :=
  guarded (ensureAuthenticated s)
    (try_catch
       (properties ← await GetProperties (getProperties backend);
        mret (Json 200 properties))
       (fun e => mret (Forward e))).

(** *** Property management (routes.ts 445-546) *)

(** The names an object literal inherits from [Object.prototype]; all
    of them hold a function or an object. *)
Definition Object_prototype : list string :=
  ["constructor"; "hasOwnProperty"; "isPrototypeOf"; "propertyIsEnumerable";
   "toLocaleString"; "toString"; "valueOf"; "__proto__";
   "__defineGetter__"; "__defineSetter__"; "__lookupGetter__";
   "__lookupSetter__"].

(** [areaUnitMap[key]]. *)
Definition areaUnitMap (key : string) : option AreaUnit :=
  if String.eqb key "sq_ft" then Some (Unit (VString "sq-ft"))
  else if String.eqb key "sq_mt" then Some (Unit (VString "sq-mt"))
  else if String.eqb key "sq_yd" then Some (Unit (VString "sq-yd"))
  else if bool_decide (key ∈ Object_prototype) then Some (Inherited key)
  else None.

(** Lines 466-473: [req.body.areaUnit] after the conversion.  A value
    that is not a string is used as a key through [ToString]. *)
Definition convertAreaUnit (v : value) : AreaUnit :=
  if ToBoolean v then
    match areaUnitMap (ToString v) with
    | Some converted => converted
    | None => Unit v
    end
  else Unit v.

Definition convertBody (body : gmap string value) : PropertyBody :=
  {| areaUnit := convertAreaUnit (default VUndefined (body !! "areaUnit"));
     otherFields := delete "areaUnit" body |}.

(** GET /api/admin/properties/:id. *)
Definition getProperty (s : Session) (id : string)
  : Handler (reply PropertyRow) :=
  guarded (ensureAuthenticated s)
    (try_catch
       (let id := parseInt id in
        if isNaN id then mret (Message 400 "Invalid ID")
        else
          property ← await (GetPropertyById id) (getPropertyById backend id);
          match property with
          | Some p => mret (Json 200 p)
          | None => mret (Message 404 "Property not found")
          end)
       (fun e => mret (Forward e))).

(** POST /api/admin/properties. *)
Definition postProperty (s : Session) (body : gmap string value)
  : Handler (reply PropertyRow) :=
  guarded (ensureAuthenticated s)
    (try_catch
       (match insertPropertySchema_parse backend (convertBody body) with
        | None => throw ValidationError
        | Some validatedData =>
            property ← await (CreateProperty validatedData)
                             (createProperty backend validatedData);
            mret (Json 201 property)
        end)
       (fun e => mret (Forward e))).

(** PUT /api/admin/properties/:id. *)
Definition putProperty (s : Session) (id : string) (body : gmap string value)
  : Handler (reply PropertyRow) :=
  guarded (ensureAuthenticated s)
    (try_catch
       (let id := parseInt id in
        if isNaN id then mret (Message 400 "Invalid ID")
        else
          match insertPropertySchema_partial_parse backend (convertBody body) with
          | None => throw ValidationError
          | Some validatedData =>
              property ← await (UpdateProperty id validatedData)
                               (updateProperty backend id validatedData);
              match property with
              | Some p => mret (Json 200 p)
              | None => mret (Message 404 "Property not found")
              end
          end)
       (fun e => mret (Forward e))).

(** Lines 49-57: the error is logged and thrown again. *)
Definition deleteFromCloudinary (publicId resourceType : string)
  : Handler unit :=
  try_catch (await (Destroy publicId resourceType)
                   (destroy backend publicId resourceType))
            (fun error => throw error).

(** [item.mediaType === 'video' ? 'video' : 'image']. *)
Definition resourceType (type : string) : string :=
  if String.eqb type "video" then "video" else "image".

(** Lines 533-540: the loop over the media of a deleted property. *)
Fixpoint deleteAllFromCloudinary (media : list Media) : Handler unit :=
  match media with
  | [] => mret tt
  | item :: rest =>
      _ ← try_catch
            (deleteFromCloudinary (cloudinaryId item)
                                  (resourceType (mediaType item)))
            (fun _ => mret tt);
      deleteAllFromCloudinary rest
  end.

(** DELETE /api/admin/properties/:id. *)
Definition deletePropertyRoute (s : Session) (id : string)
  : Handler (reply unit) :=
  guarded (ensureAuthenticated s)
    (try_catch
       (let id := parseInt id in
        if isNaN id then mret (Message 400 "Invalid ID")
        else
          media ← await (GetPropertyMedia id) (getPropertyMedia backend id);
          deleted ← await (DeleteProperty id) (deleteProperty backend id);
          if negb deleted then mret (Message 404 "Property not found")
          else
            _ ← deleteAllFromCloudinary media;
            mret (Message 200 "Property deleted successfully"))
       (fun e => mret (Forward e))).

(** *** Media (routes.ts 549-604, 636-787) *)

(** Line 576: [propertyId !== 'temp' && !isNaN(parseInt(propertyId))]. *)
Definition forExistingProperty (propertyId : value) : bool :=
  negb (match propertyId with
        | VString p => String.eqb p "temp"
        | _ => false
        end)
  && negb (isNaN (parseInt (ToString propertyId))).

(** Lines 577-584. *)
Definition uploadedMediaData (propertyId : value) (r : UploadResponse)
  : gmap string value :=
  list_to_map
    [("propertyId", VNumber (parseInt (ToString propertyId)));
     ("mediaType", VString (resourceType (resource_type r)));
     ("cloudinaryId", VString (public_id r));
     ("cloudinaryUrl", VString (secure_url r));
     ("isFeatured", VBool false);
     ("orderIndex", VNumber (of_Z 0))].

(** Line 568: [`property-${propertyId}-${Date.now()}`]. *)
Definition uploadPublicId (propertyId : value) : string :=
  "property-" +:+ ToString propertyId +:+ "-" +:+ Number_toString now.

(** POST /api/admin/media/upload. *)
Definition uploadMedia (s : Session) (body : UploadBody)
  : Handler (reply UploadResult) :=
  guarded (ensureAuthenticated s)
    (guarded (checkCloudinaryConfig env)
       (try_catch
          (if negb (ToBoolean (fileData body))
           then mret (Message 400 "No file data provided")
           else
             let propertyId := upload_propertyId body in
             uploadResponse ← await (Upload (fileData body) (uploadPublicId propertyId))
                                    (upload backend (fileData body)
                                            (uploadPublicId propertyId));
             newMedia ←
               (if forExistingProperty propertyId
                then
                  let mediaData := uploadedMediaData propertyId uploadResponse in
                  media ← await (CreatePropertyMedia mediaData)
                                (createPropertyMedia backend mediaData);
                  mret (Some media)
                else mret None);
             mret (Json 200
                     {| result_media := newMedia;
                        result_cloudinaryId := public_id uploadResponse;
                        result_cloudinaryUrl := secure_url uploadResponse;
                        result_mediaType :=
                          resourceType (resource_type uploadResponse) |}))
          (fun _ => mret (Message 500 "Failed to upload media")))).

(** [upload.array('files', 10)], with multer's memory storage.
    [parsed] is what multer makes of the request: [None] when it
    refuses it (more than ten files, a file above ten megabytes), else
    [req.files], which stays [undefined] for a body that is not
    multipart. *)
Definition upload_array (parsed : option (option (list CloudinaryFile)))
  : gate :=
  match parsed with
  | Some _ => Pass
  | None => Raise StorageError
  end.

(** Line 615: [file.cloudinaryId && file.cloudinaryUrl]. *)
Definition validFile (file : CloudinaryFile) : bool :=
  nonempty (file_cloudinaryId file) && nonempty (file_cloudinaryUrl file).

(** POST /api/admin/media/upload-multiple. *)
Definition uploadMultiple (s : Session)
    (parsed : option (option (list CloudinaryFile)))
  : Handler (reply MultipleUpload) :=
  guarded (ensureAuthenticated s)
    (guarded (checkCloudinaryConfig env)
       (guarded (upload_array parsed)
          (match parsed with
           | Some (Some (file :: files)) =>
               let validFiles := List.filter validFile (file :: files) in
               mret (Json 200
                       {| upload_success := true;
                          upload_message :=
                            Number_toString (of_Z (Z.of_nat (length validFiles)))
                            +:+ " files uploaded successfully";
                          upload_files := validFiles |})
           | _ => mret (Message 400 "No files uploaded")
           end))).

(** POST /api/admin/properties/:propertyId/media:
    [{ ...req.body, propertyId }]. *)
Definition postMedia (s : Session) (propertyId : string)
    (body : gmap string value) : Handler (reply Media) :=
  guarded (ensureAuthenticated s)
    (try_catch
       (let propertyId := parseInt propertyId in
        if isNaN propertyId then mret (Message 400 "Invalid property ID")
        else
          let mediaData := <["propertyId" := VNumber propertyId]> body in
          media ← await (CreatePropertyMedia mediaData)
                        (createPropertyMedia backend mediaData);
          mret (Json 201 media))
       (fun e => mret (Forward e))).

(** The own enumerable properties of a string: its code units, by
    index. *)
Fixpoint indexed (i : Z) (s : string) : gmap string value :=
  match s with
  | String c r =>
      <[Number_toString (of_Z i) := VString (String c EmptyString)]>
        (indexed (i + 1) r)
  | EmptyString => ∅
  end.

(** [{ ...mediaItem }]. *)
Definition spread (mediaItem : MediaItem) : gmap string value :=
  match mediaItem with
  | ItemObject fields => fields
  | ItemScalar (VString s) => indexed 0 s
  | ItemScalar _ => ∅
  end.

(** [mediaItem.orderIndex]: reading a property of [null] throws. *)
Definition orderIndex (mediaItem : MediaItem) : Handler value :=
  match mediaItem with
  | ItemObject fields => mret (default VUndefined (fields !! "orderIndex"))
  | ItemScalar VNull | ItemScalar VUndefined => throw TypeError
  | ItemScalar _ => mret VUndefined
  end.

(** Lines 693-698. *)
Definition batchMediaData (propertyId : number) (i : nat) (mediaItem : MediaItem)
  : Handler (gmap string value) :=
  own ← orderIndex mediaItem;
  mret (<["orderIndex" := match own with
                          | VUndefined => VNumber (of_Z (Z.of_nat i))
                          | _ => own
                          end]>
          (<["propertyId" := VNumber propertyId]> (spread mediaItem))).

(** Lines 687-712: the loop, from index [i], with the [results] and
    [errors] so far. *)
Fixpoint processItems (propertyId : number) (i : nat) (items : list MediaItem)
    (results : list Media) (errors : list BatchError)
  : Handler (list Media * list BatchError) :=
  match items with
  | [] => mret (results, errors)
  | mediaItem :: rest =>
      r ← try_catch
            (mediaData ← batchMediaData propertyId i mediaItem;
             media ← await (CreatePropertyMedia mediaData)
                           (createPropertyMedia backend mediaData);
             mret ((results ++ [media])%list, errors))
            (fun _ =>
               mret (results,
                     (errors ++ [{| error_index := i; error_item := mediaItem |}])%list));
      processItems propertyId (S i) rest (fst r) (snd r)
  end.

(** POST /api/admin/properties/:propertyId/media/batch. *)
Definition postMediaBatch (s : Session) (propertyId : string) (body : BatchBody)
  : Handler (reply BatchResponse) :=
  guarded (ensureAuthenticated s)
    (try_catch
       (let propertyId := parseInt propertyId in
        if isNaN propertyId then mret (Message 400 "Invalid property ID")
        else
          match body with
          | BodyObject _ => mret (Message 400 "Expected an array of media items")
          | BodyArray items =>
              r ← processItems propertyId 0 items [] [];
              let '(results, errors) := r in
              mret (Json 201
                      {| batch_total := length items;
                         batch_created := length results;
                         batch_failed := length errors;
                         batch_media := results;
                         batch_errors :=
                           match errors with
                           | [] => None
                           | _ => Some errors
                           end |})
          end)
       (fun e => mret (Forward e))).

(** DELETE /api/admin/media/:id. *)
Definition deleteMedia (s : Session) (id : string) : Handler (reply unit) :=
  guarded (ensureAuthenticated s)
    (try_catch
       (let id := parseInt id in
        if isNaN id then mret (Message 400 "Invalid ID")
        else
          media ← await (GetPropertyMedia id) (getPropertyMedia backend id);
          match List.find (fun item => number_eqb (media_id item) id) media with
          | None => mret (Message 404 "Media not found")
          | Some mediaItem =>
              deleted ← await (DeletePropertyMedia id)
                              (deletePropertyMedia backend id);
              if deleted : bool then
                _ ← try_catch
                      (deleteFromCloudinary (cloudinaryId mediaItem)
                                            (resourceType (mediaType mediaItem)))
                      (fun _ => mret tt);
                mret (Message 200 "Media deleted successfully")
              else mret (Message 404 "Media not found")
          end)
       (fun e => mret (Forward e))).

(** PUT /api/admin/properties/:propertyId/media/:id/featured. *)
Definition putFeatured (s : Session) (propertyId id : string)
  : Handler (reply unit) :=
  guarded (ensureAuthenticated s)
    (try_catch
       (let id := parseInt id in
        let propertyId := parseInt propertyId in
        if isNaN id || isNaN propertyId then mret (Message 400 "Invalid ID")
        else
          updated ← await (SetFeaturedMedia id propertyId)
                          (setFeaturedMedia backend id propertyId);
          if updated : bool
          then mret (Message 200 "Featured media updated successfully")
          else mret (Message 404 "Media not found"))
       (fun e => mret (Forward e))).

(** *** Facilities and inquiries (routes.ts 871-908, 929-981) *)

(** [if (req.query.p) ...]: the parameter, when it is not empty. *)
Definition given (query : gmap string string) (p : string) : option string :=
  match query !! p with
  | Some (String c r) => Some (String c r)
  | _ => None
  end.

(** Lines 893-902. *)
Definition inquiryFilters (query : gmap string string) : InquiryFilters :=
  {| filter_propertyId := parseInt <$> given query "propertyId";
     filter_status := given query "status" |}.

(** GET /api/admin/inquiries. *)
Definition getInquiriesRoute (s : Session) (query : gmap string string)
  : Handler (reply (list Inquiry)) :=
  guarded (ensureAuthenticated s)
    (try_catch
       (inquiries ← await (GetInquiries (inquiryFilters query))
                          (getInquiries backend (inquiryFilters query));
        mret (Json 200 inquiries))
       (fun e => mret (Forward e))).

(** DELETE /api/admin/facilities/:id. *)
Definition deleteFacility (s : Session) (id : string) : Handler (reply unit) :=
  guarded (ensureAuthenticated s)
    (try_catch
       (let id := parseInt id in
        if isNaN id then mret (Message 400 "Invalid ID")
        else
          deleted ← await (DeleteNearbyFacility id)
                          (deleteNearbyFacility backend id);
          if deleted : bool
          then mret (Message 200 "Facility deleted successfully")
          else mret (Message 404 "Facility not found"))
       (fun e => mret (Forward e))).

(** Line 936: [!status || !['new', 'contacted', 'resolved'].includes(status)]
    fails. *)
Definition validStatus (status : value) : option string :=
  match status with
  | VString st =>
      if ToBoolean status && bool_decide (st ∈ ["new"; "contacted"; "resolved"])
      then Some st else None
  | _ => None
  end.

(** PUT /api/admin/inquiries/:id. *)
Definition putInquiry (s : Session) (id : string) (status : value)
  : Handler (reply Inquiry) :=
  guarded (ensureAuthenticated s)
    (try_catch
       (let id := parseInt id in
        if isNaN id then mret (Message 400 "Invalid ID")
        else
          match validStatus status with
          | None => mret (Message 400 "Invalid status")
          | Some st =>
              inquiry ← await (UpdateInquiryStatus id st)
                              (updateInquiryStatus backend id st);
              match inquiry with
              | Some i => mret (Json 200 i)
              | None => mret (Message 404 "Inquiry not found")
              end
          end)
       (fun e => mret (Forward e))).

(** DELETE /api/admin/inquiries/:id. *)
Definition deleteInquiryRoute (s : Session) (id : string)
  : Handler (reply unit) :=
  guarded (ensureAuthenticated s)
    (try_catch
       (let id := parseInt id in
        if isNaN id then mret (Message 400 "Invalid ID")
        else
          deleted ← await (DeleteInquiry id) (deleteInquiry backend id);
          if deleted : bool
          then mret (Message 200 "Inquiry deleted successfully")
          else mret (Message 404 "Inquiry not found"))
       (fun e => mret (Forward e))).

(** *** The mail tests (routes.ts 984-1004) *)

(** GET /api/admin/email/test-config and POST
    /api/admin/email/send-test.  [routes.ts] calls
    [testEmailConfiguration] and [sendTestEmail] without importing
    them; each handler takes what its name stands for as its first
    argument. *)
Definition getEmailTestConfig (testEmailConfiguration : Handler value)
    (s : Session) : Handler (reply value) :=
  guarded (ensureAuthenticated s)
    (try_catch
       (result ← testEmailConfiguration;
        mret (Json 200 result))
       (fun e => mret (Forward e))).

Definition postEmailSendTest (sendTestEmail : Handler value)
    (s : Session) : Handler (reply value) :=
  guarded (ensureAuthenticated s)
    (try_catch
       (result ← sendTestEmail;
        mret (Json 200 result))
       (fun e => mret (Forward e))).

End Handlers.

(** *** What a run shows *)

(** The status of an answer; [None] when the error goes to the error
    handler. *)
Definition status_of {A} (answer : outcome (reply A)) : option Z :=
  match answer with
  | Returned (Json status _) | Returned (Message status _) => Some status
  | Returned (Forward _) | Thrown _ => None
  end.

(** A rejected promise, or a call that throws. *)
Definition rejected {A} (result : option A) : bool :=
  match result with
  | None => true
  | Some _ => false
  end.

(** Whether the backend rejects a call. *)
Definition rejects (backend : Backend) (call : Event) : bool :=
  match call with
  | GetUserByUsername username => rejected (getUserByUsername backend username)
  | GetUserByEmail email => rejected (getUserByEmail backend email)
  | HashPassword password => rejected (hashPassword backend password)
  | CreateUser data => rejected (createUser backend data)
  | DeleteUser id => rejected (deleteUser backend id)
  | UpdateUser id data => rejected (updateUser backend id data)
  | CreateInquiry data => rejected (createInquiry backend data)
  | GetPropertyById id => rejected (getPropertyById backend id)
  | Verify => rejected (verify backend)
  | SendMail options => rejected (sendMail backend options)
  | CreateProperty data => rejected (createProperty backend data)
  | UpdateProperty id data => rejected (updateProperty backend id data)
  | DeleteProperty id => rejected (deleteProperty backend id)
  | GetPropertyMedia id => rejected (getPropertyMedia backend id)
  | CreatePropertyMedia data => rejected (createPropertyMedia backend data)
  | DeletePropertyMedia id => rejected (deletePropertyMedia backend id)
  | SetFeaturedMedia id propertyId =>
      rejected (setFeaturedMedia backend id propertyId)
  | Upload file publicId => rejected (upload backend file publicId)
  | Destroy publicId type => rejected (destroy backend publicId type)
  | DeleteNearbyFacility id => rejected (deleteNearbyFacility backend id)
  | UpdateInquiryStatus id status =>
      rejected (updateInquiryStatus backend id status)
  | DeleteInquiry id => rejected (deleteInquiry backend id)
  | GetUsers => rejected (getUsers backend)
  | GetDashboardStats => rejected (getDashboardStats backend)
  | GetProperties => rejected (getProperties backend)
  | GetInquiries filters => rejected (getInquiries backend filters)
  end.

(** The status and the message of a route that answered without
    calling a collaborator. *)
Definition refusal {A} (handler : M Event (reply A)) : option (Z * string) :=
  match run handler with
  | (Returned (Message status text), []) => Some (status, text)
  | _ => None
  end.

(** *** Sessions, rows and a backend for running examples *)

Section Examples.

Definition signedIn (user : User) : Session :=
  {| isAuthenticated := true; session_user := Some user |}.

Definition anonymous : Session :=
  {| isAuthenticated := false; session_user := None |}.

Definition root : User :=
  {| user_id := of_Z 1; user_username := "root";
     user_email := "root@example.org"; user_password := "$1";
     user_role := "superadmin" |}.

Definition clerk : User :=
  {| user_id := of_Z 2; user_username := "clerk";
     user_email := "clerk@example.org"; user_password := "$2";
     user_role := "staff" |}.

Definition newcomer (role : string) : UserBody :=
  {| body_username := VString "ann";
     body_email := VString "ann@example.org";
     body_password := VString "secret";
     body_role := VString role |}.

Definition villa : PropertyRow :=
  {| row_id := of_Z 7; row_title := "Villa in Saket" |}.

(** Medium 7 of property 7, and medium 8 of the same property. *)
Definition photo : Media :=
  {| media_id := of_Z 7; media_propertyId := of_Z 7; mediaType := "image";
     cloudinaryId := "villa/front"; cloudinaryUrl := "https://media.example/front" |}.

Definition clip : Media :=
  {| media_id := of_Z 8; media_propertyId := of_Z 7; mediaType := "video";
     cloudinaryId := "villa/tour"; cloudinaryUrl := "https://media.example/tour" |}.

Definition question : gmap string value :=
  {[ "name" := VString "Ravi"; "email" := VString "ravi@example.org";
     "phone" := VString "98100"; "message" := VString "Is it available?";
     "propertyId" := VNumber (of_Z 7) ]}.

Definition configured : gmap string string :=
  {[ "CLOUDINARY_CLOUD_NAME" := "demo"; "CLOUDINARY_API_KEY" := "key";
     "CLOUDINARY_API_SECRET" := "secret"; "EMAIL_USER" := "desk@example.org" ]}.

Definition text_field (fields : gmap string value) (name : string) : string :=
  ToString (default VUndefined (fields !! name)).

Definition number_field (fields : gmap string value) (name : string) : number :=
  match fields !! name with
  | Some (VNumber n) => n
  | _ => NaN
  end.

Definition named (v : value) (user : User) : bool :=
  String.eqb (user_username user) (ToString v).

Definition mailed (v : value) (user : User) : bool :=
  String.eqb (user_email user) (ToString v).

Definition numbered (id : number) (user : User) : bool :=
  number_eqb (user_id user) id.

Definition updated (data : UserUpdate) (user : User) : User :=
  {| user_id := user_id user;
     user_username := default (user_username user) (ToString <$> update_username data);
     user_email := default (user_email user) (ToString <$> update_email data);
     user_password := user_password user;
     user_role := default (user_role user) (ToString <$> update_role data) |}.

(** Rows held in memory.  [mediaTable] is [None] when the table of
    media cannot be reached; the schemas accept an inquiry with a name
    and an address, and a property with a hyphenated area unit. *)
Definition memoryBackend (users : list User) (properties : list PropertyRow)
    (mediaTable : option (list Media)) : Backend :=
  {| getUserByUsername := fun v => Some (List.find (named v) users);
     getUserByEmail := fun v => Some (List.find (mailed v) users);
     hashPassword := fun v => Some ("hash:" +:+ ToString v);
     createUser := fun d =>
       Some {| user_id := of_Z (Z.of_nat (length users) + 1);
               user_username := ToString (new_username d);
               user_email := ToString (new_email d);
               user_password := new_password d;
               user_role := ToString (new_role d) |};
     deleteUser := fun id => Some (existsb (numbered id) users);
     updateUser := fun id d => Some (updated d <$> List.find (numbered id) users);
     insertInquirySchema_parse := fun body =>
       match body !! "name", body !! "email" with
       | Some (VString name), Some (VString email) =>
           Some {| data_propertyId :=
                     match body !! "propertyId" with
                     | Some (VNumber n) => Some n
                     | _ => None
                     end;
                   data_name := name;
                   data_email := email;
                   data_phone := text_field body "phone";
                   data_message := text_field body "message" |}
       | _, _ => None
       end;
     createInquiry := fun d =>
       Some {| inquiry_id := of_Z 1;
               inquiry_propertyId := data_propertyId d;
               inquiry_name := data_name d;
               inquiry_email := data_email d;
               inquiry_phone := data_phone d;
               inquiry_message := data_message d;
               inquiry_status := "new" |};
     getPropertyById := fun id =>
       Some (List.find (fun p => number_eqb (row_id p) id) properties);
     verify := Some tt;
     sendMail := fun _ => Some tt;
     insertPropertySchema_parse := fun b =>
       match areaUnit b with
       | Unit (VString u) =>
           if bool_decide (u ∈ ["sq-ft"; "sq-mt"; "sq-yd"])
           then Some (<["areaUnit" := VString u]> (otherFields b))
           else None
       | _ => None
       end;
     insertPropertySchema_partial_parse := fun b =>
       match areaUnit b with
       | Unit (VString u) =>
           if bool_decide (u ∈ ["sq-ft"; "sq-mt"; "sq-yd"])
           then Some (<["areaUnit" := VString u]> (otherFields b))
           else None
       | Unit VUndefined => Some (otherFields b)
       | _ => None
       end;
     createProperty := fun d =>
       Some {| row_id := of_Z (Z.of_nat (length properties) + 1);
               row_title := text_field d "title" |};
     updateProperty := fun id d =>
       Some (List.find (fun p => number_eqb (row_id p) id) properties);
     deleteProperty := fun id =>
       Some (existsb (fun p => number_eqb (row_id p) id) properties);
     getPropertyMedia := fun id =>
       List.filter (fun m => number_eqb (media_propertyId m) id) <$> mediaTable;
     createPropertyMedia := fun d =>
       (fun media =>
          {| media_id := of_Z (Z.of_nat (length media) + 1);
             media_propertyId := number_field d "propertyId";
             mediaType := text_field d "mediaType";
             cloudinaryId := text_field d "cloudinaryId";
             cloudinaryUrl := text_field d "cloudinaryUrl" |}) <$> mediaTable;
     deletePropertyMedia := fun id =>
       existsb (fun m => number_eqb (media_id m) id) <$> mediaTable;
     setFeaturedMedia := fun id propertyId =>
       existsb (fun m => number_eqb (media_id m) id
                         && number_eqb (media_propertyId m) propertyId)
         <$> mediaTable;
     upload := fun _ publicId =>
       Some {| public_id := "south-delhi-real-estate/" +:+ publicId;
               secure_url := "https://media.example/" +:+ publicId;
               resource_type := "image" |};
     destroy := fun _ _ => Some tt;
     deleteNearbyFacility := fun _ => Some false;
     updateInquiryStatus := fun _ _ => Some None;
     deleteInquiry := fun _ => Some false;
     getUsers := Some users;
     getDashboardStats :=
       Some {[ "totalProperties" := VNumber (of_Z (Z.of_nat (length properties))) ]};
     getProperties := Some properties;
     getInquiries := fun _ => Some [] |}.

(** The rows of the examples. *)
Definition office_backend : Backend :=
  memoryBackend [root; clerk] [villa] (Some [photo; clip]).

(** The same, with the table of media out of reach. *)
Definition degraded_backend : Backend :=
  memoryBackend [root; clerk] [villa] None.

(** A backend of which every call is rejected. *)
Definition offline_backend : Backend :=
  {| getUserByUsername := fun _ => None;
     getUserByEmail := fun _ => None;
     hashPassword := fun _ => None;
     createUser := fun _ => None;
     deleteUser := fun _ => None;
     updateUser := fun _ _ => None;
     insertInquirySchema_parse := fun _ => None;
     createInquiry := fun _ => None;
     getPropertyById := fun _ => None;
     verify := None;
     sendMail := fun _ => None;
     insertPropertySchema_parse := fun _ => None;
     insertPropertySchema_partial_parse := fun _ => None;
     createProperty := fun _ => None;
     updateProperty := fun _ _ => None;
     deleteProperty := fun _ => None;
     getPropertyMedia := fun _ => None;
     createPropertyMedia := fun _ => None;
     deletePropertyMedia := fun _ => None;
     setFeaturedMedia := fun _ _ => None;
     upload := fun _ _ => None;
     destroy := fun _ _ => None;
     deleteNearbyFacility := fun _ => None;
     updateInquiryStatus := fun _ _ => None;
     deleteInquiry := fun _ => None;
     getUsers := None;
     getDashboardStats := None;
     getProperties := None;
     getInquiries := fun _ => None |}.

End Examples.

End Admin.

(* ================================================================== *)
(** ** Further predicates used in the statements *)
(* ================================================================== *)

(** A string of decimal digits. *)
Fixpoint digits (s : string) : bool :=
  match s with
  | String c r => is_digit c && digits r
  | EmptyString => true
  end.

(** What may follow the digits of an id: nothing, or a character that
    is neither a digit nor the [x] of a hexadecimal prefix. *)
Definition ends_number (t : string) : bool :=
  match t with
  | String c _ =>
      negb (is_digit c) && negb (Ascii.eqb c "x") && negb (Ascii.eqb c "X")
  | EmptyString => true
  end.

(** A number that is neither [NaN] nor negative. *)
Definition nonnegative (x : number) : Prop :=
  match x with
  | Fin q => (0 <= q)%Q
  | Infinity negative => negative = false
  | NaN => False
  end.

(* ================================================================== *)
(** ** The pager of the listing page *)
(* ================================================================== *)

(** [currentPage] and [renderPaginationItems] of
    [client/src/pages/properties-page.tsx]. *)
Module Pager.

Local Open Scope string_scope.

(** [Math.max] and [Math.min] of two numbers: [NaN] when either is. *)
Definition Math_max (x y : number) : number :=
  match x, y with
  | NaN, _ | _, NaN => NaN
  | _, _ => if leb x y then y else x
  end.

Definition Math_min (x y : number) : number :=
  match x, y with
  | NaN, _ | _, NaN => NaN
  | _, _ => if leb x y then x else y
  end.

Definition Math_floor (x : number) : number :=
  match x with
  | Fin q => of_Z (Qfloor q)
  | _ => x
  end.

(** Line 55: [parseInt(searchParams.get('page') || '1')]. *)
Definition currentPage (page : option string) : number :=
  parseInt (match page with
            | Some (String c r) => String c r
            | _ => "1"
            end).

(** What the pager renders, in order: the components with the
    properties that depend on the page.  A link without [isActive] is
    not active. *)
Inductive PaginationItem : Type :=
  | PaginationPrevious (disabled : bool)
  | PaginationLink (page : number) (isActive : bool)
  | PaginationEllipsis (key : string)
  | PaginationNext (disabled : bool).

Definition maxVisiblePages : number := of_Z 5.

(** Lines 188-189. *)
Definition startPage (currentPage : number) : number :=
  Math_max (of_Z 1)
           (sub currentPage (Math_floor (div maxVisiblePages (of_Z 2)))).

Definition endPage (currentPage pages : number) : number :=
  Math_min pages
           (sub (add (startPage currentPage) maxVisiblePages) (of_Z 1)).

(** Lines 229-245: [for (let i = startPage; i <= endPage; i++)], with
    a bound on the number of iterations; [None] when it is reached. *)
Fixpoint pageLinks (fuel : nat) (i endPage currentPage : number)
  : option (list PaginationItem) :=
  match fuel with
  | O => None
  | S fuel =>
      if leb i endPage
      then cons (PaginationLink i (number_eqb i currentPage))
             <$> pageLinks fuel (add i (of_Z 1)) endPage currentPage
      else Some []
  end.

(** Lines 185-292. *)
Definition renderPaginationItems (fuel : nat) (currentPage pages : number)
  : option (list PaginationItem) :=
  let startPage := startPage currentPage in
  let endPage := endPage currentPage pages in
  links ← pageLinks fuel startPage endPage currentPage;
  Some ([PaginationPrevious (number_eqb currentPage (of_Z 1))]
        ++ (if ltb (of_Z 1) startPage
            then PaginationLink (of_Z 1) false
                 :: (if ltb (of_Z 2) startPage
                     then [PaginationEllipsis "ellipsis-start"] else [])
            else [])
        ++ links
        ++ (if ltb endPage pages
            then (if ltb endPage (sub pages (of_Z 1))
                  then [PaginationEllipsis "ellipsis-end"] else [])
                 ++ [PaginationLink pages false]
            else [])
        ++ [PaginationNext (number_eqb currentPage pages)])%list.

(** The pages that have a link. *)
Definition linked (items : list PaginationItem) : list number :=
  omap (fun item => match item with
                    | PaginationLink page _ => Some page
                    | _ => None
                    end) items.

(** The integers from [lo] to [hi]. *)
Definition range (lo hi : Z) : list Z :=
  (fun k => lo + Z.of_nat k)%Z <$> seq 0 (Z.to_nat (hi - lo + 1)).

End Pager.

(* ================================================================== *)
(** ** Facts about numbers and parsing *)
(* ================================================================== *)

Section NumberFacts.

Lemma round64_not_NaN (q : Q) : round64 q <> NaN.
Proof.
  unfold round64.
  destruct (Qnum q); [discriminate | |];
    destruct (round_pos _ _); discriminate.
Qed.

Lemma or_else_truthy (x d : number) :
  truthy d = true -> truthy (or_else x d) = true.
Proof. unfold or_else. destruct (truthy x) eqn:E; auto. Qed.

(** [x || d] is [d] exactly when [x] is [NaN] or zero. *)
Lemma or_else_NaN (d : number) : or_else NaN d = d.
Proof. reflexivity. Qed.

Lemma or_else_zero (d : number) : or_else (Fin 0) d = d.
Proof. reflexivity. Qed.

Lemma truthy_not_NaN (x : number) : truthy x = true -> x <> NaN.
Proof. destruct x; simpl; congruence. Qed.

Lemma leb_refl (x : number) : x <> NaN -> leb x x = true.
Proof.
  destruct x as [| [|] | q]; simpl; try congruence.
  intros _. apply Qle_bool_iff. apply Qle_refl.
Qed.

Lemma mul_1000_not_NaN (x : number) :
  x <> NaN -> mul x (of_Z 1000) <> NaN.
Proof.
  destruct x as [| s | a]; simpl; try congruence.
  intros _. apply round64_not_NaN.
Qed.

End NumberFacts.

(** Integers below [2^53] in absolute value are doubles: rounding
    leaves them as they are, which is what [of_Z] relies on. *)
Section SafeIntegers.

Lemma Qred_inject_Z (z : Z) : Qred (inject_Z z) = inject_Z z.
Proof.
  unfold Qred, inject_Z.
  pose proof (Z.ggcd_gcd z 1) as Hg.
  pose proof (Z.ggcd_correct_divisors z 1) as Hd.
  destruct (Z.ggcd z 1) as [g [a b]]. simpl in *.
  rewrite Z.gcd_1_r in Hg. subst g.
  destruct Hd as [Ha Hb].
  replace a with z by lia. replace b with 1 by lia. reflexivity.
Qed.

Lemma Qred_scaled (z k : Z) :
  0 <= k -> Qred (Qmake (z * 2 ^ k) (Z.to_pos (2 ^ k))) = inject_Z z.
Proof.
  intros Hk. rewrite <- Qred_inject_Z. apply Qred_complete.
  unfold Qeq, inject_Z. simpl.
  rewrite Z2Pos.id by (apply Z.pow_pos_nonneg; lia). lia.
Qed.

Lemma div_half_even_exact (n : Z) : div_half_even n 1 = n.
Proof.
  unfold div_half_even. rewrite Z.div_1_r, Z.mod_1_r. reflexivity.
Qed.

Lemma ilog2_integer (n : Z) : 0 < n -> ilog2 n 1 = Z.log2 n.
Proof.
  intros Hn. unfold ilog2. simpl (Z.log2 1). rewrite Z.sub_0_r.
  pose proof (Z.log2_nonneg n) as H0.
  destruct (0 <=? Z.log2 n) eqn:E; [| apply Z.leb_gt in E; lia].
  pose proof (Z.log2_spec n Hn) as [Hlo _].
  replace (1 * 2 ^ Z.log2 n <=? n) with true; [reflexivity |].
  symmetry. apply Z.leb_le. lia.
Qed.

Lemma round_pos_safe_integer (n : Z) :
  0 < n -> n < 2 ^ 53 -> round_pos n 1 = Some (inject_Z n).
Proof.
  intros Hn Hb. unfold round_pos. rewrite (ilog2_integer n Hn).
  assert (Hl : Z.log2 n < 53) by (apply Z.log2_lt_pow2; lia).
  pose proof (Z.log2_nonneg n) as H0.
  assert (Hex : Z.max (Z.log2 n - 52) (-1074) = Z.log2 n - 52) by lia.
  rewrite Hex.
  destruct (0 <=? Z.log2 n - 52) eqn:E.
  - apply Z.leb_le in E. assert (Z.log2 n - 52 = 0) as -> by lia.
    cbv zeta. change (2 ^ 0) with 1. change (1 * 1) with 1.
    rewrite div_half_even_exact, Z.mul_1_r.
    replace (2 ^ 1024 <=? n) with false; [reflexivity |].
    symmetry. apply Z.leb_gt.
    assert (2 ^ 53 < 2 ^ 1024) by (apply Z.pow_lt_mono_r; lia). lia.
  - apply Z.leb_gt in E. rewrite div_half_even_exact.
    f_equal. apply Qred_scaled. lia.
Qed.

Lemma round64_safe_integer (z : Z) :
  Z.abs z < 2 ^ 53 -> round64 (inject_Z z) = of_Z z.
Proof.
  intros Hz. unfold round64, of_Z. simpl.
  destruct z as [| n | n]; [reflexivity | |].
  - rewrite round_pos_safe_integer; [reflexivity | lia | lia].
  - rewrite round_pos_safe_integer; [| lia | simpl in Hz; lia].
    f_equal. change (- inject_Z (Z.pos n))%Q with (inject_Z (Z.neg n)).
    apply Qred_inject_Z.
Qed.

(** Kilometers to meters is exact on integers. *)
Lemma mul_1000_integer (r : Z) :
  Z.abs r < 2 ^ 43 -> mul (of_Z r) (of_Z 1000) = of_Z (r * 1000).
Proof.
  intros Hr. unfold mul, of_Z.
  change (inject_Z r * inject_Z 1000)%Q with (inject_Z (r * 1000)).
  apply round64_safe_integer.
  change (2 ^ 53) with (2 ^ 43 * 1024). lia.
Qed.

End SafeIntegers.

(** The arithmetic above against the Standard Library's specification
    of binary64 ([SpecFloat]), on quotients of integers that exercise
    ties, subnormal numbers, underflow and overflow. *)
Section SpecFloatAgreement.

Example arithmetic_agrees_with_SpecFloat :
  forallb agree_on samples = true.
Proof. vm_compute. reflexivity. Qed.

(** [1.001 * 1000] is the double below 1001. *)
Example product_below_1001 :
  mul (parseFloat "1.001") (of_Z 1000) = Fin (8804889115230207 # 8796093022208)
  /\ Number_toString (mul (parseFloat "1.001") (of_Z 1000)) = "1000.9999999999999"
  /\ leb (of_Z 1001) (mul (parseFloat "1.001") (of_Z 1000)) = false.
Proof. repeat split; vm_compute; reflexivity. Qed.

End SpecFloatAgreement.

Section ParsingFacts.

Example parseInt_samples :
  parseInt "abc" = NaN /\ parseInt "" = NaN /\ parseInt "undefined" = NaN
  /\ parseInt "12abc" = of_Z 12 /\ parseInt "  -7.9" = of_Z (-7)
  /\ parseInt "0x1F" = of_Z 31 /\ parseInt "0" = of_Z 0.
Proof. repeat split; vm_compute; reflexivity. Qed.

Example parseFloat_samples :
  parseFloat "abc" = NaN /\ parseFloat "" = NaN /\ parseFloat "." = NaN
  /\ parseFloat "2.5 km" = Fin (5 # 2) /\ parseFloat "1e3" = of_Z 1000
  /\ parseFloat " -.5e1x" = of_Z (-5) /\ parseFloat "0" = of_Z 0
  /\ parseFloat "-Infinity" = Infinity true.
Proof. repeat split; vm_compute; reflexivity. Qed.

Example match_leading_number_samples :
  match_leading_number "2.5 km" = Some "2.5"
  /\ match_leading_number "800 m" = Some "800"
  /\ match_leading_number "2." = Some "2"
  /\ match_leading_number ".5 km" = None
  /\ match_leading_number "near the gate" = None.
Proof. repeat split; reflexivity. Qed.

Example printing_samples :
  Number_toString (of_Z 678) = "678"
  /\ Number_toString (parseFloat "1e21") = "1e+21"
  /\ Number_toString (div (of_Z 1) (of_Z 3)) = "0.3333333333333333"
  /\ toFixed (div (of_Z 13759) (of_Z 1000)) 1 = "13.8"
  /\ toFixed (div (of_Z 1250) (of_Z 1000)) 1 = "1.3"
  /\ toFixed (div (of_Z 1450) (of_Z 1000)) 1 = "1.4".
Proof. repeat split; vm_compute; reflexivity. Qed.

Lemma match_leading_number_None (s : string) :
  starts_with_digit s = false -> match_leading_number s = None.
Proof.
  destruct s as [| c r]; simpl; [reflexivity |].
  intros Hc. unfold match_leading_number. simpl. rewrite Hc. reflexivity.
Qed.

Lemma match_leading_number_Some (s : string) :
  starts_with_digit s = true -> exists g, match_leading_number s = Some g.
Proof.
  destruct s as [| c r]; simpl; [discriminate |].
  intros Hc. unfold match_leading_number. simpl. rewrite Hc.
  destruct (span_digits r) as [d t].
  destruct t as [| c' t']; [eauto |].
  destruct (Ascii.eqb c' ".") eqn:E.
  - apply Ascii.eqb_eq in E. subst c'.
    destruct (span_digits t') as [fp u]. destruct fp; eauto.
  - destruct c' as [[] [] [] [] [] [] [] []]; simpl in E; try discriminate; eauto.
Qed.

End ParsingFacts.

(* ================================================================== *)
(** ** The nearby-facility radius query *)
(* ================================================================== *)

Section NearbyFacilities.

Variable storage : Storage.

(** The handler, case by case. *)
Lemma nearbyFacilities_run (req : NearbyRequest) :
  run (nearbyFacilities storage req) =
  let id := parseInt (nr_id req) in
  if isNaN id then (Returned (Fail 400 "Invalid property ID"), [])
  else
    match getNearbyFacilities storage id with
    | Some facilities =>
        (Returned (Respond 200 (result (nr_query req) facilities)),
         [GetNearbyFacilities id])
    | None => (Returned (Next StorageError), [GetNearbyFacilities id])
    end.
Proof.
  unfold nearbyFacilities, run, try_catch. cbn zeta.
  destruct (isNaN (parseInt (nr_id req))); [reflexivity |].
  unfold mbind, M_bind, bind, await.
  destruct (getNearbyFacilities storage (parseInt (nr_id req))); reflexivity.
Qed.

Lemma searchRadius_truthy (query : gmap string string) :
  truthy (searchRadius query) = true.
Proof. unfold searchRadius. apply or_else_truthy. reflexivity. Qed.

Lemma searchRadiusMeters_not_NaN (query : gmap string string) :
  searchRadiusMeters query <> NaN.
Proof.
  unfold searchRadiusMeters. apply mul_1000_not_NaN.
  apply truthy_not_NaN, searchRadius_truthy.
Qed.

(** Membership in the result: in the rows, within the radius, and of
    the requested type. *)
Lemma In_result (query : gmap string string)
    (facilities : list NearbyFacility) (f : NearbyFacility) :
  In f (result query facilities) <->
  In f facilities /\ withinRadius query f = true
    /\ passesTypeFilter query f = true.
Proof.
  unfold result, passesTypeFilter, filteredByRadius.
  destruct (query !! "facilityType") as [[| c t] |];
    rewrite ?filter_In; tauto.
Qed.

(** The response of a request with a numeric id: the filtered rows. *)
Lemma nearbyFacilities_body (req : NearbyRequest)
    (body : list NearbyFacility) (log : list StorageCall) :
  run (nearbyFacilities storage req) = (Returned (Respond 200 body), log) ->
  exists facilities,
    getNearbyFacilities storage (parseInt (nr_id req)) = Some facilities
    /\ body = result (nr_query req) facilities.
Proof.
  rewrite nearbyFacilities_run. cbn zeta.
  destruct (isNaN (parseInt (nr_id req))); [discriminate |].
  destruct (getNearbyFacilities storage (parseInt (nr_id req))) as [fs |];
    [| discriminate].
  intros [= <- _]. eauto.
Qed.

Lemma unknownDistance_outside (query : gmap string string)
    (f : NearbyFacility) :
  unknownDistance f = true -> withinRadius query f = false.
Proof.
  unfold unknownDistance, withinRadius.
  destruct (distanceValue f); [discriminate |].
  destruct (distance f) as [text |]; [| reflexivity].
  intros Hd. apply negb_true_iff in Hd.
  rewrite (match_leading_number_None _ Hd). reflexivity.
Qed.

(** With the radius parameter parsing to [NaN] or [0], the search
    radius is the default. *)
Lemma searchRadius_default (query : gmap string string) (r : string) :
  query !! "radius" = Some r ->
  parseFloat r = NaN \/ parseFloat r = Fin 0 ->
  searchRadius query = of_Z 1.
Proof.
  intros Hr Hp. unfold searchRadius. rewrite Hr. simpl.
  destruct Hp as [-> | ->]; reflexivity.
Qed.

Lemma searchRadius_absent (query : gmap string string) :
  query !! "radius" = None -> searchRadius query = of_Z 1.
Proof. intros Hr. unfold searchRadius. rewrite Hr. reflexivity. Qed.

(** The result depends on the query through the search radius and the
    facility type only. *)
Lemma result_ext (q1 q2 : gmap string string)
    (facilities : list NearbyFacility) :
  searchRadius q1 = searchRadius q2 ->
  q1 !! "facilityType" = q2 !! "facilityType" ->
  result q1 facilities = result q2 facilities.
Proof.
  intros Hr Ht. unfold result, filteredByRadius. rewrite Ht.
  assert (Hw : forall f, withinRadius q1 f = withinRadius q2 f).
  { intros f. unfold withinRadius, searchRadiusMeters. rewrite Hr. reflexivity. }
  rewrite (filter_ext _ _ Hw). reflexivity.
Qed.

End NearbyFacilities.

(** C9: a request to the nearby-facilities endpoint whose id does not
    parse as an integer is answered with status 400, and the storage is
    not queried. *)
Theorem nearby_invalid_id_rejected (storage : Storage) (req : NearbyRequest) :
  parseInt (nr_id req) = NaN ->
  run (nearbyFacilities storage req)
  = (Returned (Fail 400 "Invalid property ID"), []).
Proof. intros Hid. rewrite nearbyFacilities_run. cbn zeta. rewrite Hid. reflexivity. Qed.

Lemma nearby_invalid_id_rejected_witness :
  parseInt "abc" = NaN /\
  run (nearbyFacilities (memoryStorage [] [])
         {| nr_id := "abc"; nr_query := {["radius" := "2"]} |})
  = (Returned (Fail 400 "Invalid property ID"), []).
Proof.
  split; [reflexivity |].
  apply (nearby_invalid_id_rejected (memoryStorage [] [])
           {| nr_id := "abc"; nr_query := {["radius" := "2"]} |}).
  reflexivity.
Defined.

(** C6: whatever the radius and the facility-type filter, a row whose
    canonical distance is null and whose distance text does not start
    with a numeric token is never in the response. *)
Theorem nearby_unknown_distance_excluded (storage : Storage)
    (req : NearbyRequest) (body : list NearbyFacility)
    (log : list StorageCall) (f : NearbyFacility) :
  run (nearbyFacilities storage req) = (Returned (Respond 200 body), log) ->
  distanceValue f = None ->
  (forall text, distance f = Some text -> starts_with_digit text = false) ->
  ~ In f body.
Proof.
  intros Hrun Hdv Htext Hin.
  destruct (nearbyFacilities_body storage req body log Hrun) as (fs & _ & ->).
  apply In_result in Hin. destruct Hin as (_ & Hw & _).
  rewrite unknownDistance_outside in Hw; [discriminate |].
  unfold unknownDistance. rewrite Hdv.
  destruct (distance f) as [text |] eqn:E; [| reflexivity].
  rewrite (Htext text eq_refl). reflexivity.
Qed.

Lemma nearby_unknown_distance_excluded_witness :
  run (nearbyFacilities (memoryStorage [] [kiosk; school]) (nearby "5000"))
  = (Returned (Respond 200 [school]), [GetNearbyFacilities (of_Z 7)])
  /\ ~ In kiosk [school].
Proof.
  assert (Hrun :
    run (nearbyFacilities (memoryStorage [] [kiosk; school]) (nearby "5000"))
    = (Returned (Respond 200 [school]), [GetNearbyFacilities (of_Z 7)]))
    by (vm_compute; reflexivity).
  split; [exact Hrun |].
  apply (nearby_unknown_distance_excluded _ _ _ _ kiosk Hrun); [reflexivity |].
  intros text [= <-]. reflexivity.
Defined.

(** The type filter by itself. *)
Lemma result_filters (query : gmap string string)
    (facilities : list NearbyFacility) :
  result query facilities
  = List.filter (passesTypeFilter query) (filteredByRadius query facilities).
Proof.
  unfold result, passesTypeFilter.
  destruct (query !! "facilityType") as [[| c t] |]; try reflexivity;
    induction (filteredByRadius query facilities) as [| f l IH];
    try reflexivity; cbn; f_equal; exact IH.
Qed.

(** C10 on the code.  When the radius parameter parses to [0] or does
    not parse, the query runs with the default radius of 1 km: the
    answer is that of the same request without a radius parameter, and
    it holds, in the storage's order, the rows of the requested type
    whose stored distance is at most 1000 m.  A row that has a distance
    text only is compared through the leading number of its text
    against 1, whatever the unit: with [radius=0] and the one row
    ["800 m"] the answer is empty, although the creation path reads the
    same text as 800 meters. *)
Theorem nearby_radius_zero_or_invalid_defaults :
  (forall (storage : Storage) (req : NearbyRequest) (r : string)
          (facilities : list NearbyFacility),
     nr_query req !! "radius" = Some r ->
     parseFloat r = NaN \/ parseFloat r = Fin 0 ->
     isNaN (parseInt (nr_id req)) = false ->
     getNearbyFacilities storage (parseInt (nr_id req)) = Some facilities ->
     run (nearbyFacilities storage req)
     = (Returned
          (Respond 200
             (List.filter (passesTypeFilter (nr_query req))
                (List.filter
                   (fun f =>
                      match distanceValue f, distance f with
                      | Some meters, _ => leb meters (of_Z 1000)
                      | None, Some text =>
                          match match_leading_number text with
                          | Some number => leb (parseFloat number) (of_Z 1)
                          | None => false
                          end
                      | None, None => false
                      end)
                   facilities))),
        [GetNearbyFacilities (parseInt (nr_id req))])
     /\ run (nearbyFacilities storage req)
        = run (nearbyFacilities storage
                 {| nr_id := nr_id req;
                    nr_query := delete "radius" (nr_query req) |}))
  /\ (forall radius, In radius ["0"; "0.0"; "abc"; ""] ->
        run (nearbyFacilities
               (memoryStorage [] [stadium; school; kiosk; lobby_atm])
               (nearby radius))
        = (Returned (Respond 200 [school; lobby_atm]),
           [GetNearbyFacilities (of_Z 7)])
        /\ run (nearbyFacilities (memoryStorage [] [pharmacy]) (nearby radius))
           = (Returned (Respond 200 []), [GetNearbyFacilities (of_Z 7)]))
  /\ distance pharmacy = Some "800 m"
  /\ metersOfText "800" "800 m" = of_Z 800
  /\ leb (of_Z 800) (of_Z 1000) = true.
Proof.
  split; [| split].
  - intros storage req r facilities Hr Hp Hid Hrows.
    pose proof (searchRadius_default _ _ Hr Hp) as Hs.
    assert (Hrun : forall query,
      searchRadius query = of_Z 1 ->
      query !! "facilityType" = nr_query req !! "facilityType" ->
      run (nearbyFacilities storage {| nr_id := nr_id req; nr_query := query |})
      = (Returned
           (Respond 200
              (List.filter (passesTypeFilter (nr_query req))
                 (List.filter
                    (fun f =>
                       match distanceValue f, distance f with
                       | Some meters, _ => leb meters (of_Z 1000)
                       | None, Some text =>
                           match match_leading_number text with
                           | Some number => leb (parseFloat number) (of_Z 1)
                           | None => false
                           end
                       | None, None => false
                       end)
                    facilities))),
         [GetNearbyFacilities (parseInt (nr_id req))])).
    { intros query Hq Ht.
      rewrite nearbyFacilities_run. cbn [nr_id nr_query]. cbv zeta.
      rewrite Hid, Hrows, result_filters.
      assert (passesTypeFilter query = passesTypeFilter (nr_query req)) as ->
        by (unfold passesTypeFilter; rewrite Ht; reflexivity).
      unfold filteredByRadius.
      erewrite (filter_ext (withinRadius query)); [reflexivity |].
      intros f. unfold withinRadius, searchRadiusMeters. rewrite Hq.
      destruct (distanceValue f), (distance f); reflexivity. }
    split.
    + destruct req as [id query]. apply (Hrun query); [exact Hs | reflexivity].
    + destruct req as [id query]. cbn [nr_id nr_query] in *.
      rewrite (Hrun query Hs eq_refl).
      rewrite (Hrun (delete "radius" query)); [reflexivity | |].
      * apply searchRadius_absent. apply lookup_delete_eq.
      * apply lookup_delete_ne. discriminate.
  - intros radius [<- | [<- | [<- | [<- | []]]]]; split; vm_compute; reflexivity.
  - repeat split; vm_compute; reflexivity.
Qed.

Lemma nearby_radius_zero_or_invalid_defaults_witness :
  run (nearbyFacilities (memoryStorage [] [stadium; kiosk; school]) (nearby "0"))
  = (Returned (Respond 200 [school]), [GetNearbyFacilities (of_Z 7)]).
Proof.
  destruct nearby_radius_zero_or_invalid_defaults as [Hall _].
  destruct (Hall (memoryStorage [] [stadium; kiosk; school]) (nearby "0") "0"
              [stadium; kiosk; school]) as [Hrun _].
  - reflexivity.
  - right. reflexivity.
  - reflexivity.
  - reflexivity.
  - rewrite Hrun. vm_compute. reflexivity.
Defined.

(** C5, as the code has it: the boundary is inclusive at the threshold
    the handler computes, [searchRadiusMeters = searchRadius * 1000] in
    double arithmetic, where [searchRadius] is the parsed radius, or 1
    when the parameter is absent, unparseable or 0.  A row whose
    canonical distance equals the threshold is returned (when it passes
    the type filter); a row one meter beyond is not.  For a search
    radius of [r] whole kilometers the threshold is [r * 1000]
    exactly. *)
Theorem nearby_radius_boundary (storage : Storage) (req : NearbyRequest)
    (facilities : list NearbyFacility) (f : NearbyFacility) :
  isNaN (parseInt (nr_id req)) = false ->
  getNearbyFacilities storage (parseInt (nr_id req)) = Some facilities ->
  In f facilities ->
  passesTypeFilter (nr_query req) f = true ->
  exists body log,
    run (nearbyFacilities storage req) = (Returned (Respond 200 body), log)
    /\ (distanceValue f = Some (searchRadiusMeters (nr_query req)) -> In f body)
    /\ (forall t d,
          searchRadiusMeters (nr_query req) = Fin t ->
          distanceValue f = Some (Fin d) -> (d == t + 1)%Q ->
          ~ In f body)
    /\ (forall r,
          searchRadius (nr_query req) = of_Z r -> Z.abs r < 2 ^ 43 ->
          (distanceValue f = Some (of_Z (r * 1000)) -> In f body)
          /\ (distanceValue f = Some (of_Z (r * 1000 + 1)) -> ~ In f body)).
Proof.
  intros Hid Hrows Hin Ht.
  exists (result (nr_query req) facilities), [GetNearbyFacilities (parseInt (nr_id req))].
  assert (Hinside : distanceValue f = Some (searchRadiusMeters (nr_query req)) ->
                    In f (result (nr_query req) facilities)).
  { intros Hdv. apply In_result. repeat split; [exact Hin | | exact Ht].
    unfold withinRadius. rewrite Hdv.
    apply leb_refl, searchRadiusMeters_not_NaN. }
  assert (Houtside : forall t d,
            searchRadiusMeters (nr_query req) = Fin t ->
            distanceValue f = Some (Fin d) -> (d == t + 1)%Q ->
            ~ In f (result (nr_query req) facilities)).
  { intros t d Hm Hdv Hd Hbody.
    apply In_result in Hbody. destruct Hbody as (_ & Hw & _).
    unfold withinRadius in Hw. rewrite Hdv, Hm in Hw. simpl in Hw.
    apply Qle_bool_iff in Hw. rewrite Hd in Hw. lra. }
  split; [| split; [exact Hinside | split; [exact Houtside |]]].
  - rewrite nearbyFacilities_run. cbn zeta. rewrite Hid, Hrows. reflexivity.
  - intros r Hr Hb.
    assert (Hm : searchRadiusMeters (nr_query req) = of_Z (r * 1000)).
    { unfold searchRadiusMeters. rewrite Hr. apply mul_1000_integer, Hb. }
    split.
    + intros Hdv. apply Hinside. rewrite Hm. exact Hdv.
    + intros Hdv. apply (Houtside _ _ Hm Hdv).
      rewrite inject_Z_plus. reflexivity.
Qed.

Lemma nearby_radius_boundary_witness :
  searchRadiusMeters {["radius" := "0.5"]} = of_Z 500
  /\ exists body log,
       run (nearbyFacilities (memoryStorage [] [kiosk; school]) (nearby "0.5"))
       = (Returned (Respond 200 body), log)
       /\ In school body.
Proof.
  split; [reflexivity |].
  destruct (nearby_radius_boundary (memoryStorage [] [kiosk; school])
              (nearby "0.5") [kiosk; school] school)
    as (body & log & Hrun & Hin & _).
  - reflexivity.
  - reflexivity.
  - right. left. reflexivity.
  - reflexivity.
  - exists body, log. split; [exact Hrun |]. apply Hin. reflexivity.
Defined.

(** C5 as stated fails at radius 0: the radius is replaced by 1 km, so
    a row at [0 * 1000 + 1 = 1] meter is returned. *)
Lemma nearby_radius_boundary_counterexample :
  parseFloat "0" = of_Z 0
  /\ distanceValue lobby_atm
     = Some (add (mul (parseFloat "0") (of_Z 1000)) (of_Z 1))
  /\ run (nearbyFacilities (memoryStorage [] [lobby_atm]) (nearby "0"))
     = (Returned (Respond 200 [lobby_atm]), [GetNearbyFacilities (of_Z 7)]).
Proof. repeat split; vm_compute; reflexivity. Qed.

(** C1 on the code: a row with no canonical value and the text
    ["800 m"] is compared as 800 against the radius in kilometers, so
    it is left out at radius 1 (and at 0.8), and returned only from
    radius 800 on; the creation path reads the same text as 800
    meters. *)
Theorem nearby_text_fallback_ignores_unit :
  run (nearbyFacilities (memoryStorage [] [pharmacy]) (nearby "1"))
  = (Returned (Respond 200 []), [GetNearbyFacilities (of_Z 7)])
  /\ run (nearbyFacilities (memoryStorage [] [pharmacy]) (nearby "0.8"))
     = (Returned (Respond 200 []), [GetNearbyFacilities (of_Z 7)])
  /\ run (nearbyFacilities (memoryStorage [] [pharmacy]) (nearby "800"))
     = (Returned (Respond 200 [pharmacy]), [GetNearbyFacilities (of_Z 7)])
  /\ (forall query,
        withinRadius query pharmacy = leb (of_Z 800) (searchRadius query))
  /\ metersOfText "800" "800 m" = of_Z 800.
Proof. repeat split; vm_compute; reflexivity. Qed.

(** The two handlers together: a facility created with the text
    ["1.2 km"] is stored with 1200 meters; it is absent at radius 1 and
    present at radius 1.5. *)
Example created_then_queried (math : MathLib) :
  exists facility log,
    run (createFacility (memoryStorage [plot] [])
           {| fr_authenticated := true; fr_propertyId := "8";
              fr_body := body (VString "1.2 km") VUndefined VUndefined VUndefined |})
    = (Returned (Respond 201 facility), log)
    /\ distanceValue facility = Some (of_Z 1200)
    /\ fst (run (nearbyFacilities (memoryStorage [plot] [facility])
                   {| nr_id := "8"; nr_query := {["radius" := "1"]} |}))
       = Returned (Respond 200 [])
    /\ fst (run (nearbyFacilities (memoryStorage [plot] [facility])
                   {| nr_id := "8"; nr_query := {["radius" := "1.5"]} |}))
       = Returned (Respond 200 [facility]).
Proof.
  eexists. eexists. split; [vm_compute; reflexivity |].
  repeat split; vm_compute; reflexivity.
Qed.

(* ================================================================== *)
(** ** The property listing: filters and page count *)
(* ================================================================== *)

Section Rounding.

Lemma div_half_even_nonneg (n d : Z) :
  0 <= n -> 0 < d -> 0 <= div_half_even n d.
Proof.
  intros Hn Hd. unfold div_half_even.
  pose proof (Z.div_pos n d Hn Hd) as Hk.
  destruct (2 * (n mod d) ?= d); [destruct (Z.even (n / d)) | |]; lia.
Qed.

Lemma round_pos_nonneg (n d : Z) (v : Q) :
  0 < n -> 0 < d -> round_pos n d = Some v -> (0 <= v)%Q.
Proof.
  intros Hn Hd. unfold round_pos.
  set (ex := Z.max (ilog2 n d - 52) (-1074)).
  destruct (0 <=? ex) eqn:Hex.
  - apply Z.leb_le in Hex.
    destruct (2 ^ 1024 <=? _); [discriminate |].
    intros [= <-].
    assert (0 <= div_half_even n (d * 2 ^ ex)).
    { apply div_half_even_nonneg; [lia |].
      apply Z.mul_pos_pos; [lia |]. apply Z.pow_pos_nonneg; lia. }
    assert (0 <= 2 ^ ex) by (apply Z.pow_nonneg; lia).
    unfold Qle. simpl. nia.
  - apply Z.leb_gt in Hex. intros [= <-].
    rewrite Qred_correct.
    assert (0 <= div_half_even (n * 2 ^ (- ex)) d).
    { apply div_half_even_nonneg; [| lia].
      apply Z.mul_nonneg_nonneg; [lia |]. apply Z.pow_nonneg; lia. }
    unfold Qle. simpl. lia.
Qed.

(** Rounding keeps the sign: a non-negative rational rounds to a
    non-negative double or to [+Infinity]. *)
Lemma round64_nonneg (q : Q) :
  (0 <= q)%Q ->
  (exists r, round64 q = Fin r /\ (0 <= r)%Q) \/ round64 q = Infinity false.
Proof.
  intros Hq. unfold round64.
  destruct q as [n d]. simpl.
  destruct n as [| n | n].
  - left. exists 0%Q. split; [reflexivity | apply Qle_refl].
  - destruct (round_pos (Z.pos n) (Z.pos d)) as [v |] eqn:E; [| right; reflexivity].
    left. exists v. split; [reflexivity |].
    apply (round_pos_nonneg _ _ _ (Pos2Z.is_pos n) (Pos2Z.is_pos d) E).
  - exfalso. unfold Qle in Hq. simpl in Hq. lia.
Qed.









End Rounding.

Section Listing.

Variable storage : Storage.

Lemma getProperties_run (query : gmap string string) :
  run (getProperties storage query) =
  let f := filters query in
  match getPropertiesWithPagination storage f with
  | Some (properties, total) =>
      (Returned (Respond 200
         {| listing_properties := properties;
            listing_pagination :=
              {| pagination_page := page f;
                 pagination_limit := limit f;
                 pagination_total := of_Z (Z.of_N total);
                 pagination_totalPages := totalPages total (limit f) |} |}),
       [GetPropertiesWithPagination f])
  | None =>
      (Returned (Fail 500 "Failed to fetch properties"),
       [GetPropertiesWithPagination f])
  end.
Proof.
  unfold getProperties, run, try_catch. cbn zeta.
  unfold mbind, M_bind, bind, await.
  destruct (getPropertiesWithPagination storage (filters query)) as [[ps t] |];
    reflexivity.
Qed.


Lemma page_truthy (query : gmap string string) :
  truthy (page (filters query)) = true.
Proof. apply or_else_truthy. reflexivity. Qed.


(** With a positive limit the page count is a natural number, or
    [+Infinity]. *)
Lemma totalPages_nonneg (total : N) (l : number) :
  ltb (of_Z 0) l = true ->
  (exists c, totalPages total l = of_Z c /\ 0 <= c)
  \/ totalPages total l = Infinity false.
Proof.
  unfold totalPages. destruct l as [| [|] | b]; simpl; try discriminate.
  - intros _. left. exists 0. split; [reflexivity | lia].
  - intros Hb. apply negb_true_iff in Hb.
    assert (Hpos : (0 < b)%Q).
    { apply Qnot_le_lt. intros Hle. apply Qle_bool_iff in Hle.
      change (Qle_bool b 0 = false) in Hb. congruence. }
    assert (Hb0 : Qeq_bool b 0 = false).
    { apply not_true_iff_false. intros Hq. apply Qeq_bool_iff in Hq.
      rewrite Hq in Hpos. apply (Qlt_irrefl 0), Hpos. }
    rewrite Hb0.
    assert (Hq : (0 <= inject_Z (Z.of_N total) / b)%Q).
    { apply Qle_shift_div_l; [exact Hpos |]. rewrite Qmult_0_l.
      rewrite <- (Zle_Qle 0). lia. }
    destruct (round64_nonneg _ Hq) as [(r & -> & Hr) | ->];
      [| right; reflexivity].
    left. exists (Qceiling r). split; [reflexivity |].
    pose proof (Qle_ceiling r) as Hc.
    rewrite (Zle_Qle 0). eapply Qle_trans; eassumption.
Qed.


End Listing.


(** C8: the [page] of the filter is 1 when the [page] parameter is
    absent or does not parse as a number, and the [limit] is 9 when the
    [limit] parameter is absent or does not parse; [page=abc] gives
    page 1. *)
Theorem filters_page_limit_defaults (query : gmap string string) :
  (query !! "page" = None -> page (filters query) = of_Z 1)
  /\ (forall s, query !! "page" = Some s -> parseInt s = NaN ->
        page (filters query) = of_Z 1)
  /\ (query !! "limit" = None -> limit (filters query) = of_Z 9)
  /\ (forall s, query !! "limit" = Some s -> parseInt s = NaN ->
        limit (filters query) = of_Z 9)
  /\ page (filters (<["page" := "abc"]> query)) = of_Z 1.
Proof.
  unfold filters, parseInt_query. cbn [page limit].
  repeat split.
  - intros ->. reflexivity.
  - intros s -> Hs. cbn [to_string_arg]. rewrite Hs. reflexivity.
  - intros ->. reflexivity.
  - intros s -> Hs. cbn [to_string_arg]. rewrite Hs. reflexivity.
  - rewrite lookup_insert_eq. reflexivity.
Qed.



Section ListingExamples.

(** Ten rows at the default limit of 9: two pages. *)
Example listing_two_pages :
  totalPages 10 (limit (filters ∅)) = of_Z 2.
Proof. vm_compute. reflexivity. Qed.

(** A negative limit is taken as it is: the page count is negative,
    and the client shows it unchanged. *)
Example listing_negative_limit :
  totalPages 10 (limit (filters {["limit" := "-5"]})) = of_Z (-2)
  /\ pages (Some (to_client
       {| pagination_page := of_Z 1; pagination_limit := of_Z (-5);
          pagination_total := of_Z 10; pagination_totalPages := of_Z (-2) |}))
     = VNumber (of_Z (-2)).
Proof. split; vm_compute; reflexivity. Qed.

End ListingExamples.



(* ================================================================== *)
(** ** The enum-typed filter fields *)
(* ================================================================== *)

Section EnumFields.

Lemma get_with_field (e : EnumField) (o : option string) (f : Filters) :
  get_field e (with_field e o f) = o.
Proof. destruct e; reflexivity. Qed.

End EnumFields.

(** C2, as the code has it: the value of an enum-typed parameter is
    copied into the filter unchecked, whether it is a known value or
    not.  The filter is the one of the query without the parameter with
    that field set to the value, and it is this filter that the storage
    is asked for. *)
Theorem filters_enum_passed_through (storage : Storage) (e : EnumField)
    (v : string) (query : gmap string string) :
  filters (<[field_name e := v]> query)
  = with_field e (Some v) (filters (delete (field_name e) query))
  /\ get_field e (filters (<[field_name e := v]> query)) = Some v
  /\ snd (run (getProperties storage (<[field_name e := v]> query)))
     = [GetPropertiesWithPagination
          (with_field e (Some v) (filters (delete (field_name e) query)))].
Proof.
  assert (Hf : filters (<[field_name e := v]> query)
               = with_field e (Some v) (filters (delete (field_name e) query))).
  { destruct e; unfold filters, with_field, numeric_query; unfold parseInt_query;
      cbn [field_name page limit status category propertyType subType minPrice
           maxPrice minArea maxArea bedrooms bathrooms furnishedStatus parking
           facing search];
      rewrite lookup_insert_eq;
      rewrite !lookup_insert_ne, !lookup_delete_ne by discriminate;
      reflexivity. }
  split; [exact Hf | split].
  - rewrite Hf. apply get_with_field.
  - rewrite getProperties_run. cbn zeta. rewrite Hf.
    destruct (getPropertiesWithPagination storage _) as [[ps t] |]; reflexivity.
Qed.

(** C2 as stated fails: [status=invalid-enum-value] stays in the filter,
    which differs from the filter of the query without [status]. *)
Lemma filters_unknown_enum_counterexample :
  ~ In "invalid-enum-value" (known_values Status)
  /\ status (filters {["status" := "invalid-enum-value"]})
     = Some "invalid-enum-value"
  /\ filters {["status" := "invalid-enum-value"]}
     <> filters (delete "status" {["status" := "invalid-enum-value"]}).
Proof.
  split; [| split].
  - simpl. intros [H | [H | []]]; discriminate.
  - reflexivity.
  - intros H. apply (f_equal status) in H. vm_compute in H. discriminate.
Qed.

(* ================================================================== *)
(** ** Creating a facility: the distance normalizer *)
(* ================================================================== *)

Section Normalizer.

Context {math : MathLib}.

(** With a truthy [distanceValue] the coordinates are not used. *)
Lemma distanceFromCoordinates_kept (p : Property) (fd : FacilityData) :
  ToBoolean (fd_distanceValue fd) = true ->
  distanceFromCoordinates p fd = fd.
Proof.
  intros Hdv. unfold distanceFromCoordinates.
  destruct (property_latitude p); [| reflexivity].
  destruct (property_longitude p); [| reflexivity].
  rewrite Hdv. cbn [negb]. rewrite !andb_false_r. reflexivity.
Qed.

(** A supplied [distanceValue] other than [0] is handed on as it
    is, with the rest of the body. *)
Lemma supplied_distanceValue_kept (p : Property) (b : FacilityBody)
    (propertyId n : number) :
  body_distanceValue b = VNumber n -> truthy n = true ->
  run (normalizeFacility p b propertyId)
  = (Returned (facilityData b propertyId), []).
Proof.
  intros Hb Hn.
  unfold normalizeFacility, run, mbind, M_bind, bind, distanceValueFromText.
  cbn [facilityData fd_distanceValue fd_distance]. rewrite Hb.
  cbn [ToBoolean]. rewrite Hn. cbn [negb andb].
  unfold mret, M_ret, ret.
  rewrite distanceFromCoordinates_kept; [reflexivity |].
  cbn [facilityData fd_distanceValue]. rewrite Hb. exact Hn.
Qed.

(** A distance text with a leading number gives the meters of
    lines 813-823; when they are not [0], the coordinates are not
    used. *)
Lemma text_distance_run (p : Property) (b : FacilityBody)
    (propertyId : number) (text distanceMatch : string) :
  ToBoolean (body_distanceValue b) = false ->
  body_distance b = VString text ->
  match_leading_number text = Some distanceMatch ->
  truthy (metersOfText distanceMatch text) = true ->
  run (normalizeFacility p b propertyId)
  = (Returned (set_distanceValue (facilityData b propertyId)
                 (VNumber (metersOfText distanceMatch text))), []).
Proof.
  intros Hdv Hd Hm Ht.
  unfold normalizeFacility, run, mbind, M_bind, bind, distanceValueFromText.
  cbn [facilityData fd_distanceValue fd_distance]. rewrite Hdv, Hd.
  assert (ToBoolean (VString text) = true) as ->.
  { destruct text; [discriminate Hm | reflexivity]. }
  cbn [negb andb]. rewrite Hm.
  unfold mret, M_ret, ret.
  rewrite distanceFromCoordinates_kept; [reflexivity | exact Ht].
Qed.

(** The three distance texts of the specification, on any property. *)
Lemma text_distance_examples (p : Property) (propertyId : number) (text : string) (meters : Z) :
  In (text, meters) [("2.5 km", 2500); ("800 m", 800); ("3", 3000)] ->
  exists fd,
    run (normalizeFacility p (body (VString text) VUndefined VUndefined VUndefined)
           propertyId) = (Returned fd, [])
    /\ fd_distanceValue fd = VNumber (of_Z meters).
Proof.
  intros [[= <- <-] | [[= <- <-] | [[= <- <-] | []]]]; eexists;
    (split; [eapply text_distance_run; reflexivity | reflexivity]).
Qed.




End Normalizer.

(** C3 on the code: a supplied [distanceValue] of [0] is not used as it
    is.  With the text ["5 km"] it is replaced by 5000, which is what
    the handler stores; without a text and with coordinates on both
    sides it is replaced by the computed distance.  Any other supplied
    number is kept. *)
Theorem supplied_zero_distanceValue_replaced (math : MathLib) :
  normalized math plot
    (body (VString "5 km") (VNumber (of_Z 0)) VUndefined VUndefined)
  = Returned (VString "5 km", VNumber (of_Z 5000))
  /\ (exists facility log,
        run (createFacility (memoryStorage [plot] [])
               {| fr_authenticated := true; fr_propertyId := "8";
                  fr_body := body (VString "5 km") (VNumber (of_Z 0))
                                  VUndefined VUndefined |})
        = (Returned (Respond 201 facility), log)
        /\ distanceValue facility = Some (of_Z 5000))
  /\ normalized math office
       (body VUndefined (VNumber (of_Z 0)) (VString "28.6376") (VString "77.2167"))
     = Returned
         (VString (distanceText
            (distanceInMeters (parseFloat "28.6315") (parseFloat "77.2167")
                              (parseFloat "28.6376") (parseFloat "77.2167"))),
          VNumber (distanceInMeters (parseFloat "28.6315") (parseFloat "77.2167")
                                    (parseFloat "28.6376") (parseFloat "77.2167")))
  /\ normalized math plot
       (body (VString "5 km") (VNumber (of_Z 120)) VUndefined VUndefined)
     = Returned (VString "5 km", VNumber (of_Z 120)).
Proof.
  split; [reflexivity |]. split.
  - eexists. eexists. split; [vm_compute; reflexivity | reflexivity].
  - split; reflexivity.
Qed.

Section Coordinates.

Context {math : MathLib}.


End Coordinates.



(* ================================================================== *)
(** ** Further properties of the listing and the facility routes *)
(* ================================================================== *)

Section IdParsing.

Lemma digit_not_space (c : ascii) : is_digit c = true -> is_space c = false.
Proof.
  unfold is_digit, is_space. cbv zeta.
  generalize (code c). intros n Hd.
  apply andb_prop in Hd as [H1 H2].
  apply N.leb_le in H1. apply N.leb_le in H2.
  repeat (apply orb_false_intro); [apply andb_false_intro2 | |].
  - apply N.leb_gt. lia.
  - apply N.eqb_neq. lia.
  - apply N.eqb_neq. lia.
Qed.

Lemma span_digits_app (d t : string) :
  digits d = true ->
  match t with String c _ => is_digit c = false | EmptyString => True end ->
  span_digits (d +:+ t) = (d, t).
Proof.
  intros Hd Ht. induction d as [| c d IH].
  - destruct t as [| c r]; [reflexivity |].
    simpl. rewrite Ht. reflexivity.
  - simpl in Hd. apply andb_prop in Hd as [Hc Hd].
    simpl. rewrite Hc, (IH Hd). reflexivity.
Qed.

(** A digit is no sign, and a digit other than [0] starts no [0x]. *)
Lemma digit_head (c : ascii) (r : string) :
  is_digit c = true ->
  strip_sign (trim_start (String c r)) = (false, String c r).
Proof.
  intros Hc. cbn [trim_start]. rewrite (digit_not_space c Hc).
  destruct c as [[] [] [] [] [] [] [] []]; try discriminate Hc; reflexivity.
Qed.

Lemma parseInt_digits (d t : string) :
  digits d = true -> d <> "" -> ends_number t = true ->
  parseInt (d +:+ t) = round64 (inject_Z (decimal_value 0 d)).
Proof.
  intros Hd Hne Ht.
  assert (match t with String c _ => is_digit c = false | EmptyString => True end)
    as Ht'.
  { destruct t as [| c r]; [exact I |]. cbn in Ht.
    destruct (is_digit c); [discriminate | reflexivity]. }
  pose proof (span_digits_app d t Hd Ht') as Hspan.
  destruct d as [| c d]; [contradiction |].
  pose proof Hd as Hd'. cbn in Hd'. apply andb_prop in Hd' as [Hc Hd'].
  unfold parseInt.
  change (String c d +:+ t) with (String c (d +:+ t)) in *.
  rewrite (digit_head c _ Hc).
  cbv beta iota.
  destruct c as [[] [] [] [] [] [] [] []]; try discriminate Hc;
    try (cbv beta iota; rewrite Hspan; reflexivity).
  destruct d as [| c' d].
  - destruct t as [| c' r]; [reflexivity |].
    change ("" +:+ String c' r) with (String c' r) in *.
    simpl in Ht.
    destruct c' as [[] [] [] [] [] [] [] []]; try discriminate Ht;
      cbv beta iota; rewrite Hspan; reflexivity.
  - simpl in Hd'. apply andb_prop in Hd' as [Hc' _].
    change (String c' d +:+ t) with (String c' (d +:+ t)) in *.
    destruct c' as [[] [] [] [] [] [] [] []]; try discriminate Hc';
      cbv beta iota; rewrite Hspan; reflexivity.
Qed.

End IdParsing.

(** X1: the listing reads sixteen query parameters. Any other parameter,
    such as the [include=media] that the listing page sends, leaves the
    filter handed to the storage as it is. *)
Theorem filters_ignore_other_parameters (query : gmap string string)
    (name v : string) :
  name ∉ ["page"; "limit"; "status"; "category"; "propertyType"; "subType";
          "minPrice"; "maxPrice"; "minArea"; "maxArea"; "bedrooms";
          "bathrooms"; "furnishedStatus"; "parking"; "facing"; "search"] ->
  filters (<[name := v]> query) = filters query.
Proof.
  intros Hname.
  unfold filters, numeric_query, parseInt_query.
  rewrite !lookup_insert_ne; [reflexivity | ..];
    intros ->; apply Hname; repeat first [apply list_elem_of_here | apply list_elem_of_further].
Qed.

Lemma filters_ignore_other_parameters_witness :
  filters (<["include" := "media"]> {["page" := "2"]}) = filters {["page" := "2"]}.
Proof.
  apply filters_ignore_other_parameters.
  intros H. repeat (apply elem_of_cons in H as [H | H]; [discriminate H |]).
  apply elem_of_nil in H. exact H.
Defined.

Section Sublist.

Lemma filter_sublist_of {A : Type} (p : A -> bool) (l : list A) :
  sublist (List.filter p l) l.
Proof.
  induction l as [| a l IH]; [constructor |].
  cbn. destruct (p a); [apply sublist_skip | apply sublist_cons]; exact IH.
Qed.

End Sublist.

(** X2: the rows of a nearby-facilities answer are a selection of the
    rows that the storage returned for the property, in the storage's
    order; when a non-empty facility type is asked for, every row of the
    answer has that type. *)
Theorem nearby_result_sublist (storage : Storage) (req : NearbyRequest)
    (body : list NearbyFacility) :
  fst (run (nearbyFacilities storage req)) = Returned (Respond 200 body) ->
  exists facilities,
    getNearbyFacilities storage (parseInt (nr_id req)) = Some facilities /\
    sublist body facilities /\
    forall type, nr_query req !! "facilityType" = Some type -> type <> "" ->
      Forall (fun f => facilityType f = type) body.
Proof.
  rewrite nearbyFacilities_run. cbn zeta.
  destruct (isNaN (parseInt (nr_id req))); [discriminate |].
  destruct (getNearbyFacilities storage _) as [facilities |]; [| discriminate].
  intros [= <-]. exists facilities. split; [reflexivity |]. split.
  - unfold result, filteredByRadius.
    destruct (nr_query req !! "facilityType") as [[| c t] |];
      try apply filter_sublist_of.
    etransitivity; apply filter_sublist_of.
  - intros type Ht Hne. unfold result. rewrite Ht.
    destruct type as [| c t]; [contradiction |].
    apply Forall_forall. intros f Hf.
    apply list_elem_of_In, filter_In in Hf as [_ Hf].
    apply String.eqb_eq in Hf. exact Hf.
Qed.

Lemma nearby_result_sublist_witness :
  exists facilities,
    getNearbyFacilities (memoryStorage [] [kiosk; school; lobby_atm])
      (parseInt "7") = Some facilities /\
    sublist [school; lobby_atm] facilities.
Proof.
  destruct (nearby_result_sublist (memoryStorage [] [kiosk; school; lobby_atm])
              (nearby "5") [school; lobby_atm]) as (facilities & Hget & Hsub & _).
  - vm_compute. reflexivity.
  - exists facilities. split; [exact Hget | exact Hsub].
Defined.

(** X3: when the body of a new facility has no truthy [distanceValue]
    and a [distance] that is truthy but not a string (a number, [true]),
    calling [match] on it throws: the route hands a [TypeError] to the
    error handler after the property lookup, and neither validates nor
    stores anything. *)
Theorem createFacility_distance_not_text (storage : Storage) (math : MathLib)
    (req : FacilityRequest) (p : Property) :
  fr_authenticated req = true ->
  isNaN (parseInt (fr_propertyId req)) = false ->
  getPropertyById storage (parseInt (fr_propertyId req)) = Some (Some p) ->
  ToBoolean (body_distanceValue (fr_body req)) = false ->
  ToBoolean (body_distance (fr_body req)) = true ->
  (forall text, body_distance (fr_body req) <> VString text) ->
  run (createFacility storage req)
  = (Returned (Next TypeError), [GetPropertyById (parseInt (fr_propertyId req))]).
Proof.
  intros Ha Hn Hp Hdv Hd Htext.
  unfold createFacility, run, try_catch. rewrite Ha. cbn [negb]. cbn zeta.
  rewrite Hn. unfold mbind, M_bind, bind, await at 1. rewrite Hp. cbn [app].
  unfold normalizeFacility, mbind, M_bind, bind, distanceValueFromText.
  cbn [facilityData fd_distanceValue fd_distance]. rewrite Hdv, Hd.
  cbn [negb andb].
  destruct (body_distance (fr_body req)) as [| | b | n | text] eqn:E;
    try reflexivity; try discriminate Hd.
  exfalso. exact (Htext text eq_refl).
Qed.

Lemma createFacility_distance_not_text_witness :
  run (createFacility (memoryStorage [plot] [])
         {| fr_authenticated := true; fr_propertyId := "8";
            fr_body := body (VNumber (of_Z 500)) VUndefined VUndefined VUndefined |})
  = (Returned (Next TypeError), [GetPropertyById (of_Z 8)]).
Proof.
  apply (createFacility_distance_not_text (memoryStorage [plot] []) seriesMath
           {| fr_authenticated := true; fr_propertyId := "8";
              fr_body := body (VNumber (of_Z 500)) VUndefined VUndefined VUndefined |}
           plot); try reflexivity.
  discriminate.
Defined.

Section TextDistance.

Lemma span_digits_digits (s : string) : digits (fst (span_digits s)) = true.
Proof.
  induction s as [| c s IH]; [reflexivity |].
  simpl. destruct (is_digit c) eqn:Hc; [| reflexivity].
  destruct (span_digits s) as [d t]. simpl in *. rewrite Hc, IH. reflexivity.
Qed.

Lemma digits_app (a b : string) :
  digits a = true -> digits b = true -> digits (a +:+ b) = true.
Proof.
  intros Ha Hb. induction a as [| c a IH]; [exact Hb |].
  simpl in Ha. apply andb_prop in Ha as [Hc Ha].
  change (digits (String c (a +:+ b)) = true). simpl. rewrite Hc, (IH Ha).
  reflexivity.
Qed.

Lemma digit_val_nonneg (c : ascii) : is_digit c = true -> 0 <= digit_val c.
Proof.
  unfold is_digit, digit_val. intros H. apply andb_prop in H as [H _].
  apply N.leb_le in H. lia.
Qed.

Lemma decimal_value_nonneg (d : string) (acc : Z) :
  digits d = true -> 0 <= acc -> 0 <= decimal_value acc d.
Proof.
  revert acc. induction d as [| c d IH]; intros acc Hd Hacc; [exact Hacc |].
  simpl in Hd. apply andb_prop in Hd as [Hc Hd].
  simpl. apply IH; [exact Hd |].
  pose proof (digit_val_nonneg c Hc). lia.
Qed.

Lemma nonnegative_round64 (q : Q) : (0 <= q)%Q -> nonnegative (round64 q).
Proof.
  intros Hq. destruct (round64_nonneg q Hq) as [[r [-> Hr]] | ->];
    [exact Hr | reflexivity].
Qed.

Lemma nonnegative_scale10 (m k : Z) : 0 <= m -> nonnegative (scale10 m k).
Proof.
  intros Hm. unfold scale10.
  destruct (0 <=? k)%Z eqn:Hk; apply nonnegative_round64.
  - apply Z.leb_le in Hk.
    change 0%Q with (inject_Z 0). rewrite <- Zle_Qle.
    apply Z.mul_nonneg_nonneg; [exact Hm |]. apply Z.pow_nonneg. lia.
  - unfold Qle. simpl. lia.
Qed.

(** A text that starts with a digit parses to a number that is not
    negative. *)
Lemma parseFloat_nonnegative (s : string) :
  starts_with_digit s = true -> nonnegative (parseFloat s).
Proof.
  destruct s as [| c r]; [discriminate |]. simpl. intros Hc.
  unfold parseFloat. rewrite (digit_head c r Hc).
  assert (String.prefix "Infinity" (String c r) = false) as ->.
  { destruct c as [[] [] [] [] [] [] [] []]; try discriminate Hc; reflexivity. }
  pose proof (span_digits_digits (String c r)) as Hip.
  assert (fst (span_digits (String c r)) <> "") as Hne.
  { simpl. rewrite Hc. destruct (span_digits r). discriminate. }
  destruct (span_digits (String c r)) as [ip r1]. simpl in Hip, Hne.
  assert (exists fp r2,
    match r1 with
    | String "." r => span_digits r
    | _ => ("", r1)
    end = (fp, r2) /\ digits fp = true) as (fp & r2 & -> & Hfp).
  { assert (forall r', exists fp r2, span_digits r' = (fp, r2) /\ digits fp = true)
      as Hspan.
    { intros r'. pose proof (span_digits_digits r') as H.
      destruct (span_digits r') as [fp r2]. eauto. }
    destruct r1 as [| c1 r1']; [eexists _, _; split; reflexivity |].
    destruct c1 as [[] [] [] [] [] [] [] []];
      try (eexists _, _; split; reflexivity).
    apply Hspan. }
  destruct ip as [| c0 ip]; [contradiction |].
  cbv iota. unfold signed.
  apply nonnegative_scale10, decimal_value_nonneg; [| lia].
  apply digits_app; assumption.
Qed.

Lemma match_leading_number_digit (text m : string) :
  match_leading_number text = Some m -> starts_with_digit m = true.
Proof.
  unfold match_leading_number.
  pose proof (span_digits_digits text) as Hip.
  destruct (span_digits text) as [ip r1]. simpl in Hip.
  destruct ip as [| c ip]; [discriminate |].
  simpl in Hip. apply andb_prop in Hip as [Hc _].
  assert (forall o : option string,
    (o = Some (String c ip) \/ exists fp, o = Some (String c ip +:+ "." +:+ fp)) ->
    o = Some m -> starts_with_digit m = true) as H.
  { intros o [-> | [fp ->]]; intros [= <-]; exact Hc. }
  apply H.
  destruct r1 as [| c1 r1']; [left; reflexivity |].
  destruct c1 as [[] [] [] [] [] [] [] []]; try (left; reflexivity).
  destruct (span_digits r1') as [fp u].
  destruct fp; [left; reflexivity | right; eexists; reflexivity].
Qed.

Lemma nonnegative_mul_1000 (x : number) :
  nonnegative x -> nonnegative (mul x (of_Z 1000)).
Proof.
  destruct x as [| s | q]; simpl; [contradiction | |].
  - intros ->. reflexivity.
  - intros Hq. apply nonnegative_round64.
    apply Qmult_le_0_compat; [exact Hq | discriminate].
Qed.

Lemma Math_round_nonnegative (x : number) :
  nonnegative x ->
  (exists z, 0 <= z /\ Math_round x = of_Z z) \/ Math_round x = Infinity false.
Proof.
  destruct x as [| s | q]; cbn [nonnegative Math_round]; [contradiction | |].
  - intros ->. right. reflexivity.
  - intros Hq. left. eexists. split; [| reflexivity].
    change 0 with (Qfloor 0). apply Qfloor_resp_le.
    apply Qle_trans with q; [exact Hq |].
    rewrite <- (Qplus_0_r q) at 1. apply Qplus_le_r. discriminate.
Qed.

End TextDistance.

(** X4: the meters computed from a distance text with a leading number
    are a natural number, or [+Infinity] when the number is too large
    for a double; they are never [NaN] and never negative. *)
Theorem text_distance_natural (text distanceMatch : string) :
  match_leading_number text = Some distanceMatch ->
  (exists meters, 0 <= meters /\ metersOfText distanceMatch text = of_Z meters) \/
  metersOfText distanceMatch text = Infinity false.
Proof.
  intros Hm.
  pose proof (parseFloat_nonnegative distanceMatch
                (match_leading_number_digit text distanceMatch Hm)) as Hp.
  unfold metersOfText. cbv zeta.
  destruct (includes (toLowerCase text) "km");
    [| destruct (includes (toLowerCase text) "m")];
    apply Math_round_nonnegative; try apply nonnegative_mul_1000; exact Hp.
Qed.

Lemma text_distance_natural_witness :
  (exists meters, 0 <= meters /\ metersOfText "2.5" "2.5 km" = of_Z meters) \/
  metersOfText "2.5" "2.5 km" = Infinity false.
Proof.
  apply (text_distance_natural "2.5 km" "2.5"). reflexivity.
Defined.

(* ================================================================== *)
(** ** The administration, inquiry and media routes *)
(* ================================================================== *)

Import Admin.

Ltac handler_unfold :=
  unfold run, try_catch, mbind, M_bind, bind, await, mret, M_ret, ret, throw.

(** Case analysis on the membership of an event in a given log. *)
Ltac log_cases H :=
  cbn [snd app] in H;
  repeat (apply elem_of_cons in H as [H | H]; [try discriminate H |]);
  try (apply elem_of_nil in H; contradiction).

Section Gates.

(** The gates in terms of the session. *)
Lemma ensureAuthenticated_Pass (s : Session) :
  ensureAuthenticated s = Pass <->
  isAuthenticated s = true /\ exists u, session_user s = Some u.
Proof.
  unfold ensureAuthenticated.
  destruct (isAuthenticated s), (session_user s) as [u |]; cbn; split;
    try discriminate; try (intros [? [? ?]]; discriminate); eauto.
Qed.

Lemma role_gate_Pass (s : Session) (roles : list string) (d : gate) :
  d <> Pass ->
  (if isAuthenticated s then
     match has_role s roles with
     | Some true => Pass
     | Some false => d
     | None => Raise TypeError
     end
   else d) = Pass <->
  isAuthenticated s = true /\
  exists u, session_user s = Some u /\ user_role u ∈ roles.
Proof.
  intros Hd. unfold has_role.
  destruct (isAuthenticated s), (session_user s) as [u |]; cbn.
  - case_bool_decide as Hr; split.
    + intros _. eauto.
    + reflexivity.
    + intros E. contradiction.
    + intros [_ [u' [[= <-] Hin]]]. contradiction.
  - split; [discriminate |]. intros [_ [? [? _]]]. discriminate.
  - split; [contradiction |]. intros [? _]. discriminate.
  - split; [contradiction |]. intros [? _]. discriminate.
Qed.

Lemma ensureSuperAdmin_Pass (s : Session) :
  ensureSuperAdmin s = Pass <->
  isAuthenticated s = true /\
  exists u, session_user s = Some u /\ user_role u = "superadmin".
Proof.
  unfold ensureSuperAdmin. rewrite role_gate_Pass by discriminate.
  setoid_rewrite list_elem_of_singleton. reflexivity.
Qed.

Lemma ensureStaff_Pass (s : Session) :
  ensureStaff s = Pass <->
  isAuthenticated s = true /\
  exists u, session_user s = Some u /\
            user_role u ∈ ["staff"; "admin"; "superadmin"].
Proof. unfold ensureStaff. apply role_gate_Pass. discriminate. Qed.

Lemma ensureAdmin_Pass (s : Session) :
  ensureAdmin s = Pass <->
  isAuthenticated s = true /\
  exists u, session_user s = Some u /\ user_role u = "admin".
Proof.
  unfold ensureAdmin, has_role.
  destruct (isAuthenticated s), (session_user s) as [u |]; cbn.
  - case_bool_decide as Hr; rewrite list_elem_of_singleton in Hr; split.
    + intros _. eauto.
    + reflexivity.
    + discriminate.
    + intros [_ [u' [[= <-] Hin]]]. contradiction.
  - split; [discriminate |]. intros [_ [? [? _]]]. discriminate.
  - split; [discriminate |]. intros [? _]. discriminate.
  - split; [discriminate |]. intros [? _]. discriminate.
Qed.

End Gates.

(** X5: the role middleware is nested in one direction only. A session
    that passes [ensureSuperAdmin] or [ensureAdmin] passes
    [ensureStaff], and one that passes [ensureStaff] passes
    [ensureAuthenticated]; but a superadmin is refused by [ensureAdmin],
    which accepts the role [admin] alone. *)
Theorem role_gates_nested (s : Session) :
  (ensureSuperAdmin s = Pass \/ ensureAdmin s = Pass -> ensureStaff s = Pass) /\
  (ensureStaff s = Pass -> ensureAuthenticated s = Pass) /\
  (ensureSuperAdmin s = Pass -> ensureAdmin s = Deny 403 "Admin access required").
Proof.
  split; [| split].
  - rewrite ensureSuperAdmin_Pass, ensureAdmin_Pass, ensureStaff_Pass.
    intros [[Ha [u [Hu Hr]]] | [Ha [u [Hu Hr]]]]; (split; [exact Ha |]);
      exists u; (split; [exact Hu |]); rewrite Hr; set_solver.
  - rewrite ensureStaff_Pass, ensureAuthenticated_Pass.
    intros [Ha [u [Hu _]]]. eauto.
  - rewrite ensureSuperAdmin_Pass. intros [Ha [u [Hu Hr]]].
    unfold ensureAdmin, has_role. rewrite Ha, Hu, Hr. reflexivity.
Qed.

Lemma role_gates_nested_witness :
  ensureStaff (signedIn root) = Pass /\
  ensureAuthenticated (signedIn root) = Pass /\
  ensureAdmin (signedIn root) = Deny 403 "Admin access required".
Proof.
  destruct (role_gates_nested (signedIn root)) as (Hstaff & Hauth & Hadmin).
  split; [apply Hstaff; left; reflexivity |].
  split; [apply Hauth, Hstaff; left; reflexivity |].
  apply Hadmin. reflexivity.
Defined.

Section Users.
Context (backend : Backend).

(** What POST /api/admin/users does once the gate is passed. *)
Lemma postUser_run (s : Session) (body : UserBody) :
  ensureSuperAdmin s = Pass ->
  run (postUser backend s body) =
  let failed := Returned (Message 500 "Failed to create user") in
  let byName := GetUserByUsername (body_username body) in
  let byEmail := GetUserByEmail (body_email body) in
  let hash := HashPassword (body_password body) in
  if negb (validRole (body_role body))
  then (Returned (Message 400 "Invalid role. Must be staff, admin, or superadmin"), [])
  else
    match getUserByUsername backend (body_username body) with
    | None => (failed, [byName])
    | Some (Some _) => (Returned (Message 400 "Username already exists"), [byName])
    | Some None =>
        match getUserByEmail backend (body_email body) with
        | None => (failed, [byName; byEmail])
        | Some (Some _) =>
            (Returned (Message 400 "Email already exists"), [byName; byEmail])
        | Some None =>
            match hashPassword backend (body_password body) with
            | None => (failed, [byName; byEmail; hash])
            | Some hashedPassword =>
                let data := {| new_username := body_username body;
                               new_email := body_email body;
                               new_password := hashedPassword;
                               new_role := body_role body |} in
                match createUser backend data with
                | None => (failed, [byName; byEmail; hash; CreateUser data])
                | Some newUser =>
                    (Returned (Json 201 (userWithoutPassword newUser)),
                     [byName; byEmail; hash; CreateUser data])
                end
            end
        end
    end.
Proof.
  intros Hg. unfold postUser. rewrite Hg. unfold guarded.
  handler_unfold. cbn zeta.
  destruct (validRole (body_role body)); cbn [negb]; [| reflexivity].
  destruct (getUserByUsername backend (body_username body)) as [[u |] |];
    try reflexivity.
  cbn [app].
  destruct (getUserByEmail backend (body_email body)) as [[u |] |];
    try reflexivity.
  cbn [app].
  destruct (hashPassword backend (body_password body)) as [h |];
    try reflexivity.
  cbn [app].
  destruct (createUser backend _); reflexivity.
Qed.

Lemma deleteUserRoute_run (s : Session) (userId : string) (user : User) :
  isAuthenticated s = true ->
  session_user s = Some user ->
  user_role user = "superadmin" ->
  run (deleteUserRoute backend s userId) =
  let id := parseInt10 userId in
  if number_eqb (user_id user) id
  then (Returned (Message 400 "Cannot delete your own account"), [])
  else
    match deleteUser backend id with
    | Some true => (Returned (Message 200 "User deleted successfully"), [DeleteUser id])
    | Some false => (Returned (Message 404 "User not found"), [DeleteUser id])
    | None => (Returned (Message 500 "Internal server error"), [DeleteUser id])
    end.
Proof.
  intros Ha Hu Hr. unfold deleteUserRoute, ensureSuperAdmin, has_role.
  rewrite Ha, Hu, Hr. cbn [guarded bool_decide]. cbn zeta.
  change (bool_decide ("superadmin" ∈ ["superadmin"])) with true. cbn iota.
  destruct (number_eqb (user_id user) (parseInt10 userId)); [reflexivity |].
  handler_unfold.
  destruct (deleteUser backend (parseInt10 userId)) as [[|] |]; reflexivity.
Qed.

Lemma putUser_run (s : Session) (userId : string) (body : UserBody) :
  ensureSuperAdmin s = Pass ->
  run (putUser backend s userId body) =
  let id := parseInt10 userId in
  if negb (ToBoolean (body_username body))
     && negb (ToBoolean (body_email body))
     && negb (ToBoolean (body_role body))
  then (Returned (Message 400 "At least one field must be provided for update"), [])
  else
    match updateUser backend id (updateData body) with
    | Some (Some u) =>
        (Returned (Json 200 (userWithoutPassword u)), [UpdateUser id (updateData body)])
    | Some None =>
        (Returned (Message 404 "User not found"), [UpdateUser id (updateData body)])
    | None =>
        (Returned (Message 500 "Internal server error"),
         [UpdateUser id (updateData body)])
    end.
Proof.
  intros Hg. unfold putUser. rewrite Hg. cbn [guarded]. cbn zeta.
  apply ensureSuperAdmin_Pass in Hg as [_ [u [-> _]]].
  handler_unfold.
  destruct (negb (ToBoolean (body_username body))
            && negb (ToBoolean (body_email body))
            && negb (ToBoolean (body_role body))); [reflexivity |].
  destruct (updateUser backend _ _) as [[|] |]; reflexivity.
Qed.

End Users.

(** X6: POST /api/admin/users calls [storage.createUser] only for a
    superadmin session, a role among staff, admin and superadmin, a user
    name and an address that the storage does not know yet, and with the
    hash of the password, never the password of the body. *)
Theorem postUser_creates_only_checked (backend : Backend) (s : Session)
    (body : UserBody) (data : NewUser) :
  CreateUser data ∈ snd (run (postUser backend s body)) ->
  ensureSuperAdmin s = Pass /\
  validRole (body_role body) = true /\
  getUserByUsername backend (body_username body) = Some None /\
  getUserByEmail backend (body_email body) = Some None /\
  hashPassword backend (body_password body) = Some (new_password data) /\
  data = {| new_username := body_username body;
            new_email := body_email body;
            new_password := new_password data;
            new_role := body_role body |}.
Proof.
  destruct (ensureSuperAdmin s) eqn:Hg.
  2, 3: unfold postUser; rewrite Hg; cbn; intros Hin; log_cases Hin.
  rewrite postUser_run by exact Hg. cbn zeta.
  destruct (validRole (body_role body)); cbn [negb];
    [| intros Hin; log_cases Hin].
  destruct (getUserByUsername backend (body_username body)) as [[u |] |];
    cbn [snd]; try solve [intros Hin; log_cases Hin].
  destruct (getUserByEmail backend (body_email body)) as [[u |] |];
    cbn [snd]; try solve [intros Hin; log_cases Hin].
  destruct (hashPassword backend (body_password body)) as [h |];
    cbn [snd]; try solve [intros Hin; log_cases Hin].
  intros Hin.
  assert (data = {| new_username := body_username body;
                    new_email := body_email body;
                    new_password := h;
                    new_role := body_role body |}) as ->.
  { destruct (createUser backend _); cbn [snd] in Hin;
      log_cases Hin; congruence. }
  repeat split; reflexivity.
Qed.

Lemma postUser_creates_only_checked_witness :
  hashPassword office_backend (VString "secret") = Some "hash:secret" /\
  validRole (VString "staff") = true.
Proof.
  destruct (postUser_creates_only_checked office_backend (signedIn root)
              (newcomer "staff")
              {| new_username := VString "ann";
                 new_email := VString "ann@example.org";
                 new_password := "hash:secret";
                 new_role := VString "staff" |})
    as (_ & Hrole & _ & _ & Hhash & _).
  - vm_compute. do 3 right. left.
  - split; [exact Hhash | exact Hrole].
Defined.

(** X7: DELETE /api/admin/users/:userId never asks the storage to delete
    the account of the session's own user. *)
Theorem deleteUser_never_self (backend : Backend) (s : Session)
    (userId : string) (user : User) (id : number) :
  session_user s = Some user ->
  DeleteUser id ∈ snd (run (deleteUserRoute backend s userId)) ->
  number_eqb (user_id user) id = false.
Proof.
  intros Hu Hin.
  destruct (ensureSuperAdmin s) eqn:Hg.
  2, 3: unfold deleteUserRoute in Hin; rewrite Hg in Hin; log_cases Hin.
  pose proof Hg as Hg'.
  apply ensureSuperAdmin_Pass in Hg' as [Ha [u [Hu' Hr]]].
  assert (u = user) as -> by congruence.
  rewrite (deleteUserRoute_run backend s userId user Ha Hu Hr) in Hin.
  cbn zeta in Hin.
  destruct (number_eqb (user_id user) (parseInt10 userId)) eqn:E;
    [log_cases Hin |].
  destruct (deleteUser backend (parseInt10 userId)) as [[|] |];
    log_cases Hin; congruence.
Qed.

Lemma deleteUser_never_self_witness :
  number_eqb (user_id root) (of_Z 2) = false.
Proof.
  apply (deleteUser_never_self office_backend (signedIn root) "2" root (of_Z 2));
    [reflexivity |].
  vm_compute. left.
Defined.

(** X8: the user routes parse the id with radix 10 and do not test the
    result. With an id that is not a number the storage is asked to
    delete, or to update, the user [NaN]. *)
Theorem user_routes_pass_NaN_to_storage (backend : Backend) (s : Session)
    (userId : string) (body : UserBody) :
  ensureSuperAdmin s = Pass ->
  parseInt10 userId = NaN ->
  snd (run (deleteUserRoute backend s userId)) = [DeleteUser NaN] /\
  (ToBoolean (body_role body) = true ->
   snd (run (putUser backend s userId body)) = [UpdateUser NaN (updateData body)]).
Proof.
  intros Hg Hid. split.
  - pose proof Hg as Hg'.
    apply ensureSuperAdmin_Pass in Hg' as [Ha [u [Hu Hr]]].
    rewrite (deleteUserRoute_run backend s userId u Ha Hu Hr). cbn zeta.
    rewrite Hid.
    assert (number_eqb (user_id u) NaN = false) as ->
      by (destruct (user_id u); reflexivity).
    destruct (deleteUser backend NaN) as [[|] |]; reflexivity.
  - intros Hrole. rewrite putUser_run by exact Hg. cbn zeta.
    rewrite Hid, Hrole, !andb_false_r.
    destruct (updateUser backend NaN (updateData body)) as [[|] |]; reflexivity.
Qed.

Lemma user_routes_pass_NaN_to_storage_witness :
  snd (run (deleteUserRoute office_backend (signedIn root) "me")) = [DeleteUser NaN] /\
  snd (run (putUser office_backend (signedIn root) "me" (newcomer "admin")))
  = [UpdateUser NaN (updateData (newcomer "admin"))].
Proof.
  destruct (user_routes_pass_NaN_to_storage office_backend (signedIn root) "me"
              (newcomer "admin") eq_refl eq_refl) as [Hd Hu].
  split; [exact Hd | exact (Hu eq_refl)].
Defined.

(** X9: the role is validated on creation only. A non-empty role outside
    staff, admin and superadmin is refused by POST /api/admin/users
    before any storage call, and handed to [storage.updateUser] by PUT
    /api/admin/users/:userId. *)
Theorem putUser_role_unchecked (backend : Backend) (s : Session)
    (userId : string) (body : UserBody) :
  ensureSuperAdmin s = Pass ->
  validRole (body_role body) = false ->
  ToBoolean (body_role body) = true ->
  run (postUser backend s body)
  = (Returned (Message 400 "Invalid role. Must be staff, admin, or superadmin"), []) /\
  snd (run (putUser backend s userId body))
  = [UpdateUser (parseInt10 userId) (updateData body)] /\
  update_role (updateData body) = Some (body_role body).
Proof.
  intros Hg Hv Ht. split; [| split].
  - rewrite postUser_run by exact Hg. cbn zeta. rewrite Hv. reflexivity.
  - rewrite putUser_run by exact Hg. cbn zeta. rewrite Ht, !andb_false_r.
    destruct (updateUser backend _ _) as [[|] |]; reflexivity.
  - unfold updateData, provided. cbn. rewrite Ht. reflexivity.
Qed.

Lemma putUser_role_unchecked_witness :
  snd (run (putUser office_backend (signedIn root) "2" (newcomer "owner")))
  = [UpdateUser (of_Z 2) (updateData (newcomer "owner"))] /\
  update_role (updateData (newcomer "owner")) = Some (VString "owner").
Proof.
  destruct (putUser_role_unchecked office_backend (signedIn root) "2"
              (newcomer "owner") eq_refl eq_refl eq_refl) as (_ & Hlog & Hrole).
  split; [exact Hlog | exact Hrole].
Defined.

(** A call of the log is rejected: the same, computed. *)
Lemma rejects_in_log (backend : Backend) (log : list Event) :
  (exists call, call ∈ log /\ rejects backend call = true) <->
  existsb (rejects backend) log = true.
Proof.
  rewrite existsb_exists. setoid_rewrite list_elem_of_In. reflexivity.
Qed.

(** X10: behind the superadmin gate the three user routes always answer,
    with 201 or 200 and a user without password, or with a message and
    one of the statuses 200, 400, 404 and 500: they never throw, never
    call [next], and never answer 401. The answer is 500, with the
    message of the catch block of the route, exactly when a call to the
    storage or to the hash was rejected. *)
Theorem user_routes_answer (backend : Backend) (s : Session)
    (userId : string) (body : UserBody) :
  ensureSuperAdmin s = Pass ->
  (forall h, h ∈ [postUser backend s body;
                  deleteUserRoute backend s userId;
                  putUser backend s userId body] ->
   (exists u, fst (run h) = Returned (Json 201 u)) \/
   (exists u, fst (run h) = Returned (Json 200 u)) \/
   (exists status text,
      fst (run h) = Returned (Message status text) /\
      status ∈ [200; 400; 404; 500])) /\
  (forall h text,
     (h, text) ∈ [(postUser backend s body, "Failed to create user");
                  (deleteUserRoute backend s userId, "Internal server error");
                  (putUser backend s userId body, "Internal server error")] ->
     ((exists call, call ∈ snd (run h) /\ rejects backend call = true) <->
      fst (run h) = Returned (Message 500 text)) /\
     (status_of (fst (run h)) = Some 500 <->
      fst (run h) = Returned (Message 500 text))).
Proof.
  intros Hg.
  pose proof Hg as Hg'.
  apply ensureSuperAdmin_Pass in Hg' as [Ha [u [Hu Hr]]].
  split.
  - intros h Hh. log_cases Hh; subst h.
    + rewrite postUser_run by exact Hg. cbn zeta.
      destruct (negb _);
        [right; right; eexists _, _; split; [reflexivity | set_solver] |].
      destruct (getUserByUsername backend _) as [[|] |];
        try (right; right; eexists _, _; split; [reflexivity | set_solver]).
      destruct (getUserByEmail backend _) as [[|] |];
        try (right; right; eexists _, _; split; [reflexivity | set_solver]).
      destruct (hashPassword backend _) as [h |];
        try (right; right; eexists _, _; split; [reflexivity | set_solver]).
      destruct (createUser backend _);
        try (right; right; eexists _, _; split; [reflexivity | set_solver]).
      left. eexists. reflexivity.
    + rewrite (deleteUserRoute_run backend s userId u Ha Hu Hr). cbn zeta.
      right; right.
      destruct (number_eqb _ _);
        [eexists _, _; split; [reflexivity | set_solver] |].
      destruct (deleteUser backend _) as [[|] |];
        eexists _, _; (split; [reflexivity | set_solver]).
    + rewrite putUser_run by exact Hg. cbn zeta.
      destruct (_ && _);
        [right; right; eexists _, _; split; [reflexivity | set_solver] |].
      destruct (updateUser backend _ _) as [[|] |];
        try (right; right; eexists _, _; split; [reflexivity | set_solver]).
      right; left. eexists. reflexivity.
  - intros h text Hh. rewrite rejects_in_log.
    log_cases Hh; injection Hh as -> ->.
    + rewrite postUser_run by exact Hg. cbn zeta.
      destruct (negb _);
        [cbn; split; split; intros; discriminate |].
      destruct (getUserByUsername backend _) as [[|] |] eqn:H1;
        cbn [fst snd status_of existsb rejects]; rewrite ?H1;
        cbn [rejected orb];
        try solve [split; split; intros; (discriminate || reflexivity)].
      destruct (getUserByEmail backend _) as [[|] |] eqn:H2;
        cbn [fst snd status_of existsb rejects]; rewrite ?H1, ?H2;
        cbn [rejected orb];
        try solve [split; split; intros; (discriminate || reflexivity)].
      destruct (hashPassword backend _) as [hashed |] eqn:H3;
        cbn [fst snd status_of existsb rejects]; rewrite ?H1, ?H2, ?H3;
        cbn [rejected orb];
        try solve [split; split; intros; (discriminate || reflexivity)].
      destruct (createUser backend _) as [created |] eqn:H4;
        cbn [fst snd status_of existsb rejects]; rewrite ?H1, ?H2, ?H3, ?H4;
        cbn [rejected orb];
        split; split; intros; (discriminate || reflexivity).
    + rewrite (deleteUserRoute_run backend s userId u Ha Hu Hr). cbn zeta.
      destruct (number_eqb _ _);
        [cbn; split; split; intros; discriminate |].
      destruct (deleteUser backend _) as [[|] |] eqn:H1;
        cbn [fst snd status_of existsb rejects]; rewrite ?H1;
        cbn [rejected orb];
        split; split; intros; (discriminate || reflexivity).
    + rewrite putUser_run by exact Hg. cbn zeta.
      destruct (_ && _);
        [cbn; split; split; intros; discriminate |].
      destruct (updateUser backend _ _) as [[|] |] eqn:H1;
        cbn [fst snd status_of existsb rejects]; rewrite ?H1;
        cbn [rejected orb];
        split; split; intros; (discriminate || reflexivity).
Qed.

Lemma user_routes_answer_witness :
  fst (run (deleteUserRoute offline_backend (signedIn root) "2"))
  = Returned (Message 500 "Internal server error") /\
  fst (run (putUser office_backend (signedIn root) "2" (newcomer "staff")))
  <> Returned (Message 500 "Internal server error").
Proof.
  split.
  - destruct (user_routes_answer offline_backend (signedIn root) "2"
                (newcomer "staff") eq_refl) as [_ Hfailing].
    assert (Hin : (deleteUserRoute offline_backend (signedIn root) "2",
                   "Internal server error")
                  ∈ [(postUser offline_backend (signedIn root) (newcomer "staff"),
                      "Failed to create user");
                     (deleteUserRoute offline_backend (signedIn root) "2",
                      "Internal server error");
                     (putUser offline_backend (signedIn root) "2" (newcomer "staff"),
                      "Internal server error")])
      by (right; left).
    destruct (Hfailing _ _ Hin) as [[Hrejected _] _].
    apply Hrejected.
    exists (DeleteUser (of_Z 2)). split; [left | reflexivity].
  - destruct (user_routes_answer office_backend (signedIn root) "2"
                (newcomer "staff") eq_refl) as [_ Hfailing].
    assert (Hin : (putUser office_backend (signedIn root) "2" (newcomer "staff"),
                   "Internal server error")
                  ∈ [(postUser office_backend (signedIn root) (newcomer "staff"),
                      "Failed to create user");
                     (deleteUserRoute office_backend (signedIn root) "2",
                      "Internal server error");
                     (putUser office_backend (signedIn root) "2" (newcomer "staff"),
                      "Internal server error")])
      by (right; right; left).
    destruct (Hfailing _ _ Hin) as [[_ Hrejected] _].
    intros Hanswer.
    destruct (Hrejected Hanswer) as [call [Hcall Hcalled]].
    apply elem_of_cons in Hcall as [-> | Hcall];
      [discriminate Hcalled |].
    apply elem_of_nil in Hcall. contradiction.
Defined.

Section Inquiries.
Context (backend : Backend) (env : gmap string string).

(** The notification never throws; a mail is sent only after the
    transporter was verified. *)
Lemma sendInquiryNotification_run (inquiry : Inquiry)
    (property : option PropertyRow) (log : list Event) :
  sendInquiryNotification backend env inquiry property log =
  (Returned tt,
   (log ++ match verify backend with
           | Some _ => [Verify; SendMail (mailOptions env inquiry property)]
           | None => [Verify]
           end)%list).
Proof.
  unfold sendInquiryNotification. handler_unfold.
  destruct (verify backend) as [[] |]; [| reflexivity].
  rewrite <- !app_assoc.
  destruct (sendMail backend _) as [[] |]; reflexivity.
Qed.

(** The property of an inquiry: the lookup never makes the handler
    fail. *)
Lemma propertyOf_run (inquiry : Inquiry) (log : list Event) :
  propertyOf backend inquiry log =
  match inquiry_propertyId inquiry with
  | Some id =>
      if truthy id
      then (Returned (default None (getPropertyById backend id)),
            (log ++ [GetPropertyById id])%list)
      else (Returned None, log)
  | None => (Returned None, log)
  end.
Proof.
  unfold propertyOf.
  destruct (inquiry_propertyId inquiry) as [id |]; [| reflexivity].
  destruct (truthy id); [| reflexivity].
  handler_unfold. destruct (getPropertyById backend id); reflexivity.
Qed.

Lemma postInquiry_run (body : gmap string value) :
  run (postInquiry backend env body) =
  match insertInquirySchema_parse backend body with
  | None => (Returned (Message 400 "Validation failed"), [])
  | Some validatedData =>
      match createInquiry backend validatedData with
      | None => (Returned (Forward StorageError), [CreateInquiry validatedData])
      | Some inquiry =>
          let '(property, lookup) :=
            propertyOf backend inquiry [CreateInquiry validatedData] in
          (Returned (Json 201 inquiry),
           snd (sendInquiryNotification backend env inquiry
                  (match property with Returned p => p | Thrown _ => None end)
                  lookup))
      end
  end.
Proof.
  unfold postInquiry, run, try_catch.
  destruct (insertInquirySchema_parse backend body) as [d |]; [| reflexivity].
  unfold mbind, M_bind, bind, await at 1.
  destruct (createInquiry backend d) as [inquiry |]; [| reflexivity].
  cbn [app]. rewrite propertyOf_run.
  destruct (inquiry_propertyId inquiry) as [id |];
    [destruct (truthy id) |]; rewrite sendInquiryNotification_run; reflexivity.
Qed.

End Inquiries.

(** X11: once an inquiry is validated and stored, POST /api/inquiries
    answers 201 with the stored inquiry, whatever happens to the
    property lookup and to the mail. *)
Theorem postInquiry_stored_then_201 (backend : Backend)
    (env : gmap string string) (body : gmap string value)
    (data : InquiryData) (inquiry : Inquiry) :
  insertInquirySchema_parse backend body = Some data ->
  createInquiry backend data = Some inquiry ->
  fst (run (postInquiry backend env body)) = Returned (Json 201 inquiry).
Proof.
  intros Hp Hc. rewrite postInquiry_run, Hp, Hc.
  destruct (propertyOf backend inquiry _). reflexivity.
Qed.

Lemma postInquiry_stored_then_201_witness :
  exists inquiry,
    fst (run (postInquiry degraded_backend configured question))
    = Returned (Json 201 inquiry) /\
    inquiry_name inquiry = "Ravi".
Proof.
  eexists. split.
  - eapply (postInquiry_stored_then_201 degraded_backend configured question);
      reflexivity.
  - reflexivity.
Defined.

(** X12: a notification is sent only for an inquiry that was validated
    and stored, and after the transporter was verified. It goes to the
    configured mailbox, replies go to the inquirer, and it names a
    property only if the inquiry has a truthy property id that the
    storage found. *)
Theorem postInquiry_mail_only_for_stored (backend : Backend)
    (env : gmap string string) (body : gmap string value) (m : MailOptions) :
  SendMail m ∈ snd (run (postInquiry backend env body)) ->
  exists data inquiry,
    insertInquirySchema_parse backend body = Some data /\
    createInquiry backend data = Some inquiry /\
    verify backend = Some tt /\
    mail_replyTo m = inquiry_email inquiry /\
    mail_to m = config_user (getEmailConfig env) /\
    fst (mail_body m) = inquiry /\
    forall p, snd (mail_body m) = Some p ->
      exists id, inquiry_propertyId inquiry = Some id /\
                 truthy id = true /\
                 getPropertyById backend id = Some (Some p).
Proof.
  rewrite postInquiry_run.
  destruct (insertInquirySchema_parse backend body) as [d |];
    [| intros Hin; log_cases Hin].
  destruct (createInquiry backend d) as [inquiry |] eqn:Hc;
    [| intros Hin; log_cases Hin].
  rewrite propertyOf_run.
  intros Hin. exists d, inquiry.
  assert (exists p log,
    SendMail m ∈ snd (sendInquiryNotification backend env inquiry p log) /\
    (forall e, e ∈ log -> e <> SendMail m) /\
    forall r, p = Some r ->
      exists id, inquiry_propertyId inquiry = Some id /\
                 truthy id = true /\
                 getPropertyById backend id = Some (Some r)) as (p & log & Hm & Hlog & Hp).
  { destruct (inquiry_propertyId inquiry) as [id |];
      [destruct (truthy id) eqn:Ht |].
    - eexists _, _. split; [exact Hin |]. split.
      + intros e He. log_cases He; subst e; discriminate.
      + intros r Hr. exists id. split; [reflexivity |]. split; [exact Ht |].
        destruct (getPropertyById backend id) as [[|] |]; cbn in Hr; congruence.
    - eexists _, _. split; [exact Hin |]. split.
      + intros e He. log_cases He; subst e; discriminate.
      + discriminate.
    - eexists _, _. split; [exact Hin |]. split.
      + intros e He. log_cases He; subst e; discriminate.
      + discriminate. }
  rewrite sendInquiryNotification_run in Hm. cbn [snd] in Hm.
  apply elem_of_app in Hm as [Hm | Hm]; [exfalso; exact (Hlog _ Hm eq_refl) |].
  destruct (verify backend) as [[] |]; log_cases Hm.
  injection Hm as ->.
  split; [reflexivity |]. split; [exact Hc |]. do 4 (split; [reflexivity |]).
  intros r Hr. exact (Hp r Hr).
Qed.

Lemma postInquiry_mail_only_for_stored_witness :
  exists m,
    SendMail m ∈ snd (run (postInquiry office_backend configured question)) /\
    mail_to m = "desk@example.org" /\
    mail_replyTo m = "ravi@example.org" /\
    mail_subject m = "New Inquiry from Ravi - Villa in Saket".
Proof.
  assert (exists m,
    SendMail m ∈ snd (run (postInquiry office_backend configured question)) /\
    mail_subject m = "New Inquiry from Ravi - Villa in Saket") as [m [Hin Hs]].
  { eexists. split; [vm_compute; do 3 right; left | reflexivity]. }
  exists m. split; [exact Hin |].
  destruct (postInquiry_mail_only_for_stored office_backend configured question
              m Hin) as (d & inquiry & Hp & Hc & _ & Hreply & Hto & _).
  injection Hp as <-. injection Hc as <-.
  split; [exact Hto |]. split; [exact Hreply | exact Hs].
Defined.

(** X13: an answer 400 to an inquiry means that the schema refused the
    body, and that nothing was stored, looked up or sent. *)
Theorem postInquiry_400_untouched (backend : Backend)
    (env : gmap string string) (body : gmap string value) (text : string) :
  fst (run (postInquiry backend env body)) = Returned (Message 400 text) ->
  insertInquirySchema_parse backend body = None /\
  snd (run (postInquiry backend env body)) = [].
Proof.
  rewrite postInquiry_run.
  destruct (insertInquirySchema_parse backend body) as [d |];
    [| intros _; split; reflexivity].
  destruct (createInquiry backend d) as [inquiry |]; [| discriminate].
  destruct (propertyOf backend inquiry _). discriminate.
Qed.

Lemma postInquiry_400_untouched_witness :
  snd (run (postInquiry office_backend configured
              {["message" := VString "call me"]})) = [].
Proof.
  apply (postInquiry_400_untouched office_backend configured
           {["message" := VString "call me"]} "Validation failed").
  reflexivity.
Defined.

Section AreaUnits.

Lemma areaUnitMap_cases (key : string) :
  areaUnitMap key = Some (Unit (VString "sq-ft")) /\ key = "sq_ft" \/
  areaUnitMap key = Some (Unit (VString "sq-mt")) /\ key = "sq_mt" \/
  areaUnitMap key = Some (Unit (VString "sq-yd")) /\ key = "sq_yd" \/
  areaUnitMap key = Some (Inherited key) /\ key ∈ Object_prototype \/
  areaUnitMap key = None.
Proof.
  unfold areaUnitMap.
  destruct (String.eqb_spec key "sq_ft"); [auto |].
  destruct (String.eqb_spec key "sq_mt"); [auto |].
  destruct (String.eqb_spec key "sq_yd"); [auto 6 |].
  case_bool_decide; auto 7.
Qed.

End AreaUnits.

(** X14: after the conversion of lines 466-473, the area unit of a
    property body is never one of the underscore names [sq_ft], [sq_mt]
    and [sq_yd]. *)
Theorem convertAreaUnit_never_underscore (v : value) (name : string) :
  name ∈ ["sq_ft"; "sq_mt"; "sq_yd"] ->
  convertAreaUnit v <> Unit (VString name).
Proof.
  intros Hname. unfold convertAreaUnit.
  destruct (ToBoolean v) eqn:Ht.
  - destruct (areaUnitMap_cases (ToString v))
      as [[-> _] | [[-> _] | [[-> _] | [[-> _] | E]]]].
    1-3: log_cases Hname; subst name; discriminate.
    + discriminate.
    + rewrite E. intros [= ->]. cbn [ToString] in E.
      log_cases Hname; subst name; discriminate.
  - intros [= ->]. log_cases Hname; subst name; discriminate.
Qed.

Lemma convertAreaUnit_never_underscore_witness :
  convertAreaUnit (VString "sq_yd") <> Unit (VString "sq_yd").
Proof.
  apply convertAreaUnit_never_underscore. do 2 right. left.
Defined.

(** X15: the conversion of the area unit is idempotent: a value it
    produces is left as it is by a second conversion. *)
Theorem convertAreaUnit_idempotent (v u : value) :
  convertAreaUnit v = Unit u ->
  convertAreaUnit u = Unit u.
Proof.
  unfold convertAreaUnit at 1.
  destruct (ToBoolean v) eqn:Ht.
  - destruct (areaUnitMap_cases (ToString v))
      as [[-> _] | [[-> _] | [[-> _] | [[-> _] | E]]]].
    1-3: intros [= <-]; reflexivity.
    + discriminate.
    + rewrite E. intros [= <-]. unfold convertAreaUnit. rewrite Ht, E.
      reflexivity.
  - intros [= <-]. unfold convertAreaUnit. rewrite Ht. reflexivity.
Qed.

Lemma convertAreaUnit_idempotent_witness :
  convertAreaUnit (VString "sq-mt") = Unit (VString "sq-mt").
Proof.
  apply (convertAreaUnit_idempotent (VString "sq_mt")). reflexivity.
Defined.

Section Properties.
Context (backend : Backend).

(** The loop over the media: one deletion per item, in order, whatever
    the media host answers. *)
Lemma deleteAllFromCloudinary_run (media : list Media) (log : list Event) :
  deleteAllFromCloudinary backend media log =
  (Returned tt,
   (log ++ map (fun item => Destroy (cloudinaryId item)
                                    (resourceType (mediaType item))) media)%list).
Proof.
  revert log. induction media as [| item rest IH]; intros log.
  - cbn. unfold mret, M_ret, ret. rewrite app_nil_r. reflexivity.
  - cbn [deleteAllFromCloudinary map].
    unfold mbind, M_bind, bind, try_catch, deleteFromCloudinary, try_catch,
      await, throw, mret, M_ret, ret.
    destruct (destroy backend _ _) as [[] |]; rewrite IH, <- app_assoc;
      reflexivity.
Qed.

Lemma deletePropertyRoute_run (s : Session) (id : string) :
  ensureAuthenticated s = Pass ->
  run (deletePropertyRoute backend s id) =
  let n := parseInt id in
  if isNaN n then (Returned (Message 400 "Invalid ID"), [])
  else
    match getPropertyMedia backend n with
    | None => (Returned (Forward StorageError), [GetPropertyMedia n])
    | Some media =>
        match deleteProperty backend n with
        | None =>
            (Returned (Forward StorageError), [GetPropertyMedia n; DeleteProperty n])
        | Some false =>
            (Returned (Message 404 "Property not found"),
             [GetPropertyMedia n; DeleteProperty n])
        | Some true =>
            (Returned (Message 200 "Property deleted successfully"),
             [GetPropertyMedia n; DeleteProperty n]
             ++ map (fun item => Destroy (cloudinaryId item)
                                         (resourceType (mediaType item))) media)%list
        end
    end.
Proof.
  intros Hg. unfold deletePropertyRoute. rewrite Hg. cbn [guarded]. cbn zeta.
  unfold run, try_catch.
  destruct (isNaN (parseInt id)); [reflexivity |].
  unfold mbind, M_bind, bind, await at 1.
  destruct (getPropertyMedia backend _) as [media |]; [| reflexivity].
  unfold await at 1.
  destruct (deleteProperty backend _) as [[|] |]; try reflexivity.
  cbn [negb app]. rewrite deleteAllFromCloudinary_run. reflexivity.
Qed.

End Properties.

(** X16: when the property is deleted, DELETE /api/admin/properties/:id
    asks the media host to delete each medium of the property, once, in
    the order of the list read before the deletion, as a video when its
    type is [video] and as an image otherwise; the answer is 200
    whatever the media host replies. *)
Theorem deleteProperty_cleans_media_host (backend : Backend) (s : Session)
    (id : string) (media : list Media) :
  ensureAuthenticated s = Pass ->
  isNaN (parseInt id) = false ->
  getPropertyMedia backend (parseInt id) = Some media ->
  deleteProperty backend (parseInt id) = Some true ->
  run (deletePropertyRoute backend s id) =
  (Returned (Message 200 "Property deleted successfully"),
   [GetPropertyMedia (parseInt id); DeleteProperty (parseInt id)]
   ++ map (fun item => Destroy (cloudinaryId item)
                               (if String.eqb (mediaType item) "video"
                                then "video" else "image")) media)%list.
Proof.
  intros Hg Hn Hm Hd. rewrite deletePropertyRoute_run by exact Hg. cbn zeta.
  rewrite Hn, Hm, Hd. reflexivity.
Qed.

Lemma deleteProperty_cleans_media_host_witness :
  run (deletePropertyRoute office_backend (signedIn clerk) "7") =
  (Returned (Message 200 "Property deleted successfully"),
   [GetPropertyMedia (of_Z 7); DeleteProperty (of_Z 7);
    Destroy "villa/front" "image"; Destroy "villa/tour" "video"]).
Proof.
  apply (deleteProperty_cleans_media_host office_backend (signedIn clerk) "7"
           [photo; clip]); reflexivity.
Defined.

(** X17: nothing is deleted from the media host unless the storage
    deleted the property, and what is deleted is a medium of that
    property. *)
Theorem deleteProperty_destroys_only_after_delete (backend : Backend)
    (s : Session) (id publicId type : string) :
  Destroy publicId type ∈ snd (run (deletePropertyRoute backend s id)) ->
  deleteProperty backend (parseInt id) = Some true /\
  exists media item,
    getPropertyMedia backend (parseInt id) = Some media /\
    item ∈ media /\
    cloudinaryId item = publicId /\
    type = (if String.eqb (mediaType item) "video" then "video" else "image").
Proof.
  destruct (ensureAuthenticated s) eqn:Hg.
  2, 3: unfold deletePropertyRoute; rewrite Hg; intros Hin; log_cases Hin.
  rewrite deletePropertyRoute_run by exact Hg. cbn zeta.
  destruct (isNaN (parseInt id)); [intros Hin; log_cases Hin |].
  destruct (getPropertyMedia backend _) as [media |];
    [| intros Hin; log_cases Hin].
  destruct (deleteProperty backend _) as [[|] |];
    try solve [intros Hin; log_cases Hin].
  cbn [snd app]. intros Hin.
  do 2 (apply elem_of_cons in Hin as [Hin | Hin]; [discriminate |]).
  apply list_elem_of_fmap in Hin as [item [[= -> ->] Hitem]].
  split; [reflexivity |]. exists media, item.
  split; [reflexivity |]. split; [exact Hitem |]. split; reflexivity.
Qed.

Lemma deleteProperty_destroys_only_after_delete_witness :
  deleteProperty office_backend (parseInt "7") = Some true /\
  exists media item,
    getPropertyMedia office_backend (parseInt "7") = Some media /\
    item ∈ media /\
    cloudinaryId item = "villa/tour" /\
    "video" = (if String.eqb (mediaType item) "video" then "video" else "image").
Proof.
  apply (deleteProperty_destroys_only_after_delete office_backend
           (signedIn clerk) "7" "villa/tour" "video").
  vm_compute. do 3 right. left.
Defined.

(** X18: when the list of media cannot be read, DELETE
    /api/admin/properties/:id does not delete the property; for an
    authenticated session and an id that is a number the rejection goes
    to the error handler, after that one call. *)
Theorem deleteProperty_kept_without_media_list (backend : Backend)
    (s : Session) (id : string) (n : number) :
  getPropertyMedia backend (parseInt id) = None ->
  DeleteProperty n ∉ snd (run (deletePropertyRoute backend s id)) /\
  (ensureAuthenticated s = Pass ->
   isNaN (parseInt id) = false ->
   run (deletePropertyRoute backend s id)
   = (Returned (Forward StorageError), [GetPropertyMedia (parseInt id)])).
Proof.
  intros Hm. split.
  - intros Hin.
    destruct (ensureAuthenticated s) eqn:Hg.
    2, 3: unfold deletePropertyRoute in Hin; rewrite Hg in Hin; log_cases Hin.
    rewrite deletePropertyRoute_run in Hin by exact Hg. cbn zeta in Hin.
    rewrite Hm in Hin.
    destruct (isNaN (parseInt id)); log_cases Hin.
  - intros Hg Hid.
    rewrite deletePropertyRoute_run by exact Hg. cbn zeta.
    rewrite Hm, Hid. reflexivity.
Qed.

Lemma deleteProperty_kept_without_media_list_witness :
  DeleteProperty (of_Z 7)
  ∉ snd (run (deletePropertyRoute degraded_backend (signedIn clerk) "7")) /\
  run (deletePropertyRoute degraded_backend (signedIn clerk) "7")
  = (Returned (Forward StorageError), [GetPropertyMedia (of_Z 7)]).
Proof.
  destruct (deleteProperty_kept_without_media_list degraded_backend
              (signedIn clerk) "7" (of_Z 7) eq_refl) as [Hkept Hforwarded].
  split; [exact Hkept |].
  apply Hforwarded; reflexivity.
Defined.

Section MediaRoutes.
Context (backend : Backend) (env : gmap string string) (now : number).

Lemma uploadMedia_run (s : Session) (body : UploadBody) :
  ensureAuthenticated s = Pass ->
  checkCloudinaryConfig env = Pass ->
  run (uploadMedia backend env now s body) =
  let propertyId := upload_propertyId body in
  let sent := Upload (fileData body) (uploadPublicId now propertyId) in
  let failed := Returned (Message 500 "Failed to upload media") in
  if negb (ToBoolean (fileData body))
  then (Returned (Message 400 "No file data provided"), [])
  else
    match upload backend (fileData body) (uploadPublicId now propertyId) with
    | None => (failed, [sent])
    | Some r =>
        let answer media :=
          Returned (Json 200 {| result_media := media;
                                result_cloudinaryId := public_id r;
                                result_cloudinaryUrl := secure_url r;
                                result_mediaType := resourceType (resource_type r) |}) in
        if forExistingProperty propertyId then
          let data := uploadedMediaData propertyId r in
          match createPropertyMedia backend data with
          | Some media => (answer (Some media), [sent; CreatePropertyMedia data])
          | None => (failed, [sent; CreatePropertyMedia data])
          end
        else (answer None, [sent])
    end.
Proof.
  intros Hg Hc. unfold uploadMedia. rewrite Hg, Hc. cbn [guarded]. cbn zeta.
  unfold run, try_catch.
  destruct (ToBoolean (fileData body)); cbn [negb]; [| reflexivity].
  unfold mbind, M_bind, bind, await at 1.
  destruct (upload backend _ _) as [r |]; [| reflexivity].
  cbn [app].
  destruct (forExistingProperty (upload_propertyId body)); [| reflexivity].
  unfold await. destruct (createPropertyMedia backend _); reflexivity.
Qed.

(** The batch loop, from any state: every item ends in [results] or in
    [errors]. *)
Lemma processItems_run (propertyId : number) (items : list MediaItem) :
  forall (i : nat) (results : list Media) (errors : list BatchError)
         (log : list Event),
  exists created failed log',
    processItems backend propertyId i items results errors log
    = (Returned ((results ++ created)%list, (errors ++ failed)%list),
       (log ++ log')%list) /\
    (length created + length failed = length items)%nat /\
    (forall e, e ∈ failed ->
       (i <= error_index e)%nat /\
       items !! (error_index e - i)%nat = Some (error_item e)) /\
    (forall ev, ev ∈ log' ->
       exists data, ev = CreatePropertyMedia data /\
                    data !! "propertyId" = Some (VNumber propertyId)) /\
    (forall m, m ∈ created ->
       exists data, CreatePropertyMedia data ∈ log' /\
                    createPropertyMedia backend data = Some m).
Proof.
  induction items as [| item rest IH]; intros i results errors log.
  - exists [], [], []. cbn. unfold mret, M_ret, ret. rewrite !app_nil_r.
    split; [reflexivity |]. split; [reflexivity |].
    split; [intros e He; log_cases He |].
    split; [intros e He; log_cases He | intros e He; log_cases He].
  - cbn [processItems].
    unfold mbind at 1, M_bind at 1, bind at 1.
    assert (exists r l,
      try_catch
        (mediaData ← batchMediaData propertyId i item;
         media ← await (CreatePropertyMedia mediaData)
                       (createPropertyMedia backend mediaData);
         mret ((results ++ [media])%list, errors))
        (fun _ => mret (results,
                        (errors ++ [{| error_index := i; error_item := item |}])%list))
        log = (Returned r, (log ++ l)%list) /\
      ((exists data m, r = ((results ++ [m])%list, errors) /\
                       l = [CreatePropertyMedia data] /\
                       data !! "propertyId" = Some (VNumber propertyId) /\
                       createPropertyMedia backend data = Some m) \/
       (r = (results, (errors ++ [{| error_index := i; error_item := item |}])%list) /\
        forall ev, ev ∈ l ->
          exists data, ev = CreatePropertyMedia data /\
                       data !! "propertyId" = Some (VNumber propertyId))))
      as (r & l & -> & Hr).
    { unfold try_catch, batchMediaData, mbind, M_bind, bind.
      destruct (orderIndex item log) as [[own | e] log1] eqn:Ho.
      - assert (log1 = log) as ->.
        { unfold orderIndex, mret, M_ret, ret, throw in Ho.
          destruct item as [f | []]; cbn in Ho; congruence. }
        unfold mret at 1, M_ret at 1, ret at 1, await.
        match goal with
        | |- context [createPropertyMedia backend ?d] =>
            assert (d !! "propertyId" = Some (VNumber propertyId)) as Hd
              by (rewrite lookup_insert_ne by discriminate;
                  apply lookup_insert_eq);
            destruct (createPropertyMedia backend d) as [m |] eqn:Hc
        end.
        + eexists _, _. split; [reflexivity |]. left.
          eexists _, _. split; [reflexivity |]. split; [reflexivity |].
          split; [exact Hd | exact Hc].
        + eexists _, _. split; [reflexivity |]. right.
          split; [reflexivity |]. intros ev Hev. log_cases Hev. subst ev.
          eexists. split; [reflexivity | exact Hd].
      - assert (log1 = log) as ->.
        { unfold orderIndex, mret, M_ret, ret, throw in Ho.
          destruct item as [f | []]; cbn in Ho; congruence. }
        exists (results, (errors ++ [{| error_index := i; error_item := item |}])%list), [].
        rewrite app_nil_r. split; [reflexivity |]. right.
        split; [reflexivity |]. intros ev Hev. log_cases Hev. }
    destruct Hr as [(data & m & -> & -> & Hd & Hc) | [-> Hl]]; cbn [fst snd].
    + destruct (IH (S i) (results ++ [m])%list errors (log ++ [CreatePropertyMedia data])%list)
        as (created & failed & log' & -> & Hlen & Hfail & Hlog & Hcreated).
      exists (m :: created), failed, (CreatePropertyMedia data :: log').
      rewrite <- !app_assoc. cbn [app].
      split; [reflexivity |]. split; [cbn; lia |].
      split; [| split].
      * intros e He. destruct (Hfail e He) as [Hle Hlk].
        split; [lia |].
        replace (error_index e - i)%nat with (S (error_index e - S i)) by lia.
        exact Hlk.
      * intros ev Hev. apply elem_of_cons in Hev as [-> | Hev]; [eauto | eauto].
      * intros m' Hm'. apply elem_of_cons in Hm' as [-> | Hm'].
        -- exists data. split; [left | exact Hc].
        -- destruct (Hcreated m' Hm') as [d' [Hin' Hc']].
           exists d'. split; [right; exact Hin' | exact Hc'].
    + destruct (IH (S i) results
                  (errors ++ [{| error_index := i; error_item := item |}])%list
                  (log ++ l)%list)
        as (created & failed & log' & -> & Hlen & Hfail & Hlog & Hcreated).
      exists created, ({| error_index := i; error_item := item |} :: failed),
             (l ++ log')%list.
      rewrite <- !app_assoc. cbn [app].
      split; [reflexivity |]. split; [cbn; lia |].
      split; [| split].
      * intros e He. apply elem_of_cons in He as [-> | He].
        -- cbn. split; [lia |]. rewrite Nat.sub_diag. reflexivity.
        -- destruct (Hfail e He) as [Hle Hlk].
           split; [lia |].
           replace (error_index e - i)%nat with (S (error_index e - S i)) by lia.
           exact Hlk.
      * intros ev Hev. apply elem_of_app in Hev as [Hev | Hev]; eauto.
      * intros m' Hm'. destruct (Hcreated m' Hm') as [d' [Hin' Hc']].
        exists d'. split; [| exact Hc']. apply elem_of_app. right. exact Hin'.
Qed.

End MediaRoutes.

Section Uploads.

(** Line 576: the comparison with ['temp'] adds nothing to the numeric
    test. *)
Lemma forExistingProperty_numeric (propertyId : value) :
  forExistingProperty propertyId
  = negb (isNaN (parseInt (ToString propertyId))).
Proof.
  unfold forExistingProperty.
  destruct propertyId as [| | b | n | p]; try reflexivity.
  destruct (String.eqb_spec p "temp") as [-> | _]; reflexivity.
Qed.

End Uploads.

(** X19: when the file went to the media host but its row cannot be
    stored, POST /api/admin/media/upload answers 500 and leaves the file
    on the media host: no deletion follows the upload. *)
Theorem uploadMedia_keeps_file_when_row_fails (backend : Backend)
    (env : gmap string string) (now : number) (s : Session)
    (body : UploadBody) (r : UploadResponse) :
  ensureAuthenticated s = Pass ->
  checkCloudinaryConfig env = Pass ->
  ToBoolean (fileData body) = true ->
  upload backend (fileData body)
         ("property-" +:+ ToString (upload_propertyId body) +:+ "-"
          +:+ Number_toString now) = Some r ->
  isNaN (parseInt (ToString (upload_propertyId body))) = false ->
  createPropertyMedia backend (uploadedMediaData (upload_propertyId body) r) = None ->
  run (uploadMedia backend env now s body) =
  (Returned (Message 500 "Failed to upload media"),
   [Upload (fileData body)
           ("property-" +:+ ToString (upload_propertyId body) +:+ "-"
            +:+ Number_toString now);
    CreatePropertyMedia (uploadedMediaData (upload_propertyId body) r)]).
Proof.
  intros Hg Hc Hf Hu Hn Hm.
  rewrite uploadMedia_run by assumption. cbn zeta.
  rewrite Hf. cbn [negb]. unfold uploadPublicId. rewrite Hu.
  rewrite forExistingProperty_numeric, Hn. cbn [negb].
  rewrite Hm. reflexivity.
Qed.

Lemma uploadMedia_keeps_file_when_row_fails_witness :
  run (uploadMedia degraded_backend configured (of_Z 1700000000000)
         (signedIn clerk)
         {| fileData := VString "data:image/png;base64,AAAA";
            fileName := VString "front.png";
            upload_propertyId := VNumber (of_Z 7) |}) =
  (Returned (Message 500 "Failed to upload media"),
   [Upload (VString "data:image/png;base64,AAAA") "property-7-1700000000000";
    CreatePropertyMedia
      (uploadedMediaData (VNumber (of_Z 7))
         {| public_id := "south-delhi-real-estate/property-7-1700000000000";
            secure_url := "https://media.example/property-7-1700000000000";
            resource_type := "image" |})]).
Proof.
  apply (uploadMedia_keeps_file_when_row_fails degraded_backend configured
           (of_Z 1700000000000) (signedIn clerk)
           {| fileData := VString "data:image/png;base64,AAAA";
              fileName := VString "front.png";
              upload_propertyId := VNumber (of_Z 7) |}); reflexivity.
Defined.

(** X20: after a successful upload a media row is written exactly when
    [parseInt] of the property id is a number; the comparison with
    ['temp'] of line 576 adds nothing. *)
Theorem uploadMedia_row_iff_numeric (backend : Backend)
    (env : gmap string string) (now : number) (s : Session)
    (body : UploadBody) (r : UploadResponse) :
  ensureAuthenticated s = Pass ->
  checkCloudinaryConfig env = Pass ->
  ToBoolean (fileData body) = true ->
  upload backend (fileData body) (uploadPublicId now (upload_propertyId body))
  = Some r ->
  (exists data, CreatePropertyMedia data
                ∈ snd (run (uploadMedia backend env now s body))) <->
  isNaN (parseInt (ToString (upload_propertyId body))) = false.
Proof.
  intros Hg Hc Hf Hu.
  rewrite uploadMedia_run by assumption. cbn zeta.
  rewrite Hf, Hu, forExistingProperty_numeric. cbn [negb].
  destruct (isNaN (parseInt (ToString (upload_propertyId body)))); cbn [negb].
  - split; [| discriminate]. intros [data Hin]. log_cases Hin.
  - split; [reflexivity |]. intros _. eexists.
    destruct (createPropertyMedia backend _); cbn [snd]; right; left.
Qed.

Lemma uploadMedia_row_iff_numeric_witness :
  ~ exists data,
      CreatePropertyMedia data
      ∈ snd (run (uploadMedia office_backend configured (of_Z 1700000000000)
                    (signedIn clerk)
                    {| fileData := VString "data:image/png;base64,AAAA";
                       fileName := VString "front.png";
                       upload_propertyId := VString "temp" |})).
Proof.
  intros H.
  apply (uploadMedia_row_iff_numeric office_backend configured
           (of_Z 1700000000000) (signedIn clerk)
           {| fileData := VString "data:image/png;base64,AAAA";
              fileName := VString "front.png";
              upload_propertyId := VString "temp" |}
           _ eq_refl eq_refl eq_refl eq_refl) in H.
  discriminate H.
Defined.

Section Batch.
Context (backend : Backend).

Lemma postMediaBatch_run (s : Session) (propertyId : string)
    (items : list MediaItem) :
  ensureAuthenticated s = Pass ->
  isNaN (parseInt propertyId) = false ->
  exists created failed log,
    run (postMediaBatch backend s propertyId (BodyArray items))
    = (Returned (Json 201 {| batch_total := length items;
                             batch_created := length created;
                             batch_failed := length failed;
                             batch_media := created;
                             batch_errors := match failed with
                                             | [] => None
                                             | _ => Some failed
                                             end |}), log) /\
    (length created + length failed = length items)%nat /\
    (forall e, e ∈ failed -> items !! error_index e = Some (error_item e)) /\
    (forall ev, ev ∈ log ->
       exists data, ev = CreatePropertyMedia data /\
                    data !! "propertyId" = Some (VNumber (parseInt propertyId))) /\
    (forall m, m ∈ created ->
       exists data, CreatePropertyMedia data ∈ log /\
                    createPropertyMedia backend data = Some m).
Proof.
  intros Hg Hn. unfold postMediaBatch. rewrite Hg. cbn [guarded]. cbn zeta.
  unfold run, try_catch. rewrite Hn.
  unfold mbind, M_bind, bind.
  destruct (processItems_run backend (parseInt propertyId) items 0 [] [] [])
    as (created & failed & log & -> & Hlen & Hfail & Hlog & Hcreated).
  cbn [app]. exists created, failed, log.
  split; [reflexivity |]. split; [exact Hlen |]. split; [| split; assumption].
  intros e He. destruct (Hfail e He) as [_ Hlk].
  rewrite Nat.sub_0_r in Hlk. exact Hlk.
Qed.

End Batch.

(** X21: the batch route answers 201 for every array: [total] is the
    length of the array, [created] and [failed] add up to it, [created]
    is the number of rows in [media], [errors] is absent exactly when
    nothing failed, and each error names the index of the item it
    carries. *)
Theorem postMediaBatch_counts (backend : Backend) (s : Session)
    (propertyId : string) (items : list MediaItem) :
  ensureAuthenticated s = Pass ->
  isNaN (parseInt propertyId) = false ->
  exists r,
    fst (run (postMediaBatch backend s propertyId (BodyArray items)))
    = Returned (Json 201 r) /\
    batch_total r = length items /\
    (batch_created r + batch_failed r = batch_total r)%nat /\
    batch_created r = length (batch_media r) /\
    (batch_errors r = None <-> batch_failed r = 0%nat) /\
    forall errors e, batch_errors r = Some errors -> e ∈ errors ->
      items !! error_index e = Some (error_item e).
Proof.
  intros Hg Hn.
  destruct (postMediaBatch_run backend s propertyId items Hg Hn)
    as (created & failed & log & -> & Hlen & Hfail & _ & _).
  eexists. split; [reflexivity |]. cbn.
  split; [reflexivity |]. split; [exact Hlen |]. split; [reflexivity |].
  split.
  - destruct failed; cbn; split; congruence.
  - intros errors e. destruct failed as [| f failed]; [discriminate |].
    intros [= <-]. apply Hfail.
Qed.

Lemma postMediaBatch_counts_witness :
  exists r,
    fst (run (postMediaBatch office_backend (signedIn clerk) "7"
                (BodyArray [ItemObject {["cloudinaryId" := VString "villa/pool"]};
                            ItemScalar VNull])))
    = Returned (Json 201 r) /\
    batch_total r = 2%nat /\
    (batch_created r + batch_failed r = 2)%nat.
Proof.
  destruct (postMediaBatch_counts office_backend (signedIn clerk) "7"
              [ItemObject {["cloudinaryId" := VString "villa/pool"]};
               ItemScalar VNull] eq_refl eq_refl)
    as (r & Hrun & Htotal & Hsum & _).
  exists r. split; [exact Hrun |]. split; [exact Htotal |].
  rewrite Hsum. exact Htotal.
Defined.

(** X22: the media routes store a row under the property id of the path:
    a [propertyId] inside the body, or inside an item of a batch, is
    overridden, and no row is stored when the id of the path is not a
    number. *)
Theorem media_propertyId_from_path (backend : Backend) (s : Session)
    (propertyId : string) (body : gmap string value)
    (items : list MediaItem) (data : gmap string value) :
  CreatePropertyMedia data ∈ snd (run (postMedia backend s propertyId body)) \/
  CreatePropertyMedia data
  ∈ snd (run (postMediaBatch backend s propertyId (BodyArray items))) ->
  data !! "propertyId" = Some (VNumber (parseInt propertyId)) /\
  isNaN (parseInt propertyId) = false.
Proof.
  destruct (ensureAuthenticated s) eqn:Hg.
  2, 3: unfold postMedia, postMediaBatch; rewrite Hg;
        intros [Hin | Hin]; log_cases Hin.
  destruct (isNaN (parseInt propertyId)) eqn:Hn.
  { unfold postMedia, postMediaBatch, run, try_catch. rewrite Hg.
    cbn [guarded]. cbn zeta. rewrite Hn.
    intros [Hin | Hin]; log_cases Hin. }
  intros [Hin | Hin]; (split; [| reflexivity]).
  - unfold postMedia, run, try_catch in Hin. rewrite Hg in Hin.
    cbn [guarded] in Hin. cbn zeta in Hin. rewrite Hn in Hin.
    unfold mbind, M_bind, bind, await in Hin.
    destruct (createPropertyMedia backend _); log_cases Hin;
      injection Hin as ->; apply lookup_insert_eq.
  - destruct (postMediaBatch_run backend s propertyId items Hg Hn)
      as (created & failed & log & E & _ & _ & Hlog & _).
    rewrite E in Hin. cbn [snd] in Hin.
    destruct (Hlog _ Hin) as [d [[= <-] Hd]]. exact Hd.
Qed.

Lemma media_propertyId_from_path_witness :
  (<["orderIndex" := VNumber (of_Z 0)]>
     (<["propertyId" := VNumber (of_Z 7)]>
        ({["propertyId" := VNumber (of_Z 99)]} : gmap string value)))
  !! "propertyId" = Some (VNumber (of_Z 7)).
Proof.
  apply (media_propertyId_from_path office_backend (signedIn clerk) "7" ∅
           [ItemObject {["propertyId" := VNumber (of_Z 99)]}]).
  right. vm_compute. left.
Defined.

Section DeleteMedia.
Context (backend : Backend).

Lemma deleteMedia_run (s : Session) (id : string) :
  ensureAuthenticated s = Pass ->
  run (deleteMedia backend s id) =
  let n := parseInt id in
  if isNaN n then (Returned (Message 400 "Invalid ID"), [])
  else
    match getPropertyMedia backend n with
    | None => (Returned (Forward StorageError), [GetPropertyMedia n])
    | Some media =>
        match List.find (fun item => number_eqb (media_id item) n) media with
        | None => (Returned (Message 404 "Media not found"), [GetPropertyMedia n])
        | Some mediaItem =>
            match deletePropertyMedia backend n with
            | None =>
                (Returned (Forward StorageError),
                 [GetPropertyMedia n; DeletePropertyMedia n])
            | Some false =>
                (Returned (Message 404 "Media not found"),
                 [GetPropertyMedia n; DeletePropertyMedia n])
            | Some true =>
                (Returned (Message 200 "Media deleted successfully"),
                 [GetPropertyMedia n; DeletePropertyMedia n;
                  Destroy (cloudinaryId mediaItem)
                          (resourceType (mediaType mediaItem))])
            end
        end
    end.
Proof.
  intros Hg. unfold deleteMedia. rewrite Hg. cbn [guarded]. cbn zeta.
  unfold run, try_catch.
  destruct (isNaN (parseInt id)); [reflexivity |].
  unfold mbind, M_bind, bind, await at 1.
  destruct (getPropertyMedia backend _) as [media |]; [| reflexivity].
  cbn [app].
  destruct (find _ media) as [item |]; [| reflexivity].
  unfold await at 1.
  destruct (deletePropertyMedia backend _) as [[|] |]; try reflexivity.
  cbn [app]. unfold try_catch, deleteFromCloudinary, try_catch, await, throw.
  destruct (destroy backend _ _) as [[] |]; reflexivity.
Qed.

End DeleteMedia.

(** X23: DELETE /api/admin/media/:id looks the medium up among the media
    of the property that has the same id. With a storage that returns
    for a property the media of that property only, a medium is deleted
    only if its property has its own id. *)
Theorem deleteMedia_only_own_numbered (backend : Backend) (s : Session)
    (id : string) (n : number) :
  (forall p media item,
     getPropertyMedia backend p = Some media -> item ∈ media ->
     number_eqb (media_propertyId item) p = true) ->
  DeletePropertyMedia n ∈ snd (run (deleteMedia backend s id)) ->
  n = parseInt id /\
  exists media item,
    getPropertyMedia backend n = Some media /\
    item ∈ media /\
    number_eqb (media_id item) n = true /\
    number_eqb (media_propertyId item) n = true.
Proof.
  intros Hstore.
  destruct (ensureAuthenticated s) eqn:Hg.
  2, 3: unfold deleteMedia; rewrite Hg; intros Hin; log_cases Hin.
  rewrite deleteMedia_run by exact Hg. cbn zeta.
  destruct (isNaN (parseInt id)); [intros Hin; log_cases Hin |].
  destruct (getPropertyMedia backend (parseInt id)) as [media |] eqn:Hm;
    [| intros Hin; log_cases Hin].
  destruct (find _ media) as [item |] eqn:Hf; [| intros Hin; log_cases Hin].
  intros Hin.
  assert (n = parseInt id) as ->.
  { destruct (deletePropertyMedia backend _) as [[|] |]; log_cases Hin;
      congruence. }
  split; [reflexivity |].
  apply find_some in Hf as [Hitem Heq].
  apply list_elem_of_In in Hitem.
  exists media, item. split; [exact Hm |]. split; [exact Hitem |].
  split; [exact Heq |]. exact (Hstore _ _ _ Hm Hitem).
Qed.

Lemma deleteMedia_only_own_numbered_witness :
  exists media item,
    getPropertyMedia office_backend (of_Z 7) = Some media /\
    item ∈ media /\
    number_eqb (media_id item) (of_Z 7) = true /\
    number_eqb (media_propertyId item) (of_Z 7) = true.
Proof.
  apply (deleteMedia_only_own_numbered office_backend (signedIn clerk) "7"
           (of_Z 7)).
  - intros p media item Hm Hin.
    assert (List.filter (fun m => number_eqb (media_propertyId m) p) [photo; clip]
            = media) as E by exact (f_equal (default []) Hm).
    rewrite <- E in Hin.
    apply list_elem_of_In, filter_In in Hin as [_ Hin]. exact Hin.
  - vm_compute. right. left.
Defined.

Section Inquiries.
Context (backend : Backend).

Lemma putInquiry_run (s : Session) (id : string) (status : value) :
  ensureAuthenticated s = Pass ->
  run (putInquiry backend s id status) =
  let n := parseInt id in
  if isNaN n then (Returned (Message 400 "Invalid ID"), [])
  else
    match validStatus status with
    | None => (Returned (Message 400 "Invalid status"), [])
    | Some st =>
        match updateInquiryStatus backend n st with
        | Some (Some i) => (Returned (Json 200 i), [UpdateInquiryStatus n st])
        | Some None =>
            (Returned (Message 404 "Inquiry not found"), [UpdateInquiryStatus n st])
        | None => (Returned (Forward StorageError), [UpdateInquiryStatus n st])
        end
    end.
Proof.
  intros Hg. unfold putInquiry. rewrite Hg. cbn [guarded]. cbn zeta.
  unfold run, try_catch.
  destruct (isNaN (parseInt id)); [reflexivity |].
  destruct (validStatus status) as [st |]; [| reflexivity].
  unfold mbind, M_bind, bind, await.
  destruct (updateInquiryStatus backend _ _) as [[|] |]; reflexivity.
Qed.

End Inquiries.

(** X24: PUT /api/admin/inquiries/:id hands a status to the storage only
    for an authenticated session, an id that is a number, and a status
    that is one of the strings new, contacted and resolved. *)
Theorem putInquiry_status_allowlist (backend : Backend) (s : Session)
    (id : string) (status : value) (n : number) (st : string) :
  UpdateInquiryStatus n st ∈ snd (run (putInquiry backend s id status)) ->
  ensureAuthenticated s = Pass /\
  status = VString st /\
  st ∈ ["new"; "contacted"; "resolved"] /\
  n = parseInt id /\ n <> NaN.
Proof.
  destruct (ensureAuthenticated s) eqn:Hg.
  2, 3: unfold putInquiry; rewrite Hg; intros Hin; log_cases Hin.
  rewrite putInquiry_run by exact Hg. cbn zeta.
  destruct (isNaN (parseInt id)) eqn:Hn; [intros Hin; log_cases Hin |].
  destruct (validStatus status) as [st' |] eqn:Hv; [| intros Hin; log_cases Hin].
  intros Hin.
  assert (n = parseInt id /\ st = st') as [-> ->].
  { destruct (updateInquiryStatus backend _ _) as [[|] |]; log_cases Hin;
      injection Hin as -> ->; split; reflexivity. }
  unfold validStatus in Hv.
  destruct status as [| | | | text]; try discriminate.
  destruct (ToBoolean (VString text)); [| discriminate].
  cbn [andb] in Hv. case_bool_decide as Hin'; [| discriminate].
  injection Hv as <-.
  split; [reflexivity |]. split; [reflexivity |]. split; [exact Hin' |].
  split; [reflexivity |]. intros E. rewrite E in Hn. discriminate.
Qed.

Lemma putInquiry_status_allowlist_witness :
  VString "resolved" = VString "resolved" /\
  "resolved" ∈ ["new"; "contacted"; "resolved"] /\
  of_Z 3 = parseInt "3".
Proof.
  destruct (putInquiry_status_allowlist office_backend (signedIn clerk) "3"
              (VString "resolved") (of_Z 3) "resolved")
    as (_ & Hs & Hin & Hn & _).
  - vm_compute. left.
  - split; [exact Hs |]. split; [exact Hin | exact Hn].
Defined.

Section Prefix.

Lemma append_empty (s : string) : s +:+ "" = s.
Proof.
  induction s as [| c s IH]; [reflexivity |].
  change (String c (s +:+ "") = String c s). rewrite IH. reflexivity.
Qed.

Lemma parseInt_suffix (d t : string) :
  digits d = true -> d <> "" -> ends_number t = true ->
  parseInt (d +:+ t) = parseInt d.
Proof.
  intros Hd Hne Ht.
  rewrite (parseInt_digits d t Hd Hne Ht).
  rewrite <- (append_empty d) at 2.
  rewrite (parseInt_digits d "" Hd Hne eq_refl). reflexivity.
Qed.

End Prefix.

(** X25: the routes that parse an id without a radix read its leading
    digits only: an id made of digits followed by anything that starts
    with neither a digit nor [x] behaves as the digits alone. *)
Theorem id_routes_read_numeric_prefix (storage : Storage) (backend : Backend)
    (s : Session) (query : gmap string string) (d t : string) :
  digits d = true -> d <> "" -> ends_number t = true ->
  nearbyFacilities storage {| nr_id := d +:+ t; nr_query := query |}
  = nearbyFacilities storage {| nr_id := d; nr_query := query |} /\
  getProperty backend s (d +:+ t) = getProperty backend s d /\
  deletePropertyRoute backend s (d +:+ t) = deletePropertyRoute backend s d /\
  deleteMedia backend s (d +:+ t) = deleteMedia backend s d /\
  deleteFacility backend s (d +:+ t) = deleteFacility backend s d /\
  deleteInquiryRoute backend s (d +:+ t) = deleteInquiryRoute backend s d /\
  parseInt (d +:+ t) = round64 (inject_Z (decimal_value 0 d)).
Proof.
  intros Hd Hne Ht.
  pose proof (parseInt_suffix d t Hd Hne Ht) as E.
  unfold nearbyFacilities, getProperty, deletePropertyRoute, deleteMedia,
    deleteFacility, deleteInquiryRoute.
  cbn [nr_id nr_query]. rewrite E.
  do 6 (split; [reflexivity |]).
  rewrite <- E. apply parseInt_digits; assumption.
Qed.

Lemma id_routes_read_numeric_prefix_witness :
  deleteInquiryRoute office_backend (signedIn clerk) "12abc"
  = deleteInquiryRoute office_backend (signedIn clerk) "12" /\
  parseInt "12abc" = of_Z 12.
Proof.
  destruct (id_routes_read_numeric_prefix (memoryStorage [] []) office_backend
              (signedIn clerk) ∅ "12" "abc" eq_refl ltac:(discriminate) eq_refl)
    as (_ & _ & _ & _ & _ & Hroute & Hid).
  split; [exact Hroute | exact Hid].
Defined.

(** X26: without an authenticated session none of the twenty-three
    routes that [routes.ts] registers behind [ensureSuperAdmin] or
    [ensureAuthenticated] calls the storage, the hash, the mailer or the
    media host: the four user routes answer 403, and the nineteen
    others, the creation of a facility among them, answer 401. *)
Theorem admin_routes_need_a_session (backend : Backend)
    (env : gmap string string) (now : number)
    (testEmailConfiguration sendTestEmail : M Event value)
    (storage : Storage) (math : MathLib) (s : Session)
    (id other : string) (user : UserBody) (fields : gmap string value)
    (file : UploadBody) (files : option (option (list CloudinaryFile)))
    (batch : BatchBody) (status : value) (query : gmap string string)
    (facility : FacilityBody) :
  isAuthenticated s = false ->
  (forall log,
     log ∈ [snd (run (getUsersRoute backend s));
            snd (run (postUser backend s user));
            snd (run (deleteUserRoute backend s id));
            snd (run (putUser backend s id user));
            snd (run (getDashboard backend s));
            snd (run (getPropertiesRoute backend s));
            snd (run (getProperty backend s id));
            snd (run (postProperty backend s fields));
            snd (run (putProperty backend s id fields));
            snd (run (deletePropertyRoute backend s id));
            snd (run (uploadMedia backend env now s file));
            snd (run (uploadMultiple env s files));
            snd (run (postMedia backend s id fields));
            snd (run (postMediaBatch backend s id batch));
            snd (run (deleteMedia backend s id));
            snd (run (putFeatured backend s id other));
            snd (run (deleteFacility backend s id));
            snd (run (getInquiriesRoute backend s query));
            snd (run (putInquiry backend s id status));
            snd (run (deleteInquiryRoute backend s id));
            snd (run (getEmailTestConfig testEmailConfiguration s));
            snd (run (postEmailSendTest sendTestEmail s))] ->
     log = []) /\
  (forall answer,
     answer ∈ [refusal (getUsersRoute backend s);
               refusal (postUser backend s user);
               refusal (deleteUserRoute backend s id);
               refusal (putUser backend s id user)] ->
     answer = Some (403, "Access denied - requires superadmin role")) /\
  (forall answer,
     answer ∈ [refusal (getDashboard backend s);
               refusal (getPropertiesRoute backend s);
               refusal (getProperty backend s id);
               refusal (postProperty backend s fields);
               refusal (putProperty backend s id fields);
               refusal (deletePropertyRoute backend s id);
               refusal (uploadMedia backend env now s file);
               refusal (uploadMultiple env s files);
               refusal (postMedia backend s id fields);
               refusal (postMediaBatch backend s id batch);
               refusal (deleteMedia backend s id);
               refusal (putFeatured backend s id other);
               refusal (deleteFacility backend s id);
               refusal (getInquiriesRoute backend s query);
               refusal (putInquiry backend s id status);
               refusal (deleteInquiryRoute backend s id);
               refusal (getEmailTestConfig testEmailConfiguration s);
               refusal (postEmailSendTest sendTestEmail s)] ->
     answer = Some (401, "Not authenticated")) /\
  run (createFacility storage
         {| fr_authenticated :=
              isAuthenticated s && bool_decide (is_Some (session_user s));
            fr_propertyId := id;
            fr_body := facility |})
  = (Returned (Fail 401 "Not authenticated"), []).
Proof.
  intros Ha.
  split; [| split; [| split]].
  - intros log Hlog.
    unfold getUsersRoute, postUser, deleteUserRoute, putUser, getDashboard,
      getPropertiesRoute, getProperty, postProperty, putProperty,
      deletePropertyRoute, uploadMedia, uploadMultiple, postMedia,
      postMediaBatch, deleteMedia, putFeatured, deleteFacility,
      getInquiriesRoute, putInquiry, deleteInquiryRoute, getEmailTestConfig,
      postEmailSendTest, ensureSuperAdmin, ensureAuthenticated in Hlog.
    rewrite Ha in Hlog. cbn [andb guarded] in Hlog.
    log_cases Hlog; subst log; reflexivity.
  - intros answer Hanswer.
    unfold refusal, getUsersRoute, postUser, deleteUserRoute, putUser,
      ensureSuperAdmin in Hanswer.
    rewrite Ha in Hanswer. cbn [guarded] in Hanswer.
    log_cases Hanswer; subst answer; reflexivity.
  - intros answer Hanswer.
    unfold refusal, getDashboard,
      getPropertiesRoute, getProperty, postProperty, putProperty,
      deletePropertyRoute, uploadMedia, uploadMultiple, postMedia,
      postMediaBatch, deleteMedia, putFeatured, deleteFacility,
      getInquiriesRoute, putInquiry, deleteInquiryRoute, getEmailTestConfig,
      postEmailSendTest, ensureAuthenticated in Hanswer.
    rewrite Ha in Hanswer. cbn [andb guarded] in Hanswer.
    log_cases Hanswer; subst answer; reflexivity.
  - unfold createFacility. rewrite Ha. reflexivity.
Qed.

Lemma admin_routes_need_a_session_witness :
  snd (run (getInquiriesRoute office_backend anonymous {["status" := "new"]})) = [] /\
  refusal (getUsersRoute office_backend anonymous)
  = Some (403, "Access denied - requires superadmin role") /\
  refusal (getDashboard office_backend anonymous)
  = Some (401, "Not authenticated").
Proof.
  destruct (admin_routes_need_a_session office_backend configured (of_Z 0)
              (mret VNull) (mret VNull) (memoryStorage [] []) seriesMath
              anonymous "7" "7" (newcomer "staff") ∅
              {| fileData := VString "AAAA"; fileName := VNull;
                 upload_propertyId := VNull |}
              (Some None) (BodyArray []) (VString "new") {["status" := "new"]}
              (body VUndefined VUndefined VUndefined VUndefined) eq_refl)
    as (Hquiet & Hsuperadmin & Hsession & _).
  split; [| split].
  - apply Hquiet. do 17 right. left.
  - apply Hsuperadmin. left.
  - apply Hsession. left.
Defined.

(** X27: an authenticated user whose role is not superadmin is refused
    by the three user routes with 403, before any storage call. *)
Theorem user_routes_superadmin_only (backend : Backend) (s : Session)
    (user : User) (userId : string) (body : UserBody) :
  isAuthenticated s = true ->
  session_user s = Some user ->
  user_role user <> "superadmin" ->
  let refused :=
    (Returned (Message 403 "Access denied - requires superadmin role"), []) in
  run (postUser backend s body) = refused /\
  run (deleteUserRoute backend s userId) = refused /\
  run (putUser backend s userId body) = refused.
Proof.
  intros Ha Hu Hr.
  assert (ensureSuperAdmin s
          = Deny 403 "Access denied - requires superadmin role") as Hg.
  { unfold ensureSuperAdmin, has_role. rewrite Ha, Hu.
    case_bool_decide as Hin; [| reflexivity].
    apply list_elem_of_singleton in Hin. contradiction. }
  unfold postUser, deleteUserRoute, putUser. rewrite Hg.
  repeat split; reflexivity.
Qed.

Lemma user_routes_superadmin_only_witness :
  run (postUser office_backend (signedIn clerk) (newcomer "superadmin"))
  = (Returned (Message 403 "Access denied - requires superadmin role"), []).
Proof.
  apply (user_routes_superadmin_only office_backend (signedIn clerk) clerk "1"
           (newcomer "superadmin") eq_refl eq_refl).
  discriminate.
Defined.

(* ================================================================== *)
(** ** The pager of the listing page *)
(* ================================================================== *)

Import Pager.

Section Integers.

Lemma add_integers (a b : Z) :
  Z.abs (a + b) < 2 ^ 53 -> add (of_Z a) (of_Z b) = of_Z (a + b).
Proof.
  intros H. unfold add, of_Z.
  assert ((inject_Z a + inject_Z b)%Q = inject_Z (a + b)) as ->.
  { unfold Qplus, inject_Z. simpl. rewrite !Z.mul_1_r. reflexivity. }
  apply round64_safe_integer. exact H.
Qed.

Lemma opp_integer (a : Z) : opp (of_Z a) = of_Z (- a).
Proof.
  unfold opp, of_Z. f_equal.
  change (- inject_Z a)%Q with (inject_Z (- a)). apply Qred_inject_Z.
Qed.

Lemma sub_integers (a b : Z) :
  Z.abs (a - b) < 2 ^ 53 -> sub (of_Z a) (of_Z b) = of_Z (a - b).
Proof.
  intros H. unfold sub. rewrite opp_integer. apply add_integers. exact H.
Qed.

Lemma leb_integers (a b : Z) : leb (of_Z a) (of_Z b) = (a <=? b).
Proof.
  unfold leb, of_Z. destruct (a <=? b) eqn:E.
  - apply Qle_bool_iff. rewrite <- Zle_Qle. apply Z.leb_le. exact E.
  - apply not_true_is_false. intros H. apply Qle_bool_iff in H.
    rewrite <- Zle_Qle in H. apply Z.leb_gt in E. lia.
Qed.

Lemma ltb_integers (a b : Z) : ltb (of_Z a) (of_Z b) = (a <? b).
Proof.
  change (ltb (of_Z a) (of_Z b)) with (negb (leb (of_Z b) (of_Z a))).
  rewrite leb_integers. rewrite Z.ltb_antisym. reflexivity.
Qed.

Lemma eqb_integers (a b : Z) : number_eqb (of_Z a) (of_Z b) = (a =? b).
Proof.
  unfold number_eqb, of_Z. destruct (a =? b) eqn:E.
  - apply Z.eqb_eq in E. subst. apply Qeq_bool_iff. reflexivity.
  - apply not_true_is_false. intros H. apply Qeq_bool_iff in H.
    apply Z.eqb_neq in E. apply E.
    unfold Qeq, inject_Z in H. simpl in H. lia.
Qed.

Lemma Math_max_integers (a b : Z) :
  Math_max (of_Z a) (of_Z b) = of_Z (Z.max a b).
Proof.
  change (Math_max (of_Z a) (of_Z b))
    with (if leb (of_Z a) (of_Z b) then of_Z b else of_Z a).
  rewrite leb_integers. destruct (a <=? b) eqn:E; f_equal.
  - apply Z.leb_le in E. lia.
  - apply Z.leb_gt in E. lia.
Qed.

Lemma Math_min_integers (a b : Z) :
  Math_min (of_Z a) (of_Z b) = of_Z (Z.min a b).
Proof.
  change (Math_min (of_Z a) (of_Z b))
    with (if leb (of_Z a) (of_Z b) then of_Z a else of_Z b).
  rewrite leb_integers. destruct (a <=? b) eqn:E; f_equal.
  - apply Z.leb_le in E. lia.
  - apply Z.leb_gt in E. lia.
Qed.

Lemma range_cons (lo hi : Z) :
  lo <= hi -> range lo hi = lo :: range (lo + 1) hi.
Proof.
  intros H. unfold range.
  replace (Z.to_nat (hi - lo + 1)) with (S (Z.to_nat (hi - (lo + 1) + 1))) by lia.
  cbn [seq fmap list_fmap]. f_equal; [lia |].
  rewrite <- seq_shift, <- list_fmap_compose.
  apply list_fmap_ext. intros _ k _. cbn. lia.
Qed.

Lemma range_nil (lo hi : Z) : hi < lo -> range lo hi = [].
Proof.
  intros H. unfold range.
  replace (Z.to_nat (hi - lo + 1)) with 0%nat by lia. reflexivity.
Qed.

Lemma range_length (lo hi : Z) :
  length (range lo hi) = Z.to_nat (hi - lo + 1).
Proof. unfold range. rewrite length_fmap, length_seq. reflexivity. Qed.

Lemma elem_of_range (lo hi k : Z) : k ∈ range lo hi <-> lo <= k <= hi.
Proof.
  unfold range. rewrite list_elem_of_fmap. split.
  - intros [n [-> Hn]]. apply elem_of_seq in Hn. lia.
  - intros H. exists (Z.to_nat (k - lo)). split; [lia |].
    apply elem_of_seq. lia.
Qed.

End Integers.

Section PagerFacts.

(** The loop on integers below [2^53]: it ends, with one link per
    page from [i] to [e]. *)
Lemma pageLinks_integers (c e : Z) (fuel : nat) :
  forall i : Z,
    Z.abs i < 2 ^ 53 - 1 -> e < 2 ^ 53 - 2 ->
    (Z.to_nat (e - i + 1) < fuel)%nat ->
    pageLinks fuel (of_Z i) (of_Z e) (of_Z c)
    = Some ((fun k => PaginationLink (of_Z k) (k =? c)) <$> range i e).
Proof.
  induction fuel as [| fuel IH]; intros i Hi He Hfuel; [lia |].
  cbn [pageLinks]. rewrite leb_integers.
  destruct (i <=? e) eqn:E.
  - apply Z.leb_le in E.
    rewrite add_integers by lia. rewrite IH by lia.
    rewrite (range_cons i e E), eqb_integers. reflexivity.
  - apply Z.leb_gt in E. rewrite range_nil by lia. reflexivity.
Qed.

Lemma startPage_integer (c : Z) :
  Z.abs c < 2 ^ 53 - 8 -> startPage (of_Z c) = of_Z (Z.max 1 (c - 2)).
Proof.
  intros Hc. unfold startPage.
  change (Math_floor (div maxVisiblePages (of_Z 2))) with (of_Z 2).
  rewrite sub_integers by lia. apply Math_max_integers.
Qed.

Lemma endPage_integer (c p : Z) :
  Z.abs c < 2 ^ 53 - 8 ->
  endPage (of_Z c) (of_Z p) = of_Z (Z.min p (Z.max 1 (c - 2) + 4)).
Proof.
  intros Hc. unfold endPage, maxVisiblePages.
  rewrite startPage_integer by exact Hc.
  rewrite add_integers by lia. rewrite sub_integers by lia.
  rewrite Math_min_integers. f_equal. lia.
Qed.

(** The pager on integers. *)
Lemma renderPaginationItems_integers (fuel : nat) (c p : Z) :
  (6 <= fuel)%nat -> 1 <= c < 2 ^ 53 - 8 -> 1 <= p < 2 ^ 53 - 8 ->
  let s := Z.max 1 (c - 2) in
  let e := Z.min p (s + 4) in
  renderPaginationItems fuel (of_Z c) (of_Z p) =
  Some ([PaginationPrevious (c =? 1)]
        ++ (if 1 <? s
            then PaginationLink (of_Z 1) false
                 :: (if 2 <? s then [PaginationEllipsis "ellipsis-start"] else [])
            else [])
        ++ ((fun k => PaginationLink (of_Z k) (k =? c)) <$> range s e)
        ++ (if e <? p
            then (if e <? p - 1 then [PaginationEllipsis "ellipsis-end"] else [])
                 ++ [PaginationLink (of_Z p) false]
            else [])
        ++ [PaginationNext (c =? p)])%list.
Proof.
  intros Hfuel Hc Hp s e. unfold renderPaginationItems. cbv zeta.
  rewrite startPage_integer, endPage_integer by lia.
  fold s. fold e.
  rewrite pageLinks_integers by lia.
  cbn [mbind option_bind].
  rewrite !ltb_integers, !eqb_integers, sub_integers by lia.
  rewrite ltb_integers. reflexivity.
Qed.

End PagerFacts.

Section PagerWindow.

Lemma linked_links (c : Z) (l : list Z) :
  linked ((fun k => PaginationLink (of_Z k) (k =? c)) <$> l) = of_Z <$> l.
Proof. induction l as [| k l IH]; [reflexivity |]. cbn. f_equal. exact IH. Qed.

(** The pages linked by the pager on integers: the first page, the
    window, the last page. *)
Lemma linked_integers (fuel : nat) (c p : Z) :
  (6 <= fuel)%nat -> 1 <= c < 2 ^ 53 - 8 -> 1 <= p < 2 ^ 53 - 8 ->
  let s := Z.max 1 (c - 2) in
  let e := Z.min p (s + 4) in
  exists items,
    renderPaginationItems fuel (of_Z c) (of_Z p) = Some items /\
    linked items
    = of_Z <$> ((if 1 <? s then [1] else []) ++ range s e
                ++ (if e <? p then [p] else []))%list /\
    forall k, PaginationLink (of_Z k) true ∈ items <-> k = c /\ s <= k <= e.
Proof.
  intros Hfuel Hc Hp s e.
  rewrite renderPaginationItems_integers by lia. fold s. fold e.
  eexists. split; [reflexivity |]. split.
  - unfold linked. rewrite !omap_app. fold linked. rewrite linked_links.
    rewrite !fmap_app.
    destruct (1 <? s), (2 <? s), (e <? p), (e <? p - 1); reflexivity.
  - intros k. split.
    + intros Hk.
      apply elem_of_app in Hk as [Hk | Hk]; [log_cases Hk |].
      apply elem_of_app in Hk as [Hk | Hk].
      { destruct (1 <? s), (2 <? s); log_cases Hk. }
      apply elem_of_app in Hk as [Hk | Hk].
      { apply list_elem_of_fmap in Hk as [k' [Hk' Hin]].
        apply elem_of_range in Hin.
        injection Hk' as Hkk Hact. symmetry in Hact. apply Z.eqb_eq in Hact.
        assert (k = k') as -> by exact Hkk. lia. }
      apply elem_of_app in Hk as [Hk | Hk]; [| log_cases Hk].
      destruct (e <? p), (e <? p - 1); log_cases Hk.
    + intros [-> Hin].
      apply elem_of_app. right. apply elem_of_app. right.
      apply elem_of_app. left. apply list_elem_of_fmap.
      exists c. split; [rewrite Z.eqb_refl; reflexivity |].
      apply elem_of_range. exact Hin.
Qed.

End PagerWindow.

(** X28: for a current page between 1 and the number of pages, the loop
    of the pager ends and the pager links the first page, a window of
    one to five consecutive pages that starts two pages before the
    current one (at page 1 at the earliest), and the last page. The
    current page is in the window, and it is the only active link. *)
Theorem pager_window_holds_current_page (fuel : nat) (c p : Z) :
  (6 <= fuel)%nat -> 1 <= c -> c <= p -> p < 2 ^ 53 - 8 ->
  let s := Z.max 1 (c - 2) in
  let e := Z.min p (s + 4) in
  exists items,
    renderPaginationItems fuel (of_Z c) (of_Z p) = Some items /\
    linked items
    = of_Z <$> ((if 1 <? s then [1] else []) ++ range s e
                ++ (if e <? p then [p] else []))%list /\
    (1 <= length (range s e) <= 5)%nat /\
    PaginationLink (of_Z c) true ∈ items /\
    forall k, PaginationLink (of_Z k) true ∈ items -> k = c.
Proof.
  intros Hfuel Hc Hcp Hp s e.
  destruct (linked_integers fuel c p Hfuel ltac:(lia) ltac:(lia))
    as (items & Hrun & Hlinked & Hactive).
  exists items. split; [exact Hrun |]. split; [exact Hlinked |].
  split; [| split].
  - rewrite range_length. lia.
  - apply Hactive. lia.
  - intros k Hk. apply Hactive in Hk. lia.
Qed.

Lemma pager_window_holds_current_page_witness :
  exists items,
    renderPaginationItems 6 (of_Z 7) (of_Z 10) = Some items /\
    linked items = of_Z <$> [1; 5; 6; 7; 8; 9; 10] /\
    PaginationLink (of_Z 7) true ∈ items.
Proof.
  destruct (pager_window_holds_current_page 6 7 10)
    as (items & Hrun & Hlinked & _ & Hcurrent & _);
    [lia | lia | lia | reflexivity |].
  exists items. split; [exact Hrun |]. split; [exact Hlinked | exact Hcurrent].
Defined.

(** X29: for a current page between 1 and the number of pages, the pager
    links the first and the last page, and links no page twice. *)
Theorem pager_reaches_first_and_last (fuel : nat) (c p : Z) :
  (6 <= fuel)%nat -> 1 <= c -> c <= p -> p < 2 ^ 53 - 8 ->
  exists items,
    renderPaginationItems fuel (of_Z c) (of_Z p) = Some items /\
    of_Z 1 ∈ linked items /\
    of_Z p ∈ linked items /\
    NoDup (linked items).
Proof.
  intros Hfuel Hc Hcp Hp.
  destruct (linked_integers fuel c p Hfuel ltac:(lia) ltac:(lia))
    as (items & Hrun & Hlinked & _).
  exists items. split; [exact Hrun |]. rewrite Hlinked.
  set (s := Z.max 1 (c - 2)). set (e := Z.min p (s + 4)).
  split; [| split].
  - apply list_elem_of_fmap. exists 1. split; [reflexivity |].
    destruct (1 <? s) eqn:E; [left |].
    apply Z.ltb_ge in E. apply elem_of_app. right.
    apply elem_of_app. left. apply elem_of_range. lia.
  - apply list_elem_of_fmap. exists p. split; [reflexivity |].
    apply elem_of_app. right.
    destruct (e <? p) eqn:E.
    + apply elem_of_app. right. left.
    + apply Z.ltb_ge in E. apply elem_of_app. left. apply elem_of_range. lia.
  - apply NoDup_fmap_2.
    { intros a b H. unfold of_Z in H. injection H as H. exact H. }
    apply NoDup_app. split; [| split].
    + destruct (1 <? s); [apply NoDup_singleton | apply NoDup_nil_2].
    + intros k Hk Hk'. destruct (1 <? s) eqn:E; [| log_cases Hk].
      apply Z.ltb_lt in E. log_cases Hk. subst k.
      apply elem_of_app in Hk' as [Hk' | Hk'].
      * apply elem_of_range in Hk'. lia.
      * destruct (e <? p) eqn:E'; log_cases Hk'.
        apply Z.ltb_lt in E'. lia.
    + apply NoDup_app. split; [| split].
      * unfold range. apply NoDup_fmap_2; [| apply NoDup_seq].
        intros a b H. lia.
      * intros k Hk Hk'. apply elem_of_range in Hk.
        destruct (e <? p) eqn:E'; log_cases Hk'.
        apply Z.ltb_lt in E'. lia.
      * destruct (e <? p); [apply NoDup_singleton | apply NoDup_nil_2].
Qed.

Lemma pager_reaches_first_and_last_witness :
  exists items,
    renderPaginationItems 6 (of_Z 1) (of_Z 40) = Some items /\
    of_Z 1 ∈ linked items /\
    of_Z 40 ∈ linked items /\
    NoDup (linked items).
Proof.
  apply (pager_reaches_first_and_last 6 1 40); [lia | lia | lia | reflexivity].
Defined.

(** X30: when the page parameter of the address does not parse to a
    number, the pager consists of the previous and next controls alone,
    whatever the number of pages. *)
Theorem pager_without_page_number (fuel : nat) (page : option string)
    (pages : number) :
  currentPage page = NaN ->
  renderPaginationItems (S fuel) (currentPage page) pages
  = Some [PaginationPrevious false; PaginationNext false].
Proof.
  intros ->. unfold renderPaginationItems, startPage, endPage. cbn.
  destruct pages; reflexivity.
Qed.

Lemma pager_without_page_number_witness :
  renderPaginationItems 1 (currentPage (Some "two")) (of_Z 4)
  = Some [PaginationPrevious false; PaginationNext false].
Proof.
  apply (pager_without_page_number 0 (Some "two") (of_Z 4)). reflexivity.
Defined.
